(** * jiraTable: duration parsing, worklog aggregation and route handlers

    A shallow embedding of the parts of the dashboard that compute something:
    the client-side duration parser and formatter of the issue detail panel
    and its rendering of rich text, the weekly timesheet view, the columns
    of the Kanban board, the project list, stars, side panels and issue
    search of the application shell, and the Express route handlers of the
    server (worklog aggregation, subtask creation, error responses).

    JavaScript values are modelled as follows.
    - A string is the list of its UTF-16 code units ([jsstring]).
    - An integral number is a [Z]; JavaScript numbers are IEEE-754 doubles, so
      this is exact for magnitudes up to 2^53 - 1 ([MAX_SAFE_INTEGER]).
      Where the source divides, the double rounding is written out ([JsNum]).
    - [undefined]/[null] is [None].  *)

From Stdlib Require Import ZArith NArith List Bool Lia String Ascii.
From Stdlib Require Import QArith Qround Qpower Qabs Lqa.
From Corelib Require Import PrimFloat FloatOps SpecFloat.
From Stdlib Require Import Uint63.
From Stdlib Require Import Permutation Sorted.
Import ListNotations.

(* ------------------------------------------------------------------ *)
(** ** JavaScript strings *)

Module JsString.

Definition jsstring := list N.

(** A source literal, code unit by code unit (ASCII literals only). *)
Definition lit (s : string) : jsstring :=
  List.map N_of_ascii (list_ascii_of_string s).

Definition ch (a : ascii) : N := N_of_ascii a.

(** [\d] without the [u] flag: the ASCII digits. *)
Definition isDigit (c : N) : bool := ((48 <=? c) && (c <=? 57))%N.

(** [\s], and the characters [trim] strips: WhiteSpace and LineTerminator of
    ECMAScript (TAB, LF, VT, FF, CR, SP, NBSP, U+1680, U+2000..U+200A,
    U+2028, U+2029, U+202F, U+205F, U+3000, U+FEFF). *)
Definition isSpace (c : N) : bool :=
  (((9 <=? c) && (c <=? 13)) || (c =? 32) || (c =? 160) || (c =? 5760)
   || ((8192 <=? c) && (c <=? 8202)) || (c =? 8232) || (c =? 8233)
   || (c =? 8239) || (c =? 8287) || (c =? 12288) || (c =? 65279))%N.

Fixpoint dropWhile (p : N -> bool) (s : jsstring) : jsstring :=
  match s with
  | c :: s' => if p c then dropWhile p s' else s
  | [] => []
  end.

Fixpoint takeWhile (p : N -> bool) (s : jsstring) : jsstring :=
  match s with
  | c :: s' => if p c then c :: takeWhile p s' else []
  | [] => []
  end.

Definition trimStart (s : jsstring) : jsstring := dropWhile isSpace s.
Definition trimEnd (s : jsstring) : jsstring := rev (dropWhile isSpace (rev s)).

(** [String.prototype.trim]. *)
Definition trim (s : jsstring) : jsstring := trimEnd (trimStart s).

(** Value of a run of decimal digits, most significant first. *)
Definition digitsValue (ds : jsstring) : Z :=
  fold_left (fun acc c => 10 * acc + (Z.of_N c - 48))%Z ds 0%Z.

(** Decimal digits of a natural number, as [Number.prototype.toString]
    prints an integer below 10^21. *)
Fixpoint digitsFrom (fuel : nat) (n : N) (acc : jsstring) : jsstring :=
  let acc' := (48 + n mod 10)%N :: acc in
  match fuel with
  | O => acc'
  | S f => if (n <? 10)%N then acc' else digitsFrom f (n / 10)%N acc'
  end.

Definition natToString (n : N) : jsstring :=
  digitsFrom (N.to_nat (N.log2 n)) n [].

(** [String(z)] for an integral number. *)
Definition numToString (z : Z) : jsstring :=
  match z with
  | Zneg p => ch "-" :: natToString (Npos p)
  | _ => natToString (Z.to_N z)
  end.

End JsString.
Import JsString.

(* ------------------------------------------------------------------ *)
(** ** Numbers that may be NaN *)

Module JsNumber.

(** The result of [parseInt] and of arithmetic on it. *)
Inductive num := NaN | Num (z : Z).

Definition mul (a b : num) : num :=
  match a, b with Num x, Num y => Num (x * y) | _, _ => NaN end.

Definition add (a b : num) : num :=
  match a, b with Num x, Num y => Num (x + y) | _, _ => NaN end.

(** [parseInt(s)] with no radix, for input that holds no sign, blank or
    [0x] prefix (here it only ever receives a capture of [(\d+)] or the
    literal ['0']): the longest prefix of decimal digits, NaN when empty. *)
Definition parseInt (s : jsstring) : num :=
  match takeWhile isDigit s with
  | [] => NaN
  | ds => Num (digitsValue ds)
  end.

(** ToBoolean of a number. *)
Definition truthy (n : num) : bool :=
  match n with NaN => false | Num z => negb (z =? 0)%Z end.

Definition MAX_SAFE_INTEGER : Z := 2 ^ 53 - 1.

End JsNumber.
Import JsNumber.

(* ------------------------------------------------------------------ *)
(** ** A backtracking matcher for the regular expressions of the source *)

Module Regex.

(** The constructs the source's pattern uses.  Quantifiers are greedy. *)
Inductive re :=
| Chr (c : N)                 (* a literal character *)
| Plus (p : N -> bool)        (* [class]+ *)
| Star (p : N -> bool)        (* [class]* *)
| Seq (r1 r2 : re)
| Opt (r : re)                (* (?: r )? *)
| Cap (i : nat) (r : re).     (* capturing group number i *)

(** The match array: index 0 is the whole match, index i the i-th group. *)
Definition captures := list (option jsstring).

Fixpoint setCap (i : nat) (v : jsstring) (c : captures) : captures :=
  match i, c with
  | O, _ :: c' => Some v :: c'
  | S j, x :: c' => x :: setCap j v c'
  | _, [] => []
  end.

Definition group (c : captures) (i : nat) : option jsstring :=
  nth i c None.

Definition cont := jsstring -> captures -> option captures.

(** Greedy repetition of a character class: take one more character first,
    fall back to the continuation when the longer attempt fails. *)
Fixpoint star (p : N -> bool) (s : jsstring) (c : captures) (k : cont)
  : option captures :=
  match s with
  | x :: s' =>
      if p x then
        match star p s' c k with
        | Some r => Some r
        | None => k s c
        end
      else k s c
  | [] => k s c
  end.

(** [m r s c k]: match [r] at the front of [s], then the continuation [k] on
    the rest; [None] when every alternative fails. *)
Fixpoint m (r : re) (s : jsstring) (c : captures) (k : cont)
  : option captures :=
  match r with
  | Chr a =>
      match s with
      | x :: s' => if (x =? a)%N then k s' c else None
      | [] => None
      end
  | Plus p =>
      match s with
      | x :: s' => if p x then star p s' c k else None
      | [] => None
      end
  | Star p => star p s c k
  | Seq r1 r2 => m r1 s c (fun s' c' => m r2 s' c' k)
  | Opt r1 =>
      match m r1 s c k with
      | Some res => Some res
      | None => k s c
      end
  | Cap i r1 =>
      m r1 s c
        (fun s' c' => k s' (setCap i (firstn (List.length s - List.length s') s) c'))
  end.

(** One attempt at a fixed start position. *)
Definition matchAt (r : re) (ngroups : nat) (s : jsstring) : option captures :=
  m r s (repeat None (S ngroups))
    (fun s' c' => Some (setCap 0 (firstn (List.length s - List.length s') s) c')).

(** [str.match(re)] for a pattern without the [g] flag: the first start
    position, left to right, at which the pattern matches; [null] if none. *)
Fixpoint exec (r : re) (ngroups : nat) (s : jsstring) : option captures :=
  match matchAt r ngroups s with
  | Some c => Some c
  | None =>
      match s with
      | _ :: s' => exec r ngroups s'
      | [] => None
      end
  end.

End Regex.
Import Regex.

(* ------------------------------------------------------------------ *)
(** ** The issue detail panel: durations *)

Module IssueDetailPanel.

(** The pattern of [parseTimeToSeconds]: four optional groups in a row,
    [(\d+)w] then blanks, [(\d+)d] then blanks, [(\d+)h] then blanks, and
    [(\d+)m]; the blanks are a greedy [\s] star inside each of the first
    three groups, and the pattern is not anchored. *)
Definition regex : re :=
  Seq (Opt (Seq (Cap 1 (Plus isDigit)) (Seq (Chr (ch "w")) (Star isSpace))))
 (Seq (Opt (Seq (Cap 2 (Plus isDigit)) (Seq (Chr (ch "d")) (Star isSpace))))
 (Seq (Opt (Seq (Cap 3 (Plus isDigit)) (Seq (Chr (ch "h")) (Star isSpace))))
      (Opt (Seq (Cap 4 (Plus isDigit)) (Chr (ch "m")))))).

(** [match[i] || '0']. *)
Definition orZero (g : option jsstring) : jsstring :=
  match g with
  | Some [] | None => lit "0"
  | Some s => s
  end.

Definition parseTimeToSeconds (timeStr : jsstring) : option num :=
  match exec regex 4 (trim timeStr) with
  | None => None
  | Some mt =>
      let weeks := parseInt (orZero (group mt 1)) in
      let days := parseInt (orZero (group mt 2)) in
      let hours := parseInt (orZero (group mt 3)) in
      let minutes := parseInt (orZero (group mt 4)) in
      Some (add (add (add (mul (mul (mul weeks (Num 5)) (Num 8)) (Num 3600))
                          (mul (mul days (Num 8)) (Num 3600)))
                     (mul hours (Num 3600)))
                (mul minutes (Num 60)))
  end.

(** What [handleLogTime] does with the text of the time field. *)
Inductive logTimeOutcome :=
| Ignored                      (* blank field: nothing happens *)
| InvalidFormat                (* alert('Invalid time format...') *)
| Posted (seconds : num).      (* POST /api/issues/:key/worklog *)

(** [!seconds] for [seconds : number | null]. *)
Definition falsy (seconds : option num) : bool :=
  match seconds with
  | None => true
  | Some n => negb (truthy n)
  end.

Definition handleLogTime (timeSpent : jsstring) : logTimeOutcome :=
  match trim timeSpent with
  | [] => Ignored
  | _ =>
      let seconds := parseTimeToSeconds timeSpent in
      if falsy seconds then InvalidFormat
      else match seconds with
           | Some n => Posted n
           | None => InvalidFormat
           end
  end.

End IssueDetailPanel.

(* ------------------------------------------------------------------ *)
(** ** formatHours (WorklogSummary and WeeklyTimesheet) *)

Module Format.

(** [`${Math.floor(seconds / 3600)}h ${Math.floor((seconds % 3600) / 60)}m`]
    for an integral [seconds]; [%] is the truncating remainder. *)
Definition formatHours (seconds : Z) : jsstring :=
  let hours := (seconds / 3600)%Z in
  let minutes := (Z.rem seconds 3600 / 60)%Z in
  numToString hours ++ lit "h " ++ numToString minutes ++ lit "m".

End Format.

(* ------------------------------------------------------------------ *)
(** ** Double-precision arithmetic

    A finite double is modelled by the rational it denotes.  An arithmetic
    operation of JavaScript returns the exact result rounded to the nearest
    binary64 value, ties to the even significand ([roundNE]).  Results beyond
    the largest finite double are outside this model; no value of this
    program comes near them. *)

Module JsDouble.

Local Open Scope Q_scope.

Definition pow2 (e : Z) : Q := Qpower 2 e.

(** Floor of the binary logarithm of a positive rational. *)
Definition ilog2 (x : Q) : Z :=
  let l := (Z.log2 (Qnum x) - Z.log2 (Zpos (Qden x)))%Z in
  if Qle_bool (pow2 l) x then l else (l - 1)%Z.

(** Nearest integer, ties to even. *)
Definition rne (y : Q) : Z :=
  let f := Qfloor y in
  match Qcompare (y - inject_Z f) (1 # 2) with
  | Lt => f
  | Gt => (f + 1)%Z
  | Eq => if Z.even f then f else (f + 1)%Z
  end.

(** Rounding of a positive rational to 53 significant bits; below 2^-1022
    the spacing stays 2^-1074 (subnormal numbers). *)
Definition roundPos (x : Q) : Q :=
  let e := Z.max (ilog2 x - 52) (-1074) in
  Qred (inject_Z (rne (x / pow2 e)) * pow2 e).

Definition roundNE (x : Q) : Q :=
  match Qnum x with
  | Z0 => 0
  | Zpos _ => roundPos x
  | Zneg _ => Qred (- roundPos (- x))
  end.

Definition fdiv (a b : Q) : Q := roundNE (a / b).
Definition fmul (a b : Q) : Q := roundNE (a * b).

(** The Number value of an integer (exact up to 2^53). *)
Definition ofZ (z : Z) : Q := roundNE (inject_Z z).

(** [Math.round]: the nearest integer, a tie going up. *)
Definition MathRound (x : Q) : Z := Qfloor (x + (1 # 2)).

(** [Math.min] on integral values. *)
Definition MathMin (a b : Z) : Z := Z.min a b.

End JsDouble.

(* ------------------------------------------------------------------ *)
(** ** Dates

    A [Date] is its time value: milliseconds since the epoch, in UTC.  The
    day arithmetic is that of ECMAScript ([Day], [TimeWithinDay], [WeekDay],
    [MakeDay], [MakeDate], [MakeTime]) over the proleptic Gregorian calendar.
    The server's time zone is taken to have one constant offset [tz] from
    UTC (no daylight-saving change within the days looked at). *)

Module JsDate.

Local Open Scope Z_scope.

Definition msPerDay : Z := 86400000.

Definition Day (t : Z) : Z := t / msPerDay.
Definition TimeWithinDay (t : Z) : Z := t mod msPerDay.

(** 0 is Sunday; day 0 of the epoch was a Thursday. *)
Definition WeekDay (t : Z) : Z := (Day t + 4) mod 7.

(** Year, month (0..11) and day of month (1..31) of a day number. *)
Definition civilFromDays (n : Z) : Z * Z * Z :=
  let z := n + 719468 in
  let era := z / 146097 in
  let doe := z mod 146097 in
  let yoe := (doe - doe / 1460 + doe / 36524 - doe / 146096) / 365 in
  let doy := doe - (365 * yoe + yoe / 4 - yoe / 100) in
  let mp := (5 * doy + 2) / 153 in
  let d := doy - (153 * mp + 2) / 5 + 1 in
  let m := if mp <? 10 then mp + 2 else mp - 10 in
  let y := yoe + era * 400 + (if m <=? 1 then 1 else 0) in
  (y, m, d).

(** Day number of a year, month (0..11) and day of month. *)
Definition daysFromCivil (y m d : Z) : Z :=
  let y := y - (if m <=? 1 then 1 else 0) in
  let era := y / 400 in
  let yoe := y mod 400 in
  let mp := (m + 10) mod 12 in
  let doy := (153 * mp + 2) / 5 + d - 1 in
  let doe := yoe * 365 + yoe / 4 - yoe / 100 + doy in
  era * 146097 + doe - 719468.

Definition YearFromTime (t : Z) : Z := fst (fst (civilFromDays (Day t))).
Definition MonthFromTime (t : Z) : Z := snd (fst (civilFromDays (Day t))).
Definition DateFromTime (t : Z) : Z := snd (civilFromDays (Day t)).

Definition MakeTime (hour min sec ms : Z) : Z :=
  hour * 3600000 + min * 60000 + sec * 1000 + ms.

(** The day number of the first of the month, moved by [date - 1] days; a
    month outside 0..11 carries into the year. *)
Definition MakeDay (year month date : Z) : Z :=
  daysFromCivil (year + month / 12) (month mod 12) 1 + date - 1.

Definition MakeDate (day time : Z) : Z := day * msPerDay + time.

Section LocalZone.

Variable tz : Z.

Definition LocalTime (t : Z) : Z := t + tz.
Definition UTC (t : Z) : Z := t - tz.

Definition getDay (t : Z) : Z := WeekDay (LocalTime t).
Definition getDate (t : Z) : Z := DateFromTime (LocalTime t).
Definition getMonth (t : Z) : Z := MonthFromTime (LocalTime t).
Definition getFullYear (t : Z) : Z := YearFromTime (LocalTime t).

Definition setDate (t date : Z) : Z :=
  let lt := LocalTime t in
  UTC (MakeDate (MakeDay (YearFromTime lt) (MonthFromTime lt) date)
                (TimeWithinDay lt)).

Definition setMonth (t month date : Z) : Z :=
  let lt := LocalTime t in
  UTC (MakeDate (MakeDay (YearFromTime lt) month date) (TimeWithinDay lt)).

Definition setHours (t hour min sec ms : Z) : Z :=
  let lt := LocalTime t in
  UTC (MakeDate (Day lt) (MakeTime hour min sec ms)).

End LocalZone.

(** [d.toISOString().split('T')[0]]: the UTC calendar date of the instant,
    kept as (year, month 1..12, day) in place of its text YYYY-MM-DD. *)
Definition isoDate := (Z * Z * Z)%type.

Definition toISODate (t : Z) : isoDate :=
  let '(y, mo, d) := civilFromDays (Day t) in (y, mo + 1, d).

Definition isoDate_eqb (a b : isoDate) : bool :=
  let '(y1, m1, d1) := a in
  let '(y2, m2, d2) := b in
  (y1 =? y2) && (m1 =? m2) && (d1 =? d2).

End JsDate.
Import JsDate.

(* ------------------------------------------------------------------ *)
(** ** The server: upstream calls, responses and the route handlers

    Server-side text (keys, identifiers, messages) is only copied and
    compared, so it is kept as [string].  The upstream API is an oracle
    [Upstream] that answers each request of a handler with a payload, already
    read into the fields the handler uses, or with a failure; a handler
    returns the requests it made, in order, and the response it sent.
    [console.error] is not modelled. *)

Module Server.

Import JsDouble.
Local Open Scope string_scope.
Local Open Scope Z_scope.
Local Open Scope list_scope.

#[warnings="-register-all"]
Inductive Json :=
| JNull
| JBool (b : bool)
| JNum (q : Q)
| JStr (s : string)
| JArr (items : list Json)
| JObj (fields : list (string * Json)).

Definition jnum (z : Z) : Json := JNum (inject_Z z).

(** ToBoolean. *)
Definition jsTruthy (j : Json) : bool :=
  match j with
  | JNull => false
  | JBool b => b
  | JNum q => negb (Qeq_bool q 0)
  | JStr s => negb (String.eqb s "")
  | JArr _ | JObj _ => true
  end.

(** A property of an object literal whose value may be [undefined]: the
    serialised body then has no such key. *)
Definition prop (k : string) (v : option Json) : list (string * Json) :=
  match v with
  | Some j => [(k, j)]
  | None => []
  end.

Fixpoint lookup (k : string) (fields : list (string * Json)) : option Json :=
  match fields with
  | (k', v) :: rest => if String.eqb k k' then Some v else lookup k rest
  | [] => None
  end.

(** [obj.k] for a parsed JSON value. *)
Definition getField (k : string) (j : Json) : option Json :=
  match j with
  | JObj fields => lookup k fields
  | _ => None
  end.

(** What a rejected axios call carries: [error.message] and
    [error.response?.data]. *)
Record UpstreamError := {
  message : string;
  responseData : option Json
}.

Inductive result (A : Type) :=
| Ok (data : A)
| Failed (e : UpstreamError).
Arguments Ok {A} data.
Arguments Failed {A} e.

Record User := { accountId : string; displayName : Json }.

(** [issue.key] and [issue.fields.summary] of a search hit. *)
Record Issue := { key : string; summary : Json }.

(** A worklog of the upstream API; [started] is the instant that
    [new Date(worklog.started)] denotes. *)
Record Worklog := {
  wl_id : Json;
  wl_author : string;            (* worklog.author.accountId *)
  wl_started : Z;
  wl_timeSpentSeconds : Z;
  wl_comment : option Json
}.

Record IssueType := { it_id : string; it_name : string; it_subtask : bool }.

Record Project := { projectKey : string; projectName : string }.

(** [fields] of the issue that the subtask route creates. *)
Record IssueFields := {
  f_project : string;
  f_parent : string;
  f_summary : Json;
  f_issuetype : string
}.

Record Created := { createdKey : string; createdData : Json }.

(** The requests the handlers send to the upstream API. *)
Inductive call :=
| GetProjects                                              (* GET /project *)
| SearchIssues (jql : Json) (maxResults : Json) (fields : string)
                                                           (* GET /search/jql *)
| GetIssue (issueKey fields : string) (expand : option string)
                                                           (* GET /issue/:key *)
| PutIssue (issueKey : string) (body : Json)               (* PUT /issue/:key *)
| GetMyself                                                (* GET /myself *)
| SearchWorklogIssues (since : isoDate)
    (* GET /search/jql with jql
       worklogAuthor = currentUser() AND worklogDate >= "<since>"
       ORDER BY updated DESC, fields summary,worklog, maxResults 1000 *)
| GetWorklogs (issueKey : string)                  (* GET /issue/:key/worklog *)
| PostWorklog (issueKey : string) (body : Json)   (* POST /issue/:key/worklog *)
| PostComment (issueKey : string) (body : Json)   (* POST /issue/:key/comment *)
| GetStatuses                                              (* GET /status *)
| GetTransitions (issueKey : string)           (* GET /issue/:key/transitions *)
| PostTransition (issueKey : string) (body : Json)
| GetProjectStatuses (projectKey : string)   (* GET /project/:key/statuses *)
| PostIssue (fields : IssueFields).                        (* POST /issue *)

Record Upstream := {
  up_projects : result Json;
  up_search : Json -> Json -> string -> result Json;
  up_issue : string -> result Json;
  up_issueSubtasks : string -> result (option Json);
  up_issueProject : string -> result Project;
  up_putIssue : string -> Json -> result Json;
  up_myself : result User;
  up_worklogIssues : isoDate -> result (list Issue);
  up_worklogs : string -> result (list Worklog);
  up_postWorklog : string -> Json -> result Json;
  up_postComment : string -> Json -> result Json;
  up_statuses : result Json;
  up_transitions : string -> result Json;
  up_postTransition : string -> Json -> result Json;
  up_projectStatuses : string -> result (list IssueType);
  up_postIssue : IssueFields -> result Created
}.

(** *** Handlers as computations: the requests made so far, each with the
    error it was rejected with if any, and a value or the error thrown. *)

Definition event : Type := (call * option UpstreamError)%type.

Definition M (A : Type) : Type := (list event * result A)%type.

Definition ret {A} (a : A) : M A := ([], Ok a).

Definition bind {A B} (x : M A) (f : A -> M B) : M B :=
  match x with
  | (tr, Ok a) => let '(tr', r) := f a in (tr ++ tr', r)
  | (tr, Failed e) => (tr, Failed e)
  end.

(** [await jiraApi.<method>(...)]. *)
Definition request {A} (c : call) (answer : result A) : M A :=
  ([(c, match answer with Ok _ => None | Failed e => Some e end)], answer).

(** [try { x } catch (e) { h e }]. *)
Definition catch {A} (x : M A) (h : UpstreamError -> M A) : M A :=
  match x with
  | (tr, Failed e) => let '(tr', r) := h e in (tr ++ tr', r)
  | ok => ok
  end.

Notation "x <- c1 ;; c2" := (bind c1 (fun x => c2))
  (at level 61, c1 at next level, right associativity).


(** *** Responses *)

(** One worklog as the daily route lists it under its day. *)
Record LoggedEntry := {
  le_issueKey : string;
  le_summary : Json;
  le_timeSpentSeconds : Z;
  le_started : Z
}.

(** A value of [dailyTotals]. *)
Record DayBucket := {
  b_date : isoDate;
  b_dayName : string;
  b_totalSeconds : Z;
  b_worklogs : list LoggedEntry
}.

(** An element of [dailyData]: the bucket ([...day]) and three more fields. *)
Record DailyData := {
  d_day : DayBucket;
  d_totalHours : Q;
  d_goalHours : Z;
  d_progress : Z
}.

Record DailyReport := {
  weekStart : isoDate;
  weekEnd : isoDate;
  dailyData : list DailyData;
  totalSeconds : Z;
  totalHours : Q;
  weeklyGoalHours : Z;
  weeklyProgress : Z
}.

Record IssueWorklog := {
  iw_id : Json;
  iw_timeSpentSeconds : Z;
  iw_started : Z;
  iw_comment : option Json
}.

Record IssueSummary := {
  is_issueKey : string;
  is_summary : Json;
  is_totalSeconds : Z;
  is_worklogs : list IssueWorklog
}.

Record SummaryReport := {
  sr_period : string;
  sr_totalSeconds : Z;
  sr_totalHours : Q;
  sr_worklogsByIssue : list IssueSummary
}.

Inductive Body :=
| JsonBody (j : Json)
| DailyBody (r : DailyReport)
| SummaryBody (r : SummaryReport).

Record Response := { status : Z; body : Body }.

(** [res.json(b)] and [res.status(500).json(b)]. *)
Definition json (b : Body) : Response := {| status := 200; body := b |}.
Definition json500 (b : Body) : Response := {| status := 500; body := b |}.

(** The route boundary: [try { ... } catch (error) { ... }]. *)
Definition route (x : M Response) (onError : UpstreamError -> Response)
  : list event * Response :=
  match x with
  | (tr, Ok r) => (tr, r)
  | (tr, Failed e) => (tr, onError e)
  end.

(** [{ error: msg }] *)
Definition errorOnly (msg : string) (_ : UpstreamError) : Response :=
  json500 (JsonBody (JObj [("error", JStr msg)])).

(** [{ error: msg, details: error.response?.data }] *)
Definition errorWithDetails (msg : string) (e : UpstreamError) : Response :=
  json500 (JsonBody (JObj (("error", JStr msg) :: prop "details" (responseData e)))).

(** [{ success: true, data: response.data }] *)
Definition success (data : Json) : Response :=
  json (JsonBody (JObj [("success", JBool true); ("data", data)])).

(** A rich-document body with one paragraph of text. *)
Definition docOf (text : option Json) : Json :=
  JObj [("type", JStr "doc"); ("version", jnum 1);
        ("content",
         JArr [JObj [("type", JStr "paragraph");
                     ("content",
                      JArr [JObj (("type", JStr "text") :: prop "text" text)])]])].

(** *** The plain forwarding routes *)

Section Routes.

Variable up : Upstream.

(** GET /api/projects *)
Definition getProjects : list event * Response :=
  route (response <- request GetProjects (up_projects up) ;;
         ret (json (JsonBody response)))
        (errorOnly "Failed to fetch projects").

Definition searchFields : string :=
  "summary,status,priority,assignee,reporter,created,updated,issuetype,project,labels".

(** GET /api/issues; [maxResults] is the query value after [Number(...)]. *)
Definition getIssues (jql maxResults : option Json) : list event * Response :=
  let jql := match jql with Some j => j | None => JStr "order by created DESC" end in
  let maxResults := match maxResults with Some n => n | None => jnum 50 end in
  route (response <- request (SearchIssues jql maxResults searchFields)
                             (up_search up jql maxResults searchFields) ;;
         ret (json (JsonBody response)))
        (errorWithDetails "Failed to fetch issues").

Definition detailFields : string :=
  "summary,description,status,priority,assignee,reporter,created,updated,issuetype,project,labels,comment,timetracking,timeoriginalestimate,timeestimate,timespent,customfield_10016,subtasks".

(** GET /api/issues/:issueKey *)
Definition getIssue (issueKey : string) : list event * Response :=
  route (response <- request (GetIssue issueKey detailFields (Some "renderedFields"))
                             (up_issue up issueKey) ;;
         ret (json (JsonBody response)))
        (errorOnly "Failed to fetch issue").

(** PUT /api/issues/:issueKey *)
Definition putIssue (issueKey : string) (reqBody : Json) : list event * Response :=
  route (response <- request (PutIssue issueKey reqBody)
                             (up_putIssue up issueKey reqBody) ;;
         ret (success response))
        (errorWithDetails "Failed to update issue").

(** POST /api/issues/:issueKey/worklog *)
Definition postWorklog (issueKey : string) (reqBody : Json) : list event * Response :=
  let timeSpentSeconds := getField "timeSpentSeconds" reqBody in
  let comment := getField "comment" reqBody in
  let payload :=
    JObj (prop "timeSpentSeconds" timeSpentSeconds ++
          prop "comment"
            (match comment with
             | Some c => if jsTruthy c then Some (docOf (Some c)) else None
             | None => None
             end)) in
  route (response <- request (PostWorklog issueKey payload)
                             (up_postWorklog up issueKey payload) ;;
         ret (success response))
        (errorWithDetails "Failed to add worklog").

(** POST /api/issues/:issueKey/comment *)
Definition postComment (issueKey : string) (reqBody : Json) : list event * Response :=
  let payload := JObj [("body", docOf (getField "body" reqBody))] in
  route (response <- request (PostComment issueKey payload)
                             (up_postComment up issueKey payload) ;;
         ret (success response))
        (errorWithDetails "Failed to add comment").

(** GET /api/statuses *)
Definition getStatuses : list event * Response :=
  route (response <- request GetStatuses (up_statuses up) ;;
         ret (json (JsonBody response)))
        (errorOnly "Failed to fetch statuses").

(** GET /api/issues/:issueKey/transitions *)
Definition getTransitions (issueKey : string) : list event * Response :=
  route (response <- request (GetTransitions issueKey) (up_transitions up issueKey) ;;
         ret (json (JsonBody response)))
        (errorOnly "Failed to fetch transitions").

(** POST /api/issues/:issueKey/transitions *)
Definition postTransition (issueKey : string) (reqBody : Json) : list event * Response :=
  let payload :=
    JObj [("transition", JObj (prop "id" (getField "transitionId" reqBody)))] in
  route (response <- request (PostTransition issueKey payload)
                             (up_postTransition up issueKey payload) ;;
         ret (success response))
        (errorWithDetails "Failed to transition issue").

(** GET /api/issues/:issueKey/subtasks: [response.data.fields.subtasks || []] *)
Definition getSubtasks (issueKey : string) : list event * Response :=
  route (subtasks <- request (GetIssue issueKey "subtasks" None)
                             (up_issueSubtasks up issueKey) ;;
         ret (json (JsonBody
                      (match subtasks with
                       | Some j => if jsTruthy j then j else JArr []
                       | None => JArr []
                       end))))
        (errorOnly "Failed to fetch subtasks").

(** GET /api/health *)
Definition getHealth : list event * Response :=
  route (user <- request GetMyself (up_myself up) ;;
         ret (json (JsonBody (JObj [("status", JStr "ok");
                                    ("message", JStr "Connected to Jira");
                                    ("user", displayName user)]))))
        (fun e =>
           json500 (JsonBody (JObj [("status", JStr "error");
                                    ("message", JStr "Failed to connect to Jira");
                                    ("details",
                                     match responseData e with
                                     | Some j => if jsTruthy j then j else JStr (message e)
                                     | None => JStr (message e)
                                     end)]))).

(** *** Worklogs of the current week, day by day *)

(** [Math.round((seconds / 3600) * 100) / 100] *)
Definition hours2 (seconds : Z) : Q :=
  fdiv (ofZ (MathRound (fmul (fdiv (ofZ seconds) (ofZ 3600)) (ofZ 100)))) (ofZ 100).

(** [Math.round((seconds / (goalHours * 3600)) * 100)] *)
Definition percentOf (goalHours seconds : Z) : Z :=
  MathRound (fmul (fdiv (ofZ seconds) (ofZ (goalHours * 3600))) (ofZ 100)).

Definition dayNames : list string :=
  ["Domingo"; "Lunes"; "Martes"; "Miércoles"; "Jueves"; "Viernes"; "Sábado"].

(** [dailyTotals]: an object keyed by date text, in insertion order. *)
Definition dict := list (isoDate * DayBucket).

Fixpoint dictGet (k : isoDate) (d : dict) : option DayBucket :=
  match d with
  | (k', v) :: rest => if isoDate_eqb k k' then Some v else dictGet k rest
  | [] => None
  end.

(** [d[k] = v]: in place when the key exists, appended otherwise. *)
Fixpoint dictSet (k : isoDate) (v : DayBucket) (d : dict) : dict :=
  match d with
  | (k', v') :: rest =>
      if isoDate_eqb k k' then (k, v) :: rest else (k', v') :: dictSet k v rest
  | [] => [(k, v)]
  end.

(** [Object.values(d)] *)
Definition dictValues (d : dict) : list DayBucket := List.map snd d.

Section Clock.

(** The server's offset from UTC and the instant [new Date()] of the
    request, both in milliseconds. *)
Variables tz now : Z.

(** Monday 00:00:00.000 and Sunday 23:59:59.999 of the current week. *)
Definition weekStartDate : Z :=
  let startDate := now in
  let currentDay := getDay tz now in
  let daysToMonday := if currentDay =? 0 then 6 else currentDay - 1 in
  let startDate := setDate tz startDate (getDate tz now - daysToMonday) in
  setHours tz startDate 0 0 0 0.

Definition weekEndDate : Z :=
  let endDate := now in
  let currentDay := getDay tz now in
  let daysToSunday := if currentDay =? 0 then 0 else 7 - currentDay in
  let endDate := setDate tz endDate (getDate tz now + daysToSunday) in
  setHours tz endDate 23 59 59 999.

(** One turn of [for (let i = 0; i < 7; i++)]. *)
Definition initDay (startDate : Z) (dailyTotals : dict) (i : Z) : dict :=
  let date := setDate tz startDate (getDate tz startDate + i) in
  let dateStr := toISODate date in
  let dayName := nth (Z.to_nat (getDay tz date)) dayNames "" in
  dictSet dateStr
    {| b_date := dateStr; b_dayName := dayName;
       b_totalSeconds := 0; b_worklogs := [] |}
    dailyTotals.

Definition initDailyTotals (startDate : Z) : dict :=
  fold_left (initDay startDate) [0; 1; 2; 3; 4; 5; 6] [].

(** The body of [for (const worklog of worklogs)] in the daily route; the
    state is [dailyTotals] and the running [totalSeconds]. *)
Definition addWorklog (accountId : string) (startDate endDate : Z)
    (issue : Issue) (st : dict * Z) (worklog : Worklog) : dict * Z :=
  let '(dailyTotals, total) := st in
  if String.eqb (wl_author worklog) accountId then
    let worklogDate := wl_started worklog in
    if (startDate <=? worklogDate) && (worklogDate <=? endDate) then
      let dateStr := toISODate worklogDate in
      match dictGet dateStr dailyTotals with
      | Some day =>
          (dictSet dateStr
             {| b_date := b_date day; b_dayName := b_dayName day;
                b_totalSeconds := b_totalSeconds day + wl_timeSpentSeconds worklog;
                b_worklogs :=
                  b_worklogs day ++
                  [{| le_issueKey := key issue; le_summary := summary issue;
                      le_timeSpentSeconds := wl_timeSpentSeconds worklog;
                      le_started := wl_started worklog |}] |}
             dailyTotals,
           total + wl_timeSpentSeconds worklog)
      | None => st
      end
    else st
  else st.

(** [for (const issue of issues)]: the worklogs of each issue are fetched
    inside a [try] of their own; a failed fetch is logged and the issue is
    skipped. *)
Fixpoint dailyLoop (accountId : string) (startDate endDate : Z)
    (issues : list Issue) (st : dict * Z) : M (dict * Z) :=
  match issues with
  | [] => ret st
  | issue :: rest =>
      st' <- catch
               (worklogs <- request (GetWorklogs (key issue)) (up_worklogs up (key issue)) ;;
                ret (fold_left (addWorklog accountId startDate endDate issue) worklogs st))
               (fun _ => ret st) ;;
      dailyLoop accountId startDate endDate rest st'
  end.

Definition toDailyData (day : DayBucket) : DailyData :=
  {| d_day := day;
     d_totalHours := hours2 (b_totalSeconds day);
     d_goalHours := 8;
     d_progress := percentOf 8 (b_totalSeconds day) |}.

Definition dailyReport (startDate endDate : Z) (st : dict * Z) : DailyReport :=
  let '(dailyTotals, total) := st in
  {| weekStart := toISODate startDate;
     weekEnd := toISODate endDate;
     dailyData := List.map toDailyData (dictValues dailyTotals);
     totalSeconds := total;
     totalHours := hours2 total;
     weeklyGoalHours := 40;
     weeklyProgress := percentOf 40 total |}.

(** GET /api/worklogs/daily *)
Definition getWorklogsDaily : list event * Response :=
  route (user <- request GetMyself (up_myself up) ;;
         let startDate := weekStartDate in
         let endDate := weekEndDate in
         let startDateStr := toISODate startDate in
         issues <- request (SearchWorklogIssues startDateStr)
                           (up_worklogIssues up startDateStr) ;;
         st <- dailyLoop (accountId user) startDate endDate issues
                 (initDailyTotals startDate, 0) ;;
         ret (json (DailyBody (dailyReport startDate endDate st))))
        (errorWithDetails "Failed to fetch daily worklogs").

(** *** Worklogs of a period, issue by issue *)

(** The date range of [period]: ['week'], ['month'], anything else. *)
Definition periodStart (period : string) : Z :=
  let startDate := now in
  if String.eqb period "week" then
    let currentDay := getDay tz now in
    let daysToMonday := if currentDay =? 0 then 6 else currentDay - 1 in
    let startDate := setDate tz startDate (getDate tz now - daysToMonday) in
    setHours tz startDate 0 0 0 0
  else if String.eqb period "month" then
    let startDate := setDate tz startDate 1 in
    setHours tz startDate 0 0 0 0
  else
    setDate tz startDate (getDate tz now - 365).

Definition periodEnd (period : string) : Z :=
  let endDate := setHours tz now 23 59 59 999 in
  if String.eqb period "week" then
    let currentDay := getDay tz now in
    let daysToSunday := if currentDay =? 0 then 0 else 7 - currentDay in
    let endDate := setDate tz endDate (getDate tz now + daysToSunday) in
    setHours tz endDate 23 59 59 999
  else if String.eqb period "month" then
    let endDate := setMonth tz endDate (getMonth tz now + 1) 0 in
    setHours tz endDate 23 59 59 999
  else
    setHours tz endDate 23 59 59 999.

(** Whether the loop counts a worklog: its author and its start instant. *)
Definition counted (accountId : string) (startDate endDate : Z)
    (worklog : Worklog) : bool :=
  String.eqb (wl_author worklog) accountId
  && ((startDate <=? wl_started worklog) && (wl_started worklog <=? endDate)).

(** The body of [for (const worklog of worklogs)] in the period route; the
    state is [totalSeconds], [issueTotal] and [issueWorklogs]. *)
Definition addIssueWorklog (accountId : string) (startDate endDate : Z)
    (st : Z * Z * list IssueWorklog) (worklog : Worklog)
  : Z * Z * list IssueWorklog :=
  let '(total, issueTotal, issueWorklogs) := st in
  if counted accountId startDate endDate worklog then
    (total + wl_timeSpentSeconds worklog,
     issueTotal + wl_timeSpentSeconds worklog,
     issueWorklogs ++
     [{| iw_id := wl_id worklog;
         iw_timeSpentSeconds := wl_timeSpentSeconds worklog;
         iw_started := wl_started worklog;
         iw_comment := wl_comment worklog |}])
  else st.

Fixpoint periodLoop (accountId : string) (startDate endDate : Z)
    (issues : list Issue) (st : Z * list IssueSummary)
  : M (Z * list IssueSummary) :=
  match issues with
  | [] => ret st
  | issue :: rest =>
      st' <- catch
               (worklogs <- request (GetWorklogs (key issue)) (up_worklogs up (key issue)) ;;
                let '(total, issueTotal, issueWorklogs) :=
                  fold_left (addIssueWorklog accountId startDate endDate)
                            worklogs (fst st, 0, []) in
                ret (total,
                     if 0 <? issueTotal then
                       snd st ++
                       [{| is_issueKey := key issue; is_summary := summary issue;
                           is_totalSeconds := issueTotal;
                           is_worklogs := issueWorklogs |}]
                     else snd st))
               (fun _ => ret st) ;;
      periodLoop accountId startDate endDate rest st'
  end.

(** GET /api/worklogs; [period] is the query value, ['week'] when absent. *)
Definition getWorklogs (period : option string) : list event * Response :=
  let period := match period with Some p => p | None => "week" end in
  route (user <- request GetMyself (up_myself up) ;;
         let startDate := periodStart period in
         let endDate := periodEnd period in
         let startDateStr := toISODate startDate in
         issues <- request (SearchWorklogIssues startDateStr)
                           (up_worklogIssues up startDateStr) ;;
         st <- periodLoop (accountId user) startDate endDate issues (0, []) ;;
         ret (json (SummaryBody
                      {| sr_period := period;
                         sr_totalSeconds := fst st;
                         sr_totalHours := hours2 (fst st);
                         sr_worklogsByIssue := snd st |})))
        (errorWithDetails "Failed to fetch worklogs").

(** *** Creating a subtask with the daily report template *)

(** The issue type of the new subtask: ['10003'] unless a type of the
    project is named Subtask or flagged as one; the first such type wins
    ([break]). *)
Fixpoint subtaskTypeId (issueTypes : list IssueType) : string :=
  match issueTypes with
  | issueType :: rest =>
      if String.eqb (it_name issueType) "Subtask" || it_subtask issueType
      then it_id issueType
      else subtaskTypeId rest
  | [] => "10003"
  end.

Definition showZ (z : Z) : string :=
  string_of_list_ascii (List.map ascii_of_N (numToString z)).

(** [String(n).padStart(2, '0')] *)
Definition pad2 (n : Z) : string :=
  let s := showZ n in
  if (String.length s <? 2)%nat then "0" ++ s else s.

(** DD/MM/YYYY of today, local time. *)
Definition todayStr : string :=
  pad2 (getDate tz now) ++ "/" ++ pad2 (getMonth tz now + 1) ++ "/"
  ++ showZ (getFullYear tz now).

Definition text (t : Json) : Json :=
  JObj [("type", JStr "text"); ("text", t)].

Definition strong (t : string) : Json :=
  JObj [("type", JStr "text"); ("text", JStr t);
        ("marks", JArr [JObj [("type", JStr "strong")]])].

Definition paragraph (content : list Json) : Json :=
  JObj [("type", JStr "paragraph"); ("content", JArr content)].

Definition heading3 (title : string) : Json :=
  JObj [("type", JStr "heading"); ("attrs", JObj [("level", jnum 3)]);
        ("content", JArr [strong title])].

Definition bulletList (items : list string) : Json :=
  JObj [("type", JStr "bulletList");
        ("content",
         JArr (List.map
                 (fun t => JObj [("type", JStr "listItem");
                                 ("content", JArr [paragraph [text (JStr t)]])])
                 items))].

Definition rule : Json := JObj [("type", JStr "rule")].

Definition labelled (label : string) (value : Json) : Json :=
  paragraph [strong "🔹 "; strong label; text value].

Definition pinned (t : string) : Json := paragraph [strong "📌 "; strong t].

(** The comment posted on the new subtask. *)
Definition dailyReportTemplate (dateStr : string) (project summary : Json) : Json :=
  JObj [("body",
    JObj [("type", JStr "doc"); ("version", jnum 1);
          ("content",
           JArr [labelled "Fecha: " (JStr dateStr);
                 labelled "Proyecto: " project;
                 labelled "Subtarea asignada: " summary;
                 labelled "Estado actual: " (JStr "Por iniciar");
                 labelled "Tiempo invertido: " (JStr "00:00");
                 rule;
                 heading3 "1️⃣ Avances del día";
                 pinned "Descripción detallada de lo realizado:";
                 bulletList
                   ["[Explicar en qué consistió el trabajo realizado]";
                    "[Incluir enlaces a PRs, commits o documentación generada]";
                    "[Mencionar pruebas realizadas y resultados obtenidos]"];
                 rule;
                 heading3 "2️⃣ Retos o dificultades encontradas";
                 pinned "Problemas identificados y cómo se resolvieron:";
                 bulletList
                   ["[Describir cualquier bloqueo técnico, error o duda surgida]";
                    "[Explicar si se encontró una solución y cuál fue]"];
                 rule;
                 heading3 "3️⃣ Plan para el siguiente día";
                 pinned "Tareas previstas y próximos pasos:";
                 bulletList
                   ["[Listar lo que se trabajará mañana]";
                    "[Incluir dependencias de otros miembros del equipo si aplica]"];
                 rule;
                 heading3 "4️⃣ Comentarios adicionales";
                 pinned "Observaciones generales, feedback recibido o cualquier otra nota relevante."])])].

(** POST /api/issues/:issueKey/subtasks; [summary] and [projectName] are the
    fields of the request body. *)
Definition postSubtask (issueKey : string) (summary projectName : option Json)
  : list event * Response :=
  route (parentIssue <- request (GetIssue issueKey "project,issuetype" None)
                                (up_issueProject up issueKey) ;;
         let projectKey := projectKey parentIssue in
         issueTypes <- request (GetProjectStatuses projectKey)
                               (up_projectStatuses up projectKey) ;;
         let subtaskTypeId := subtaskTypeId issueTypes in
         let dateStr := todayStr in
         let fields :=
           {| f_project := projectKey; f_parent := issueKey;
              f_summary := match summary with Some j => j | None => JNull end;
              f_issuetype := subtaskTypeId |} in
         created <- request (PostIssue fields) (up_postIssue up fields) ;;
         let subtaskKey := createdKey created in
         let template :=
           dailyReportTemplate dateStr
             (match projectName with
              | Some j => if jsTruthy j then j else JStr (Server.projectName parentIssue)
              | None => JStr (Server.projectName parentIssue)
              end)
             (match summary with Some j => j | None => JNull end) in
         _ <- catch
                (_ <- request (PostComment subtaskKey template)
                              (up_postComment up subtaskKey template) ;;
                 ret tt)
                (fun _ => ret tt) ;;
         ret (success (createdData created)))
        (errorWithDetails "Failed to create subtask").

End Clock.

End Routes.

(** *** The application: a request is handled by its route *)

Inductive Request :=
| GetApiProjects
| GetApiIssues (jql maxResults : option Json)
| GetApiIssue (issueKey : string)
| PutApiIssue (issueKey : string) (reqBody : Json)
| GetApiWorklogsDaily
| GetApiWorklogs (period : option string)
| PostApiWorklog (issueKey : string) (reqBody : Json)
| PostApiComment (issueKey : string) (reqBody : Json)
| GetApiStatuses
| GetApiTransitions (issueKey : string)
| PostApiTransition (issueKey : string) (reqBody : Json)
| GetApiSubtasks (issueKey : string)
| PostApiSubtask (issueKey : string) (summary projectName : option Json)
| GetApiHealth.

Definition app (up : Upstream) (tz now : Z) (req : Request)
  : list event * Response :=
  match req with
  | GetApiProjects => getProjects up
  | GetApiIssues jql maxResults => getIssues up jql maxResults
  | GetApiIssue issueKey => getIssue up issueKey
  | PutApiIssue issueKey reqBody => putIssue up issueKey reqBody
  | GetApiWorklogsDaily => getWorklogsDaily up tz now
  | GetApiWorklogs period => getWorklogs up tz now period
  | PostApiWorklog issueKey reqBody => postWorklog up issueKey reqBody
  | PostApiComment issueKey reqBody => postComment up issueKey reqBody
  | GetApiStatuses => getStatuses up
  | GetApiTransitions issueKey => getTransitions up issueKey
  | PostApiTransition issueKey reqBody => postTransition up issueKey reqBody
  | GetApiSubtasks issueKey => getSubtasks up issueKey
  | PostApiSubtask issueKey summary projectName =>
      postSubtask up tz now issueKey summary projectName
  | GetApiHealth => getHealth up
  end.

End Server.

(* ------------------------------------------------------------------ *)
(** ** The weekly timesheet view *)

Module WeeklyTimesheet.

Import JsDouble.
Local Open Scope Z_scope.

Inductive color := success | warning | danger.

Definition getProgressColor (progress : Z) : color :=
  if 100 <=? progress then success
  else if 75 <=? progress then warning
  else danger.

(** What the view renders of a progress value: the class and the width of
    the bar ([Math.min(progress, 100)] percent) and the figure printed. *)
Record bar := { fill : color; widthPercent : Z; figure : Z }.

Definition progressBar (progress : Z) : bar :=
  {| fill := getProgressColor progress;
     widthPercent := MathMin progress 100;
     figure := progress |}.

End WeeklyTimesheet.

(* ------------------------------------------------------------------ *)
(** ** The issue detail panel: times and rich text *)

Module IssueDetailText.

Import IssueDetailPanel Server.
Local Open Scope string_scope.
Local Open Scope Z_scope.
Local Open Scope list_scope.

(** [formatTime(seconds)] for [seconds : number | undefined] with an
    integral number: ['-'] for a falsy argument, the hours only when there
    is at least one. *)
Definition formatTime (seconds : option Z) : jsstring :=
  match seconds with
  | None => lit "-"
  | Some seconds =>
      if seconds =? 0 then lit "-"
      else
        let hours := seconds / 3600 in
        let minutes := Z.rem seconds 3600 / 60 in
        if 0 <? hours
        then numToString hours ++ lit "h " ++ numToString minutes ++ lit "m"
        else numToString minutes ++ lit "m"
  end.

(** What [handleLogTime] sends: POST /api/issues/:key/worklog with the body
    [JSON.stringify({ timeSpentSeconds: seconds })]; a NaN would be
    serialised as [null]. *)
Definition logTimeRequest (issueKey : string) (timeSpent : jsstring)
  : option Request :=
  match handleLogTime timeSpent with
  | Posted (Num seconds) =>
      Some (PostApiWorklog issueKey (JObj [("timeSpentSeconds", jnum seconds)]))
  | Posted NaN =>
      Some (PostApiWorklog issueKey (JObj [("timeSpentSeconds", JNull)]))
  | Ignored | InvalidFormat => None
  end.

Section Description.

(** [Number.prototype.toString], which this development does not spell
    out. *)
Variable numberToString : Q -> string.

(** ToString of a parsed JSON value; [None] is the TypeError of an object
    whose own [toString] property hides the inherited method. An array is
    its elements joined by commas, [null] elements left empty. *)
Fixpoint toStr (j : Json) : option string :=
  match j with
  | JNull => Some "null"
  | JBool b => Some (if b then "true" else "false")
  | JNum q => Some (numberToString q)
  | JStr s => Some s
  | JArr items =>
      match
        (fix elems (l : list Json) : option (list string) :=
           match l with
           | [] => Some []
           | x :: rest =>
               match (match x with JNull => Some "" | _ => toStr x end),
                     elems rest with
               | Some s, Some ss => Some (s :: ss)
               | _, _ => None
               end
           end) items
      with
      | Some parts => Some (String.concat "," parts)
      | None => None
      end
  | JObj fields =>
      match lookup "toString" fields with
      | Some _ => None
      | None => Some "[object Object]"
      end
  end.

(** An element of [Array.prototype.join]: empty for [null]. *)
Definition joined (v : Json) : option string :=
  match v with
  | JNull => Some ""
  | _ => toStr v
  end.

(** [extractText(node)]; [None] is an exception thrown on the way.  The
    result is [node.text] itself when that is truthy, whatever its type. *)
Fixpoint extractText (node : Json) : option Json :=
  match node with
  | JStr s => Some (JStr s)
  | JObj fields =>
      let viaContent :=
        (fix content (fs : list (string * Json)) : option Json :=
           match fs with
           | (k, v) :: rest =>
               if String.eqb "content" k then
                 match v with
                 | JArr items =>
                     match
                       (fix each (l : list Json) : option (list string) :=
                          match l with
                          | [] => Some []
                          | x :: more =>
                              match extractText x with
                              | Some t =>
                                  match joined t, each more with
                                  | Some s, Some ss => Some (s :: ss)
                                  | _, _ => None
                                  end
                              | None => None
                              end
                          end) items
                     with
                     | Some parts => Some (JStr (String.concat "" parts))
                     | None => None
                     end
                 | _ => Some (JStr "")
                 end
               else content rest
           | [] => Some (JStr "")
           end) fields in
      match lookup "text" fields with
      | Some t => if jsTruthy t then Some t else viaContent
      | None => viaContent
      end
  | JNull | JBool _ | JNum _ | JArr _ => Some (JStr "")
  end.

(** [renderDescription(description)]; [None] is [undefined]. *)
Definition renderDescription (description : option Json) : Json :=
  match description with
  | None => JStr "No description"
  | Some d =>
      if negb (jsTruthy d) then JStr "No description"
      else
        match d with
        | JStr _ => d
        | _ =>
            match extractText d with
            | Some t => if jsTruthy t then t else JStr "No description"
            | None => JStr "No description"
            end
        end
  end.

End Description.

End IssueDetailText.

(* ------------------------------------------------------------------ *)
(** ** The Kanban board: columns by status *)

Module KanbanBoard.

Local Open Scope string_scope.
Local Open Scope Z_scope.
Local Open Scope list_scope.

(** What the board reads of an issue: [issue.fields.status.name] and
    [issue.fields.status.statusCategory?.key]. *)
Record JiraIssue := {
  ji_id : string;
  ji_key : string;
  ji_statusName : string;
  ji_statusCategoryKey : option string
}.

(** The value of [STATUS_COLORS[key] || STATUS_COLORS.new]: one of the
    colours of the table, or the member of [Object.prototype] that the key
    names (each of them is truthy). *)
Inductive paint :=
| Colour (hex : string)
| Inherited (member : string).

Definition STATUS_COLORS : list (string * string) :=
  [("new", "#dfe1e6"); ("indeterminate", "#deebff"); ("done", "#e3fcef")].

(** The property names of [Object.prototype]. *)
Definition objectPrototype : list string :=
  ["constructor"; "__defineGetter__"; "__defineSetter__"; "hasOwnProperty";
   "__lookupGetter__"; "__lookupSetter__"; "isPrototypeOf";
   "propertyIsEnumerable"; "toString"; "valueOf"; "__proto__";
   "toLocaleString"].

Fixpoint own (k : string) (table : list (string * string)) : option string :=
  match table with
  | (k', v) :: rest => if String.eqb k k' then Some v else own k rest
  | [] => None
  end.

Definition statusColor (key : string) : paint :=
  match own key STATUS_COLORS with
  | Some hex => Colour hex
  | None =>
      if existsb (String.eqb key) objectPrototype then Inherited key
      else Colour "#dfe1e6"
  end.

Record StatusColumn := {
  key : string;
  name : string;
  color : paint;
  issues : list JiraIssue
}.

(** [statusMap]: a [Map] keeps its entries in the order of insertion; the
    key of an entry is the [name] of its column. *)
Definition has (name' : string) (statusMap : list StatusColumn) : bool :=
  existsb (fun c => String.eqb (name c) name') statusMap.

(** [statusMap.get(name)!.issues.push(issue)] *)
Fixpoint push (name' : string) (issue : JiraIssue) (statusMap : list StatusColumn)
  : list StatusColumn :=
  match statusMap with
  | c :: rest =>
      if String.eqb (name c) name'
      then {| key := key c; name := name c; color := color c;
              issues := issues c ++ [issue] |} :: rest
      else c :: push name' issue rest
  | [] => []
  end.

(** [status.statusCategory?.key || 'new'] *)
Definition columnKey (issue : JiraIssue) : string :=
  match ji_statusCategoryKey issue with
  | Some k => if String.eqb k "" then "new" else k
  | None => "new"
  end.

(** The body of [issues.forEach]. *)
Definition place (statusMap : list StatusColumn) (issue : JiraIssue)
  : list StatusColumn :=
  let key := columnKey issue in
  let name := ji_statusName issue in
  let statusMap :=
    if negb (has name statusMap)
    then statusMap ++ [{| key := key; name := name; color := statusColor key;
                          issues := [] |}]
    else statusMap in
  push name issue statusMap.

Definition order : list string := ["new"; "indeterminate"; "done"].

(** [list.indexOf(x)], counting from [i]. *)
Fixpoint indexFrom (i : Z) (x : string) (l : list string) : Z :=
  match l with
  | y :: rest => if String.eqb y x then i else indexFrom (i + 1) x rest
  | [] => -1
  end.

Definition indexOf (l : list string) (x : string) : Z := indexFrom 0 x l.

(** The comparator of the sort. *)
Definition compareColumns (a b : StatusColumn) : Z :=
  indexOf order (key a) - indexOf order (key b).

(** [Array.prototype.sort] is stable: of two elements that the comparator
    does not order strictly, the earlier stays first.  For a comparator that
    compares a rank, as here, this fixes the result; it is computed by
    insertion from the right. *)
Fixpoint insertColumn (c : StatusColumn) (sorted : list StatusColumn)
  : list StatusColumn :=
  match sorted with
  | x :: rest =>
      if compareColumns c x <=? 0 then c :: x :: rest
      else x :: insertColumn c rest
  | [] => [c]
  end.

Definition sortColumns (l : list StatusColumn) : list StatusColumn :=
  fold_right insertColumn [] l.

(** The values of [statusMap] after [issues.forEach]. *)
Definition statusMapOf (issues : list JiraIssue) : list StatusColumn :=
  fold_left place issues [].

(** The [columns] of the board. *)
Definition columns (issues : list JiraIssue) : list StatusColumn :=
  sortColumns (statusMapOf issues).

(** The labels of a card: [fields.labels.slice(0, 2)]. *)
Definition cardLabels (labels : list string) : list string := firstn 2 labels.

End KanbanBoard.

(* ------------------------------------------------------------------ *)
(** ** The application shell: project list, stars, side panels *)

Module App.

Local Open Scope string_scope.
Local Open Scope Z_scope.
Local Open Scope list_scope.

Record Project := { id : string; key : string; name : string }.

(** [s.includes(sub)] *)
Fixpoint includes (s sub : string) : bool :=
  String.prefix sub s
  || match s with
     | String _ rest => includes rest sub
     | EmptyString => false
     end.

(** [starredProjects.includes(k)] *)
Definition isStarred (starredProjects : list string) (k : string) : bool :=
  existsb (String.eqb k) starredProjects.

Section Platform.

(** [String.prototype.toLowerCase], which this development does not spell
    out. *)
Variable toLowerCase : string -> string.

Definition sortedProjects (projects : list Project) (starredProjects : list string)
    (projectSearch : string) : list Project :=
  let searchLower := toLowerCase projectSearch in
  let filtered :=
    filter (fun p => includes (toLowerCase (name p)) searchLower
                     || includes (toLowerCase (key p)) searchLower)
           projects in
  let starred := filter (fun p => isStarred starredProjects (key p)) filtered in
  let unstarred :=
    filter (fun p => negb (isStarred starredProjects (key p))) filtered in
  starred ++ unstarred.

End Platform.

(** The updater of [toggleStar]. *)
Definition toggleStar (projectKey : string) (prev : list string) : list string :=
  if isStarred prev projectKey
  then filter (fun k => negb (String.eqb k projectKey)) prev
  else prev ++ [projectKey].

(** The 'Starred' heading of the dropdown. *)
Definition starredHeading (sortedProjects : list Project)
    (starredProjects : list string) : bool :=
  (0 <? Z.of_nat (List.length starredProjects))
  && existsb (fun p => isStarred starredProjects (key p)) sortedProjects.

(** [showDivider] of the entry at index [idx]: the 'Other Projects'
    heading is drawn above it. *)
Definition showDivider (sortedProjects : list Project)
    (starredProjects : list string) (idx : nat) : bool :=
  match idx, nth_error sortedProjects idx with
  | S before, Some p =>
      match nth_error sortedProjects before with
      | Some q => isStarred starredProjects (key q)
                  && negb (isStarred starredProjects (key p))
      | None => false
      end
  | _, _ => false
  end.

(** [projects.find(p => p.key === selectedProject)?.name || 'All Projects'] *)
Definition selectedProjectName (projects : list Project) (selectedProject : string)
  : string :=
  match find (fun p => String.eqb (key p) selectedProject) projects with
  | Some p => if String.eqb (name p) "" then "All Projects" else name p
  | None => "All Projects"
  end.

(** *** The side panels *)

Record Panels := {
  showTimesheet : bool;
  showWorklogSummary : bool;
  selectedIssue : option string      (* the key of the issue shown *)
}.

Definition initialPanels : Panels :=
  {| showTimesheet := false; showWorklogSummary := false; selectedIssue := None |}.

Inductive action :=
| ClickTimesheet               (* the 'Control Semanal' button *)
| ClickSummary                 (* the 'Resumen' button *)
| IssueLoaded (issueKey : string)   (* [setSelectedIssue(data)] *)
| CloseDetail.                 (* [handleCloseDetail] *)

Definition update (s : Panels) (a : action) : Panels :=
  match a with
  | ClickTimesheet =>
      {| showTimesheet := negb (showTimesheet s);
         showWorklogSummary :=
           if showWorklogSummary s then false else showWorklogSummary s;
         selectedIssue := selectedIssue s |}
  | ClickSummary =>
      {| showTimesheet := if showTimesheet s then false else showTimesheet s;
         showWorklogSummary := negb (showWorklogSummary s);
         selectedIssue := selectedIssue s |}
  | IssueLoaded issueKey =>
      {| showTimesheet := showTimesheet s;
         showWorklogSummary := showWorklogSummary s;
         selectedIssue := Some issueKey |}
  | CloseDetail =>
      {| showTimesheet := showTimesheet s;
         showWorklogSummary := showWorklogSummary s;
         selectedIssue := None |}
  end.

Definition isSome {A} (o : option A) : bool :=
  match o with Some _ => true | None => false end.

(** What [<main>] renders beside the board. *)
Inductive panel := TimesheetPanel | SummaryPanel | DetailPanel (issueKey : string).

Definition rendered (s : Panels) : list panel :=
  (if showTimesheet s && negb (isSome (selectedIssue s))
   then [TimesheetPanel] else [])
  ++ (if showWorklogSummary s && negb (isSome (selectedIssue s))
         && negb (showTimesheet s)
      then [SummaryPanel] else [])
  ++ (match selectedIssue s with
      | Some k => [DetailPanel k]
      | None => []
      end).

End App.

(* ------------------------------------------------------------------ *)
(** ** The weekly timesheet view: dates *)

Module TimesheetDates.

Import Server.
Local Open Scope string_scope.
Local Open Scope Z_scope.
Local Open Scope list_scope.

(** [new Date(dateStr)] for the text YYYY-MM-DD of a calendar date: a
    date-only text denotes midnight UTC. *)
Definition parseDateOnly (dateStr : isoDate) : Z :=
  let '(y, mo, d) := dateStr in MakeDate (MakeDay y (mo - 1) d) 0.

Section Viewer.

(** The offset from UTC of the clock of the browser. *)
Variable tz : Z.

(** [formatDate(dateStr)]: day/month, read in local time. *)
Definition formatDate (dateStr : isoDate) : string :=
  let date := parseDateOnly dateStr in
  let day := getDate tz date in
  let month := getMonth tz date + 1 in
  showZ day ++ "/" ++ showZ month.

End Viewer.

(** [isToday(dateStr)], [now] being the instant of [new Date()]. *)
Definition isToday (now : Z) (dateStr : isoDate) : bool :=
  isoDate_eqb dateStr (toISODate now).

End TimesheetDates.

(* ------------------------------------------------------------------ *)
(** ** The application shell: the query of the issue search *)

Module IssueSearch.

Local Open Scope N_scope.
Local Open Scope list_scope.

(** LineTerminator: what the [.] of a pattern does not match. *)
Definition isLineTerminator (c : N) : bool :=
  (c =? 10) || (c =? 13) || (c =? 8232) || (c =? 8233).

(** Canonicalize of a pattern with the [i] flag and without [u], as far as
    the comparison with an ASCII character goes: a to z become A to Z; a
    character beyond ASCII is never mapped into ASCII. *)
Definition canonicalize (c : N) : N :=
  if (97 <=? c) && (c <=? 122) then c - 32 else c.

(** The literal part of the pattern at the front of [s]; the rest of [s]
    when it matches. *)
Fixpoint literal (pattern s : jsstring) : option jsstring :=
  match pattern, s with
  | [], _ => Some s
  | p :: pattern', c :: s' =>
      if canonicalize c =? canonicalize p then literal pattern' s' else None
  | _ :: _, [] => None
  end.

(** Whether [/ ORDER BY.*$/i] matches at the front of [s]: the literal,
    then characters other than line terminators up to the end of the
    input. *)
Definition orderByAt (s : jsstring) : bool :=
  match literal (lit " ORDER BY") s with
  | Some rest => forallb (fun c => negb (isLineTerminator c)) rest
  | None => false
  end.

(** [jql.replace(/ ORDER BY.*$/i, '')]: the leftmost match, which runs to
    the end of the input, is removed. *)
Fixpoint stripOrderBy (jql : jsstring) : jsstring :=
  if orderByAt jql then []
  else match jql with
       | c :: rest => c :: stripOrderBy rest
       | [] => []
       end.

(** The double quote. *)
Definition quote : N := 34.

(** The [jql] that [fetchIssues] searches for; [jqlOverride] is [None]
    when the argument is left out. *)
Definition searchedJql (jqlOverride : option jsstring) (customJql selectedProject : jsstring)
  : jsstring :=
  let jql :=
    match jqlOverride with
    | Some (c :: j) => c :: j
    | Some [] | None => customJql
    end in
  match selectedProject with
  | [] => jql
  | _ :: _ =>
      lit "project = " ++ quote :: selectedProject ++ quote :: lit " AND ("
      ++ stripOrderBy jql ++ lit ") ORDER BY updated DESC"
  end.

End IssueSearch.

(* ------------------------------------------------------------------ *)
(** ** The application shell: what a search leaves on the screen *)

Module SearchResult.

Import Server IssueDetailText.
Local Open Scope string_scope.
Local Open Scope Z_scope.
Local Open Scope list_scope.

(** [err.message] in the [catch] of [fetchIssues]: the text of an [Error]
    that the function threw itself, or the wording that the engine gives a
    TypeError. *)
Inductive errorText :=
| Message (text : string)
| TypeErrorMessage.

(** The state after [fetchIssues]: [issues] and [error]. *)
Record searchState := { shownIssues : Json; shownError : option errorText }.

Section Platform.

Variable numberToString : Q -> string.

(** [items.join(', ')]; [None] is a TypeError. *)
Fixpoint joinMessages (items : list Json) : option (list string) :=
  match items with
  | [] => Some []
  | x :: rest =>
      match joined numberToString x, joinMessages rest with
      | Some s, Some ss => Some (s :: ss)
      | _, _ => None
      end
  end.

(** [data.details?.errorMessages?.join(', ')]: [Some None] is [undefined],
    [None] a TypeError ([join] is not a function, or an element has no
    text). *)
Definition detailMessages (data : Json) : option (option string) :=
  match getField "details" data with
  | None | Some JNull => Some None
  | Some details =>
      match getField "errorMessages" details with
      | None | Some JNull => Some None
      | Some (JArr items) =>
          match joinMessages items with
          | Some parts => Some (Some (String.concat ", " parts))
          | None => None
          end
      | Some _ => None
      end
  end.

(** What [fetchIssues] does with the parsed body [data] of the response. *)
Definition afterSearch (data : Json) : searchState :=
  let failed (e : errorText) := {| shownIssues := JArr []; shownError := Some e |} in
  let listed :=
    {| shownIssues :=
         match getField "issues" data with
         | Some issues => if jsTruthy issues then issues else JArr []
         | None => JArr []
         end;
       shownError := None |} in
  match data with
  | JNull => failed TypeErrorMessage
  | _ =>
      match getField "error" data with
      | Some error =>
          if jsTruthy error then
            match detailMessages data with
            | Some joinedMessages =>
                let message :=
                  match joinedMessages with
                  | Some text => if String.eqb text "" then error else JStr text
                  | None => error
                  end in
                match toStr numberToString message with
                | Some text => failed (Message text)
                | None => failed TypeErrorMessage
                end
            | None => failed TypeErrorMessage
            end
          else listed
      | None => listed
      end
  end.

End Platform.

End SearchResult.

(* ------------------------------------------------------------------ *)
(** ** The weekly timesheet view: the marks of a day card *)

Module DayCard.

Import Server Format.
Local Open Scope Z_scope.

(** [a < b] on numbers. *)
Definition lessThan (a b : Q) : bool := negb (Qle_bool b a).

(** Whether the card gets the class [incomplete]:
    [past && day.totalHours < day.goalHours]; [past] is [isPastDay] of the
    date of the card. *)
Definition incomplete (past : bool) (day : DailyData) : bool :=
  past && lessThan (d_totalHours day) (inject_Z (d_goalHours day)).

(** The deficit printed after the percentage, without its leading minus
    sign: [day.progress < 100 && past] guards
    [formatHours((day.goalHours * 3600) - day.totalSeconds)]. *)
Definition deficit (past : bool) (day : DailyData) : option jsstring :=
  if (d_progress day <? 100) && past
  then Some (formatHours (d_goalHours day * 3600 - b_totalSeconds (d_day day)))
  else None.

End DayCard.

(* ================================================================== *)
(** * Properties *)

(* ------------------------------------------------------------------ *)
(** ** Character classes and scanning *)

Module StringFacts.

Definition allOf (p : N -> bool) (s : jsstring) : Prop := forallb p s = true.

Lemma allOf_cons p x s : allOf p (x :: s) <-> p x = true /\ allOf p s.
Proof. unfold allOf; simpl; rewrite andb_true_iff; tauto. Qed.

Lemma allOf_app p a b : allOf p (a ++ b) <-> allOf p a /\ allOf p b.
Proof. unfold allOf; rewrite forallb_app, andb_true_iff; tauto. Qed.

Lemma digit_not_space c : isDigit c = true -> isSpace c = false.
Proof.
  unfold isDigit, isSpace; intros H.
  apply andb_true_iff in H as [H1 H2].
  apply N.leb_le in H1, H2.
  repeat match goal with
         | |- (_ || _)%bool = false => apply orb_false_iff; split
         | |- (_ && _)%bool = false => apply andb_false_iff
         end;
    try (apply N.eqb_neq; lia);
    try (right; apply N.leb_gt; lia); try (left; apply N.leb_gt; lia).
Qed.

Lemma space_not_digit c : isSpace c = true -> isDigit c = false.
Proof.
  intros H. destruct (isDigit c) eqn:E; [|reflexivity].
  apply digit_not_space in E. congruence.
Qed.

Lemma takeWhile_dropWhile p s : takeWhile p s ++ dropWhile p s = s.
Proof. induction s as [|x s IH]; simpl; [|destruct (p x); simpl; rewrite ?IH]; reflexivity. Qed.

Lemma takeWhile_all p s : allOf p (takeWhile p s).
Proof.
  induction s as [|x s IH]; simpl; [reflexivity|].
  destruct (p x) eqn:E; [|reflexivity]. apply allOf_cons; auto.
Qed.

Lemma takeWhile_app_stop p a b :
  allOf p a -> (match b with x :: _ => p x = false | [] => True end) ->
  takeWhile p (a ++ b) = a /\ dropWhile p (a ++ b) = b.
Proof.
  intros Ha Hb. induction a as [|x a IH]; simpl.
  - destruct b as [|y b]; simpl; [auto|]. rewrite Hb; auto.
  - apply allOf_cons in Ha as [Hx Ha]. rewrite Hx.
    destruct (IH Ha) as [-> ->]; auto.
Qed.

Lemma dropWhile_all p a b : allOf p a -> dropWhile p (a ++ b) = dropWhile p b.
Proof.
  induction a as [|x a IH]; simpl; intros Ha; [reflexivity|].
  apply allOf_cons in Ha as [-> Ha]; auto.
Qed.

Lemma dropWhile_all_nil p a : allOf p a -> dropWhile p a = [].
Proof. intros Ha. rewrite <- (app_nil_r a), dropWhile_all by assumption. reflexivity. Qed.

Lemma dropWhile_stop p x s : p x = false -> dropWhile p (x :: s) = x :: s.
Proof. simpl; intros ->; reflexivity. Qed.

Lemma firstn_takeWhile p s :
  firstn (List.length s - List.length (dropWhile p s)) s = takeWhile p s.
Proof.
  rewrite <- (takeWhile_dropWhile p s) at 1 3.
  rewrite length_app, Nat.add_sub, firstn_app, Nat.sub_diag, firstn_all.
  simpl. apply app_nil_r.
Qed.

(** Every string is its trimmed end followed by blanks. *)
Lemma trimEnd_split s : exists ws, allOf isSpace ws /\ s = trimEnd s ++ ws.
Proof.
  unfold trimEnd. exists (rev (takeWhile isSpace (rev s))). split.
  - unfold allOf. rewrite forallb_forall. intros x Hx.
    apply in_rev in Hx. pose proof (takeWhile_all isSpace (rev s)) as H.
    unfold allOf in H. rewrite forallb_forall in H. auto.
  - rewrite <- rev_app_distr, takeWhile_dropWhile, rev_involutive. reflexivity.
Qed.

End StringFacts.
Import StringFacts.

(* ------------------------------------------------------------------ *)
(** ** The pattern of [parseTimeToSeconds], read without backtracking *)

Module Scan.

Import IssueDetailPanel.

(** A unit token at the front of [s]: a maximal run of digits, not empty,
    followed at once by the letter [u]. *)
Definition scanUnit (u : N) (s : jsstring) : option (jsstring * jsstring) :=
  match takeWhile isDigit s, dropWhile isDigit s with
  | d :: ds, x :: r => if (x =? u)%N then Some (d :: ds, r) else None
  | _, _ => None
  end.

(** One optional group: the capture and the input left. *)
Definition scanGroup (u : N) (blanks : bool) (s : jsstring)
  : option jsstring * jsstring :=
  match scanUnit u s with
  | Some (ds, r) => (Some ds, if blanks then dropWhile isSpace r else r)
  | None => (None, s)
  end.

(** The four captures of the pattern matched at the front of [s]. *)
Definition scan (s : jsstring) : list (option jsstring) :=
  let '(g1, s1) := scanGroup (ch "w") true s in
  let '(g2, s2) := scanGroup (ch "d") true s1 in
  let '(g3, s3) := scanGroup (ch "h") true s2 in
  let '(g4, _) := scanGroup (ch "m") false s3 in
  [g1; g2; g3; g4].

Definition valueOf (g : option jsstring) : Z :=
  match g with Some ds => digitsValue ds | None => 0 end.

Definition secondsOf (gs : list (option jsstring)) : Z :=
  valueOf (nth 0 gs None) * 5 * 8 * 3600 + valueOf (nth 1 gs None) * 8 * 3600
  + valueOf (nth 2 gs None) * 3600 + valueOf (nth 3 gs None) * 60.

Definition isUnit (c : N) : bool :=
  ((c =? ch "w") || (c =? ch "d") || (c =? ch "h") || (c =? ch "m"))%N.

(** Whether a digit is somewhere followed at once by a unit letter, that
    is, whether the text holds a token of the form <n>w, <n>d, <n>h, <n>m. *)
Fixpoint hasToken (s : jsstring) : bool :=
  match s with
  | x :: t =>
      match t with
      | y :: _ => (isDigit x && isUnit y) || hasToken t
      | [] => false
      end
  | [] => false
  end.

(** A continuation that never fails. *)
Definition total (k : cont) : Prop := forall s c, k s c <> None.

Lemma star_commit p s c k :
  (forall x t c', p x = true -> k (x :: t) c' = None) ->
  star p s c k = k (dropWhile p s) c.
Proof.
  intros Hk. induction s as [|x s IH]; simpl; [reflexivity|].
  destruct (p x) eqn:Hx; [|reflexivity].
  rewrite IH. destruct (k (dropWhile p s) c) eqn:E; [reflexivity|].
  apply Hk; assumption.
Qed.

Lemma star_total p s c k : total k -> star p s c k = k (dropWhile p s) c.
Proof.
  intros Hk. induction s as [|x s IH]; simpl; [reflexivity|].
  destruct (p x) eqn:Hx; [|reflexivity].
  rewrite IH. destruct (k (dropWhile p s) c) eqn:E; [reflexivity|].
  exfalso; exact (Hk _ _ E).
Qed.

(** [(\d+)] followed by something that cannot start with a digit. *)
Lemma m_digits i s c k :
  (forall x t c', isDigit x = true -> k (x :: t) c' = None) ->
  m (Cap i (Plus isDigit)) s c k =
  match takeWhile isDigit s with
  | [] => None
  | ds => k (dropWhile isDigit s) (setCap i ds c)
  end.
Proof.
  intros Hk. cbn [m]. destruct s as [|x s]; [reflexivity|].
  pose proof (firstn_takeWhile isDigit (x :: s)) as F.
  simpl in F |- *. destruct (isDigit x) eqn:Hx; [|reflexivity].
  rewrite star_commit.
  - simpl in F. rewrite F. reflexivity.
  - intros y t c' Hy. apply Hk; assumption.
Qed.

Lemma unit_not_digit u : isUnit u = true -> isDigit u = false.
Proof.
  unfold isUnit. rewrite !orb_true_iff, !N.eqb_eq.
  intros [[[-> | ->] | ->] | ->]; reflexivity.
Qed.

Lemma m_seq r1 r2 s c k :
  m (Seq r1 r2) s c k = m r1 s c (fun s' c' => m r2 s' c' k).
Proof. reflexivity. Qed.

Lemma m_opt r s c k :
  m (Opt r) s c k = match m r s c k with Some res => Some res | None => k s c end.
Proof. reflexivity. Qed.

Lemma m_chr a s c k :
  m (Chr a) s c k =
  match s with x :: s' => if (x =? a)%N then k s' c else None | [] => None end.
Proof. reflexivity. Qed.

Lemma m_star p s c k : m (Star p) s c k = star p s c k.
Proof. reflexivity. Qed.

(** The body of the last group, [(\d+)u] with nothing after it. *)
Lemma m_unit_last i u s c k :
  isUnit u = true ->
  m (Seq (Cap i (Plus isDigit)) (Chr u)) s c k =
  match scanUnit u s with
  | Some (ds, r) => k r (setCap i ds c)
  | None => None
  end.
Proof.
  intros Hu. rewrite m_seq, m_digits.
  - unfold scanUnit. destruct (takeWhile isDigit s) as [|d ds]; [reflexivity|].
    rewrite m_chr. destruct (dropWhile isDigit s) as [|x r]; [reflexivity|].
    destruct (x =? u)%N; reflexivity.
  - intros x t c' Hx. rewrite m_chr.
    destruct (N.eqb_spec x u) as [->|]; [|reflexivity].
    apply unit_not_digit in Hu. congruence.
Qed.

(** The body of a group, [(\d+)u] then [rest]. *)
Lemma m_unit i u rest s c k :
  isUnit u = true ->
  m (Seq (Cap i (Plus isDigit)) (Seq (Chr u) rest)) s c k =
  match scanUnit u s with
  | Some (ds, r) => m rest r (setCap i ds c) k
  | None => None
  end.
Proof.
  intros Hu. rewrite m_seq.
  replace (fun s' c' => m (Seq (Chr u) rest) s' c' k)
    with (fun s' c' => m (Chr u) s' c' (fun s2 c2 => m rest s2 c2 k)) by reflexivity.
  change (m (Cap i (Plus isDigit)) s c
            (fun s' c' => m (Chr u) s' c' (fun s2 c2 => m rest s2 c2 k)))
    with (m (Seq (Cap i (Plus isDigit)) (Chr u)) s c (fun s2 c2 => m rest s2 c2 k)).
  apply m_unit_last; assumption.
Qed.

(** An optional group in front of a continuation that never fails takes
    the token when there is one. *)
Lemma m_group i u s c k :
  isUnit u = true -> total k ->
  m (Opt (Seq (Cap i (Plus isDigit)) (Seq (Chr u) (Star isSpace)))) s c k =
  k (snd (scanGroup u true s))
    (match fst (scanGroup u true s) with Some ds => setCap i ds c | None => c end).
Proof.
  intros Hu Hk. rewrite m_opt, m_unit by assumption. unfold scanGroup.
  destruct (scanUnit u s) as [[ds r]|]; simpl; [|reflexivity].
  rewrite star_total by assumption.
  destruct (k (dropWhile isSpace r) (setCap i ds c)) eqn:E; [reflexivity|].
  exfalso; exact (Hk _ _ E).
Qed.

Lemma m_group_last i u s c k :
  isUnit u = true -> total k ->
  m (Opt (Seq (Cap i (Plus isDigit)) (Chr u))) s c k =
  k (snd (scanGroup u false s))
    (match fst (scanGroup u false s) with Some ds => setCap i ds c | None => c end).
Proof.
  intros Hu Hk. rewrite m_opt, m_unit_last by assumption. unfold scanGroup.
  destruct (scanUnit u s) as [[ds r]|]; simpl; [|reflexivity].
  destruct (k r (setCap i ds c)) eqn:E; [reflexivity|].
  exfalso; exact (Hk _ _ E).
Qed.

Lemma total_group i rest k :
  total k -> total (fun s c => m (Opt (Seq (Cap i (Plus isDigit)) rest)) s c k).
Proof.
  intros Hk s c. rewrite m_opt.
  destruct (m (Seq (Cap i (Plus isDigit)) rest) s c k); [discriminate|apply Hk].
Qed.

(** The pattern matches at the front of every string, with the captures
    that [scan] reads. *)
Lemma matchAt_regex s :
  exists whole, matchAt regex 4 s = Some (Some whole :: scan s).
Proof.
  unfold matchAt.
  set (k := fun (s' : jsstring) (c' : captures) =>
            Some (setCap 0 (firstn (List.length s - List.length s') s) c')).
  assert (Hk : total k) by (intros ? ?; discriminate).
  set (k3 := fun s' c' => m (Opt (Seq (Cap 4 (Plus isDigit)) (Chr (ch "m")))) s' c' k).
  set (k2 := fun s' c' =>
               m (Opt (Seq (Cap 3 (Plus isDigit)) (Seq (Chr (ch "h")) (Star isSpace))))
                 s' c' k3).
  set (k1 := fun s' c' =>
               m (Opt (Seq (Cap 2 (Plus isDigit)) (Seq (Chr (ch "d")) (Star isSpace))))
                 s' c' k2).
  assert (H3 : total k3) by (apply total_group; assumption).
  assert (H2 : total k2) by (apply total_group; assumption).
  assert (H1 : total k1) by (apply total_group; assumption).
  change (m regex s (repeat None 5) k)
    with (m (Opt (Seq (Cap 1 (Plus isDigit)) (Seq (Chr (ch "w")) (Star isSpace))))
            s (repeat None 5) k1).
  rewrite m_group by (reflexivity || assumption).
  unfold k1 at 1. rewrite m_group by (reflexivity || assumption).
  unfold k2 at 1. rewrite m_group by (reflexivity || assumption).
  unfold k3 at 1.
  rewrite m_group_last; [|reflexivity|assumption].
  unfold scan.
  destruct (scanGroup (ch "w") true s) as [g1 s1]; cbn [fst snd].
  destruct (scanGroup (ch "d") true s1) as [g2 s2]; cbn [fst snd].
  destruct (scanGroup (ch "h") true s2) as [g3 s3]; cbn [fst snd].
  destruct (scanGroup (ch "m") false s3) as [g4 s4]; cbn [fst snd].
  unfold k. eexists.
  destruct g1, g2, g3, g4; reflexivity.
Qed.

Lemma exec_regex s : exists whole, exec regex 4 s = Some (Some whole :: scan s).
Proof.
  destruct (matchAt_regex s) as [whole H]. exists whole.
  destruct s; cbn [exec]; rewrite H; reflexivity.
Qed.

Lemma scanUnit_Some u s ds r :
  scanUnit u s = Some (ds, r) ->
  ds <> [] /\ allOf isDigit ds /\ s = ds ++ u :: r.
Proof.
  unfold scanUnit. intros H.
  pose proof (takeWhile_all isDigit s) as Hall.
  pose proof (takeWhile_dropWhile isDigit s) as Hsplit.
  destruct (takeWhile isDigit s) as [|d ds']; [discriminate|].
  destruct (dropWhile isDigit s) as [|x r']; [discriminate|].
  destruct (N.eqb_spec x u) as [->|]; [|discriminate].
  inversion H; subst.
  split; [discriminate|split; [assumption|]].
  first [reflexivity | symmetry; assumption].
Qed.

Lemma scanGroup_capture u b s ds :
  fst (scanGroup u b s) = Some ds -> ds <> [] /\ allOf isDigit ds.
Proof.
  unfold scanGroup. destruct (scanUnit u s) as [[ds' r]|] eqn:E; simpl; [|discriminate].
  intros H; inversion H; subst. apply scanUnit_Some in E. tauto.
Qed.

Lemma takeWhile_id p s : allOf p s -> takeWhile p s = s.
Proof.
  intros H. destruct (takeWhile_app_stop p s [] H I) as [E _].
  rewrite app_nil_r in E. assumption.
Qed.

Lemma parseInt_digits ds :
  ds <> [] -> allOf isDigit ds -> parseInt ds = Num (digitsValue ds).
Proof.
  intros Hne Hall. unfold parseInt. rewrite takeWhile_id by assumption.
  destruct ds; [contradiction|reflexivity].
Qed.

Lemma parseInt_capture g :
  (forall ds, g = Some ds -> ds <> [] /\ allOf isDigit ds) ->
  parseInt (orZero g) = Num (valueOf g).
Proof.
  intros H. destruct g as [ds|]; [|reflexivity].
  destruct (H ds eq_refl) as [Hne Hall].
  destruct ds as [|d ds]; [contradiction|].
  simpl orZero. apply parseInt_digits; assumption.
Qed.

(** [parseTimeToSeconds] never takes its [null] branch: it returns the
    number that the captures read at the front of the trimmed text add up
    to. *)
Lemma parse_scan s :
  parseTimeToSeconds s = Some (Num (secondsOf (scan (trim s)))).
Proof.
  unfold parseTimeToSeconds.
  destruct (exec_regex (trim s)) as [whole ->].
  unfold scan, secondsOf, group.
  destruct (scanGroup (ch "w") true (trim s)) as [g1 s1] eqn:E1.
  destruct (scanGroup (ch "d") true s1) as [g2 s2] eqn:E2.
  destruct (scanGroup (ch "h") true s2) as [g3 s3] eqn:E3.
  destruct (scanGroup (ch "m") false s3) as [g4 s4] eqn:E4.
  cbn [nth].
  rewrite !parseInt_capture.
  - reflexivity.
  - intros ds ->. apply (scanGroup_capture (ch "m") false s3). rewrite E4; reflexivity.
  - intros ds ->. apply (scanGroup_capture (ch "h") true s2). rewrite E3; reflexivity.
  - intros ds ->. apply (scanGroup_capture (ch "d") true s1). rewrite E2; reflexivity.
  - intros ds ->. apply (scanGroup_capture (ch "w") true (trim s)). rewrite E1; reflexivity.
Qed.

Lemma digitsValue_app ds c :
  digitsValue (ds ++ [c]) = (10 * digitsValue ds + (Z.of_N c - 48))%Z.
Proof. unfold digitsValue. rewrite fold_left_app. reflexivity. Qed.

Lemma digitsValue_nonneg ds : allOf isDigit ds -> (0 <= digitsValue ds)%Z.
Proof.
  induction ds as [|c ds IH] using rev_ind; intros H; [unfold digitsValue; simpl; lia|].
  apply allOf_app in H as [H1 H2]. rewrite digitsValue_app.
  apply allOf_cons in H2 as [H2 _]. unfold isDigit in H2.
  apply andb_true_iff in H2 as [H2 _]. apply N.leb_le in H2.
  specialize (IH H1). lia.
Qed.

Lemma valueOf_nonneg g :
  (forall ds, g = Some ds -> ds <> [] /\ allOf isDigit ds) -> (0 <= valueOf g)%Z.
Proof.
  destruct g as [ds|]; simpl; [|lia].
  intros H. apply digitsValue_nonneg, (H ds eq_refl).
Qed.

Lemma secondsOf_scan_nonneg s : (0 <= secondsOf (scan s))%Z.
Proof.
  unfold scan, secondsOf.
  destruct (scanGroup (ch "w") true s) as [g1 s1] eqn:E1.
  destruct (scanGroup (ch "d") true s1) as [g2 s2] eqn:E2.
  destruct (scanGroup (ch "h") true s2) as [g3 s3] eqn:E3.
  destruct (scanGroup (ch "m") false s3) as [g4 s4] eqn:E4.
  cbn [nth].
  assert (0 <= valueOf g1)%Z
    by (apply valueOf_nonneg; intros ds ->; apply (scanGroup_capture (ch "w") true s); rewrite E1; reflexivity).
  assert (0 <= valueOf g2)%Z
    by (apply valueOf_nonneg; intros ds ->; apply (scanGroup_capture (ch "d") true s1); rewrite E2; reflexivity).
  assert (0 <= valueOf g3)%Z
    by (apply valueOf_nonneg; intros ds ->; apply (scanGroup_capture (ch "h") true s2); rewrite E3; reflexivity).
  assert (0 <= valueOf g4)%Z
    by (apply valueOf_nonneg; intros ds ->; apply (scanGroup_capture (ch "m") false s3); rewrite E4; reflexivity).
  lia.
Qed.

(** *** Text without a token *)

Lemma hasToken_app_false a b : hasToken (a ++ b) = false -> hasToken b = false.
Proof.
  induction a as [|x a IH]; simpl; [auto|].
  destruct (a ++ b) as [|y t] eqn:E.
  - destruct a; [simpl in E; subst; reflexivity|discriminate].
  - intros H. apply orb_false_iff in H as [_ H]. auto.
Qed.

Lemma hasToken_prefix_false a b : hasToken (a ++ b) = false -> hasToken a = false.
Proof.
  induction a as [|x a IH]; simpl; [auto|].
  destruct a as [|y a']; [reflexivity|].
  simpl app. intros H. apply orb_false_iff in H as [H1 H2].
  rewrite H1. simpl. apply IH. exact H2.
Qed.

Lemma hasToken_digits_unit ds u r :
  ds <> [] -> allOf isDigit ds -> isUnit u = true -> hasToken (ds ++ u :: r) = true.
Proof.
  intros Hne Hall Hu. induction ds as [|d ds IH]; [contradiction|].
  apply allOf_cons in Hall as [Hd Hall].
  destruct ds as [|d' ds'].
  - simpl. rewrite Hd, Hu. reflexivity.
  - change ((d :: d' :: ds') ++ u :: r) with (d :: ((d' :: ds') ++ u :: r)).
    cbn [hasToken]. change ((d' :: ds') ++ u :: r) with (d' :: (ds' ++ u :: r)) at 1.
    cbv iota. rewrite IH; [apply orb_true_r|discriminate|assumption].
Qed.

Lemma scanUnit_no_token u s :
  isUnit u = true -> hasToken s = false -> scanUnit u s = None.
Proof.
  intros Hu Hs. destruct (scanUnit u s) as [[ds r]|] eqn:E; [|reflexivity].
  apply scanUnit_Some in E as (Hne & Hall & ->).
  rewrite hasToken_digits_unit in Hs by assumption. discriminate.
Qed.

Lemma scan_no_token s : hasToken s = false -> scan s = [None; None; None; None].
Proof.
  intros H. unfold scan, scanGroup.
  rewrite !scanUnit_no_token by (reflexivity || assumption).
  reflexivity.
Qed.

Lemma hasToken_trim s : hasToken s = false -> hasToken (trim s) = false.
Proof.
  intros H. unfold trim.
  destruct (trimEnd_split (trimStart s)) as (ws & _ & E).
  apply hasToken_prefix_false with (b := ws). rewrite <- E.
  unfold trimStart. apply hasToken_app_false with (a := takeWhile isSpace s).
  rewrite takeWhile_dropWhile. assumption.
Qed.

Lemma parse_no_token s :
  hasToken s = false -> parseTimeToSeconds s = Some (Num 0).
Proof.
  intros H. rewrite parse_scan, scan_no_token by (apply hasToken_trim; assumption).
  reflexivity.
Qed.

End Scan.

(* ------------------------------------------------------------------ *)
(** ** Well-formed duration text *)

Module Tokens.

Import IssueDetailPanel Format Scan.

(** A token as it is written: the digits, the unit letter, and the blanks
    after it; [None] when the token is left out. *)
Definition token (u : N) (t : option (jsstring * jsstring)) : jsstring :=
  match t with
  | Some (ds, ws) => ds ++ u :: ws
  | None => []
  end.

Definition wellFormed (t : option (jsstring * jsstring)) : Prop :=
  match t with
  | Some (ds, ws) => ds <> [] /\ allOf isDigit ds /\ allOf isSpace ws
  | None => True
  end.

Definition amount (t : option (jsstring * jsstring)) : Z :=
  match t with
  | Some (ds, _) => digitsValue ds
  | None => 0
  end.

Lemma space_not_unit c : isSpace c = true -> isUnit c = false.
Proof.
  intros H. destruct (isUnit c) eqn:E; [|reflexivity].
  unfold isUnit in E. rewrite !orb_true_iff, !N.eqb_eq in E.
  destruct E as [[[-> | ->] | ->] | ->]; discriminate.
Qed.

Lemma dropWhile_head p s x r : dropWhile p s = x :: r -> p x = false.
Proof.
  induction s as [|y s IH]; simpl; [discriminate|].
  destruct (p y) eqn:E; [assumption|]. intros H; inversion H; subst; assumption.
Qed.

Lemma scanUnit_app_blanks u y ws :
  isUnit u = true -> allOf isSpace ws ->
  scanUnit u (y ++ ws) =
  match scanUnit u y with
  | Some (ds, r) => Some (ds, r ++ ws)
  | None => None
  end.
Proof.
  intros Hu Hws. unfold scanUnit.
  pose proof (takeWhile_all isDigit y) as Ha.
  pose proof (takeWhile_dropWhile isDigit y) as Hy.
  remember (takeWhile isDigit y) as a eqn:Ea.
  destruct (dropWhile isDigit y) as [|x r] eqn:Hb.
  - rewrite app_nil_r in Hy. subst y.
    destruct (takeWhile_app_stop isDigit a ws Ha) as [-> ->].
    { destruct ws as [|w ws']; [exact I|].
      apply allOf_cons in Hws as [Hw _]. apply space_not_digit; assumption. }
    destruct a as [|d ds]; [reflexivity|].
    destruct ws as [|w ws']; [reflexivity|].
    apply allOf_cons in Hws as [Hw _]. apply space_not_unit in Hw.
    destruct (N.eqb_spec w u) as [->|]; [congruence|reflexivity].
  - pose proof (dropWhile_head isDigit y _ _ Hb) as Hx.
    replace (y ++ ws) with (a ++ (x :: r) ++ ws)
      by (rewrite <- Hy, <- app_assoc; reflexivity).
    destruct (takeWhile_app_stop isDigit a ((x :: r) ++ ws) Ha Hx) as [-> ->].
    destruct a; [reflexivity|].
    simpl. destruct (x =? u)%N; reflexivity.
Qed.

Lemma dropWhile_app_all p r ws :
  allOf p ws ->
  exists ws', allOf p ws' /\ dropWhile p (r ++ ws) = dropWhile p r ++ ws'.
Proof.
  intros Hws. induction r as [|x r IH]; simpl.
  - exists []. split; [reflexivity|]. apply dropWhile_all_nil; assumption.
  - destruct (p x); [assumption|]. exists ws. split; [assumption|reflexivity].
Qed.

Lemma scanGroup_app_blanks u b y ws :
  isUnit u = true -> allOf isSpace ws ->
  exists ws', allOf isSpace ws' /\
    scanGroup u b (y ++ ws) = (fst (scanGroup u b y), snd (scanGroup u b y) ++ ws').
Proof.
  intros Hu Hws. unfold scanGroup. rewrite scanUnit_app_blanks by assumption.
  destruct (scanUnit u y) as [[ds r]|]; simpl.
  - destruct b.
    + destruct (dropWhile_app_all isSpace r ws Hws) as (ws' & H1 & ->). eauto.
    + eauto.
  - eauto.
Qed.

(** Blanks at the end of the text change no capture. *)
Lemma scan_app_blanks y ws : allOf isSpace ws -> scan (y ++ ws) = scan y.
Proof.
  intros Hws. unfold scan.
  destruct (scanGroup_app_blanks (ch "w") true y ws eq_refl Hws) as (w1 & H1 & ->).
  destruct (scanGroup (ch "w") true y) as [g1 s1]; cbn [fst snd].
  destruct (scanGroup_app_blanks (ch "d") true s1 w1 eq_refl H1) as (w2 & H2 & ->).
  destruct (scanGroup (ch "d") true s1) as [g2 s2]; cbn [fst snd].
  destruct (scanGroup_app_blanks (ch "h") true s2 w2 eq_refl H2) as (w3 & H3 & ->).
  destruct (scanGroup (ch "h") true s2) as [g3 s3]; cbn [fst snd].
  destruct (scanGroup_app_blanks (ch "m") false s3 w3 eq_refl H3) as (w4 & H4 & ->).
  destruct (scanGroup (ch "m") false s3) as [g4 s4]; reflexivity.
Qed.

Lemma scan_trim s : scan (trim s) = scan (trimStart s).
Proof.
  unfold trim. destruct (trimEnd_split (trimStart s)) as (ws & Hws & E).
  rewrite E at 2. symmetry. apply scan_app_blanks; assumption.
Qed.

Lemma digits_start ds R :
  ds <> [] -> allOf isDigit ds -> dropWhile isSpace (ds ++ R) = ds ++ R.
Proof.
  intros Hne Hall. destruct ds as [|d ds]; [contradiction|].
  apply allOf_cons in Hall as [Hd _]. apply digit_not_space in Hd.
  simpl. rewrite Hd. reflexivity.
Qed.

Lemma scanUnit_hit u ds r :
  isUnit u = true -> ds <> [] -> allOf isDigit ds ->
  scanUnit u (ds ++ u :: r) = Some (ds, r).
Proof.
  intros Hu Hne Hall. unfold scanUnit.
  destruct (takeWhile_app_stop isDigit ds (u :: r) Hall (unit_not_digit u Hu)) as [-> ->].
  destruct ds; [contradiction|]. rewrite N.eqb_refl. reflexivity.
Qed.

Lemma scanUnit_other u u' ds r :
  isUnit u' = true -> u' <> u -> allOf isDigit ds ->
  scanUnit u (ds ++ u' :: r) = None.
Proof.
  intros Hu Hne Hall. unfold scanUnit.
  destruct (takeWhile_app_stop isDigit ds (u' :: r) Hall (unit_not_digit u' Hu)) as [-> ->].
  destruct ds; [reflexivity|].
  destruct (N.eqb_spec u' u); [contradiction|reflexivity].
Qed.

(** A token of another unit, or none, in front does not help [u]. *)
Lemma scanUnit_skip u u' t R :
  isUnit u' = true -> u' <> u -> wellFormed t ->
  scanUnit u (dropWhile isSpace R) = None ->
  scanUnit u (dropWhile isSpace (token u' t ++ R)) = None.
Proof.
  intros Hu Hne Ht HR. destruct t as [[ds ws]|]; [|assumption].
  destruct Ht as (Hds & Hall & _). simpl token. rewrite <- app_assoc.
  rewrite digits_start by assumption. simpl.
  apply scanUnit_other; assumption.
Qed.

Lemma scanGroup_token u t R :
  isUnit u = true -> wellFormed t ->
  scanUnit u (dropWhile isSpace R) = None ->
  scanGroup u true (dropWhile isSpace (token u t ++ R))
  = (option_map fst t, dropWhile isSpace R).
Proof.
  intros Hu Ht HR. unfold scanGroup. destruct t as [[ds ws]|]; simpl token.
  - destruct Ht as (Hds & Hall & Hws). rewrite <- app_assoc.
    rewrite digits_start by assumption. simpl.
    rewrite scanUnit_hit by assumption. rewrite dropWhile_all by assumption.
    reflexivity.
  - simpl. rewrite HR. reflexivity.
Qed.

Lemma scanGroup_token_last u t :
  isUnit u = true -> wellFormed t ->
  fst (scanGroup u false (dropWhile isSpace (token u t))) = option_map fst t.
Proof.
  intros Hu Ht. unfold scanGroup. destruct t as [[ds ws]|]; simpl token.
  - destruct Ht as (Hds & Hall & Hws).
    rewrite digits_start by assumption. rewrite scanUnit_hit by assumption.
    reflexivity.
  - reflexivity.
Qed.

Lemma valueOf_token t : valueOf (option_map fst t) = amount t.
Proof. destruct t as [[ds ws]|]; reflexivity. Qed.

(** The captures of a text made of the four optional tokens in order. *)
Lemma scan_tokens lead tw td th tm :
  allOf isSpace lead ->
  wellFormed tw -> wellFormed td -> wellFormed th -> wellFormed tm ->
  scan (trimStart
          (lead ++ token (ch "w") tw ++ token (ch "d") td
                ++ token (ch "h") th ++ token (ch "m") tm))
  = [option_map fst tw; option_map fst td; option_map fst th; option_map fst tm].
Proof.
  intros Hlead Hw Hd Hh Hm. unfold trimStart.
  rewrite dropWhile_all by assumption. unfold scan.
  rewrite scanGroup_token; [|reflexivity|assumption|].
  2:{ repeat (apply scanUnit_skip; [reflexivity|discriminate|assumption|]).
      rewrite <- (app_nil_r (token (ch "m") tm)).
      apply scanUnit_skip; [reflexivity|discriminate|assumption|reflexivity]. }
  rewrite scanGroup_token; [|reflexivity|assumption|].
  2:{ repeat (apply scanUnit_skip; [reflexivity|discriminate|assumption|]).
      rewrite <- (app_nil_r (token (ch "m") tm)).
      apply scanUnit_skip; [reflexivity|discriminate|assumption|reflexivity]. }
  rewrite scanGroup_token; [|reflexivity|assumption|].
  2:{ rewrite <- (app_nil_r (token (ch "m") tm)).
      apply scanUnit_skip; [reflexivity|discriminate|assumption|reflexivity]. }
  pose proof (scanGroup_token_last (ch "m") tm eq_refl Hm) as H4.
  destruct (scanGroup (ch "m") false (dropWhile isSpace (token (ch "m") tm))) as [g4 s4].
  simpl in H4. subst g4. reflexivity.
Qed.

(** What [parseTimeToSeconds] returns on such a text. *)
Lemma parse_tokens lead tw td th tm :
  allOf isSpace lead ->
  wellFormed tw -> wellFormed td -> wellFormed th -> wellFormed tm ->
  parseTimeToSeconds
    (lead ++ token (ch "w") tw ++ token (ch "d") td
          ++ token (ch "h") th ++ token (ch "m") tm)
  = Some (Num (amount tw * 5 * 8 * 3600 + amount td * 8 * 3600
               + amount th * 3600 + amount tm * 60)).
Proof.
  intros. rewrite parse_scan, scan_trim, scan_tokens by assumption.
  unfold secondsOf. cbn [nth]. rewrite !valueOf_token. reflexivity.
Qed.

(** *** Printing a natural number *)

Lemma digit_char k : (k < 10)%N -> isDigit (48 + k) = true.
Proof.
  intros H. unfold isDigit. apply andb_true_iff. split; apply N.leb_le; lia.
Qed.

Lemma single_digit k :
  (k < 10)%N ->
  [(48 + k)%N] <> [] /\ allOf isDigit [(48 + k)%N]
  /\ digitsValue [(48 + k)%N] = Z.of_N k.
Proof.
  intros H. split; [discriminate|]. split.
  - apply allOf_cons. split; [apply digit_char; assumption|reflexivity].
  - unfold digitsValue. cbn [fold_left]. lia.
Qed.

Lemma digitsFrom_spec fuel : forall n acc,
  (N.to_nat (N.log2 n) <= fuel)%nat ->
  exists ds, digitsFrom fuel n acc = ds ++ acc /\ ds <> [] /\ allOf isDigit ds
             /\ digitsValue ds = Z.of_N n.
Proof.
  induction fuel as [|f IH]; intros n acc Hfuel.
  - assert (Hn : (n < 2)%N).
    { destruct (N.eq_dec n 0) as [->|Hz]; [reflexivity|].
      assert (H : N.log2 n = 0%N) by lia.
      pose proof (N.log2_spec n ltac:(lia)) as [_ Hs]. rewrite H in Hs. exact Hs. }
    exists [(48 + n mod 10)%N]. split; [reflexivity|].
    rewrite N.mod_small by lia. apply single_digit. lia.
  - cbn [digitsFrom]. destruct (N.ltb_spec n 10) as [Hlt|Hge].
    + exists [(48 + n mod 10)%N]. split; [reflexivity|].
      rewrite N.mod_small by lia. apply single_digit. lia.
    + destruct (IH (n / 10)%N ((48 + n mod 10)%N :: acc)) as (ds & E & Hne & Hall & Hv).
      { assert (N.log2 (n / 10) < N.log2 n)%N; [|lia].
        apply N.lt_le_trans with (m := N.log2 (2 * (n / 10))).
        - rewrite N.log2_double by (apply N.div_str_pos; lia). lia.
        - apply N.log2_le_mono. pose proof (N.div_mod n 10 ltac:(lia)) as Hdm.
          revert Hdm. generalize (n / 10)%N (n mod 10)%N. intros; lia. }
      pose proof (N.mod_upper_bound n 10 ltac:(lia)) as Hmod.
      exists (ds ++ [(48 + n mod 10)%N]). rewrite E, <- app_assoc.
      split; [reflexivity|]. split; [destruct ds; discriminate|]. split.
      * apply allOf_app. split; [assumption|].
        apply allOf_cons. split; [apply digit_char; assumption|reflexivity].
      * rewrite digitsValue_app, Hv.
        pose proof (N.div_mod n 10 ltac:(lia)) as Hdm.
        revert Hdm. generalize (n / 10)%N (n mod 10)%N. intros; lia.
Qed.

Lemma natToString_spec n :
  natToString n <> [] /\ allOf isDigit (natToString n)
  /\ digitsValue (natToString n) = Z.of_N n.
Proof.
  unfold natToString.
  destruct (digitsFrom_spec (N.to_nat (N.log2 n)) n [] (le_n _)) as (ds & E & H).
  rewrite E, app_nil_r. exact H.
Qed.

Lemma numToString_nonneg z : (0 <= z)%Z -> numToString z = natToString (Z.to_N z).
Proof. destruct z; [reflexivity|reflexivity|lia]. Qed.

End Tokens.

(* ------------------------------------------------------------------ *)
(** ** The duration parser: claims *)

Module DurationClaims.

Import IssueDetailPanel Format Scan Tokens.

(** C1.  A text made of the tokens <weeks>w <days>d <hours>h <minutes>m, each
    optional, in that order, each followed by any run of blanks (blanks may
    also lead), parses to
    weeks*5*8*3600 + days*8*3600 + hours*3600 + minutes*60 seconds, so a day
    counts 8 hours and a week 5 days; and "1h 30m" parses to 5400.  The sum
    is taken within the integers a JavaScript number holds exactly. *)
Theorem C1_parse_tokens_in_order lead tw td th tm :
  allOf isSpace lead ->
  wellFormed tw -> wellFormed td -> wellFormed th -> wellFormed tm ->
  (amount tw * 5 * 8 * 3600 + amount td * 8 * 3600
   + amount th * 3600 + amount tm * 60 <= MAX_SAFE_INTEGER)%Z ->
  parseTimeToSeconds
    (lead ++ token (ch "w") tw ++ token (ch "d") td
          ++ token (ch "h") th ++ token (ch "m") tm)
  = Some (Num (amount tw * 5 * 8 * 3600 + amount td * 8 * 3600
               + amount th * 3600 + amount tm * 60))
  /\ parseTimeToSeconds (lit "1h 30m") = Some (Num 5400).
Proof.
  intros Hlead Hw Hd Hh Hm _. split.
  - apply parse_tokens; assumption.
  - apply (parse_tokens [] None None (Some (lit "1", lit " ")) (Some (lit "30", [])));
      simpl; repeat split; try discriminate; reflexivity.
Qed.

Lemma C1_witness :
  parseTimeToSeconds (lit "  2w 1d  3h4m ") = Some (Num 327840)
  /\ parseTimeToSeconds (lit "1h 30m") = Some (Num 5400).
Proof.
  apply (C1_parse_tokens_in_order (lit "  ")
           (Some (lit "2", lit " ")) (Some (lit "1", lit "  "))
           (Some (lit "3", [])) (Some (lit "4", lit " ")));
    simpl; repeat split; try discriminate; try reflexivity.
Defined.

(** C2.  When no token matches, either because the text holds none (no
    digit directly followed by w, d, h or m; the empty text is such a text)
    or because the match leaves all four groups undefined, the parser
    returns 0, which [handleLogTime] treats as a failure: it never posts a
    worklog for that text, whereas every positive parse result is posted. *)
Theorem C2_no_token_is_a_failure s :
  (hasToken s = false
   \/ exists whole,
        exec regex 4 (trim s) = Some [Some whole; None; None; None; None]) ->
  parseTimeToSeconds s = Some (Num 0)
  /\ falsy (parseTimeToSeconds s) = true
  /\ (handleLogTime s = Ignored \/ handleLogTime s = InvalidFormat)
  /\ (forall s' z, parseTimeToSeconds s' = Some (Num z) -> (0 < z)%Z ->
                   handleLogTime s' = Posted (Num z)).
Proof.
  intros H.
  assert (P : parseTimeToSeconds s = Some (Num 0)).
  { destruct H as [H|[whole H]]; [apply parse_no_token; assumption|].
    rewrite parse_scan. destruct (exec_regex (trim s)) as [whole' E].
    rewrite E in H. injection H as _ Hscan. rewrite Hscan. reflexivity. }
  split; [assumption|]. split; [rewrite P; reflexivity|]. split.
  - unfold handleLogTime. destruct (trim s); [left; reflexivity|].
    rewrite P. right; reflexivity.
  - intros s' z Hp Hz. unfold handleLogTime.
    destruct (trim s') eqn:E.
    + rewrite parse_scan, E in Hp. inversion Hp. subst z.
      vm_compute in Hz. discriminate.
    + rewrite Hp. simpl. destruct (Z.eqb_spec z 0); [lia|reflexivity].
Qed.

Lemma C2_witness :
  parseTimeToSeconds (lit "soon") = Some (Num 0)
  /\ falsy (parseTimeToSeconds (lit "soon")) = true
  /\ (handleLogTime (lit "soon") = Ignored \/ handleLogTime (lit "soon") = InvalidFormat)
  /\ (forall s' z, parseTimeToSeconds s' = Some (Num z) -> (0 < z)%Z ->
                   handleLogTime s' = Posted (Num z)).
Proof. apply (C2_no_token_is_a_failure (lit "soon")). left. reflexivity. Defined.


(** C10.  Formatting a count of seconds as "<hours>h <minutes>m" and parsing
    the text again gives the count rounded down to a whole minute, for every
    count a JavaScript number holds exactly. *)
Theorem C10_format_then_parse s :
  (0 <= s <= MAX_SAFE_INTEGER)%Z ->
  parseTimeToSeconds (formatHours s) = Some (Num (60 * (s / 60))).
Proof.
  intros [Hs _]. unfold formatHours.
  rewrite Z.rem_mod_nonneg by lia.
  assert (HH : (0 <= s / 3600)%Z) by (apply Z.div_pos; lia).
  assert (HM : (0 <= s mod 3600 / 60)%Z)
    by (apply Z.div_pos; [apply Z.mod_pos_bound|]; lia).
  rewrite !numToString_nonneg by assumption.
  destruct (natToString_spec (Z.to_N (s / 3600))) as (Hn1 & Hd1 & Hv1).
  destruct (natToString_spec (Z.to_N (s mod 3600 / 60))) as (Hn2 & Hd2 & Hv2).
  transitivity (parseTimeToSeconds
    ([] ++ token (ch "w") None ++ token (ch "d") None
        ++ token (ch "h") (Some (natToString (Z.to_N (s / 3600)), lit " "))
        ++ token (ch "m") (Some (natToString (Z.to_N (s mod 3600 / 60)), [])))).
  { f_equal. simpl. rewrite <- app_assoc. reflexivity. }
  rewrite parse_tokens
    by (cbn [wellFormed]; repeat split; try assumption; reflexivity).
  cbn [amount]. rewrite Hv1, Hv2, !Z2N.id by assumption.
  do 2 f_equal. Z.div_mod_to_equations. lia.
Qed.

Lemma C10_witness :
  parseTimeToSeconds (formatHours 5430) = Some (Num (60 * (5430 / 60))).
Proof. apply (C10_format_then_parse 5430). vm_compute. split; discriminate. Defined.

End DurationClaims.

(* ------------------------------------------------------------------ *)
(** ** Rounding to a double: the error of one operation *)

Module DoubleFacts.

Import JsDouble.
Local Open Scope Q_scope.

Lemma pow2_pos e : 0 < pow2 e.
Proof. apply Qpower_0_lt. reflexivity. Qed.

Lemma pow2_add a b : pow2 (a + b) == pow2 a * pow2 b.
Proof. apply Qpower_plus. discriminate. Qed.

Lemma pow2_Z a : (0 <= a)%Z -> pow2 a == inject_Z (2 ^ a).
Proof. intros H. unfold pow2. rewrite Zpower_Qpower by assumption. reflexivity. Qed.

Lemma Qmake_mult_den n d : (n # d) * inject_Z (Zpos d) == inject_Z n.
Proof. unfold Qeq, Qmult, inject_Z. simpl. rewrite Pos.mul_1_r. ring. Qed.

(** [ilog2] is not above the binary logarithm. *)
Lemma ilog2_lower x : 0 < x -> pow2 (ilog2 x) <= x.
Proof.
  intros Hx. unfold ilog2.
  destruct (Qle_bool (pow2 _) x) eqn:E; [apply Qle_bool_iff; assumption|].
  clear E. destruct x as [n d]. cbn [Qnum Qden].
  assert (Hn : (0 < n)%Z) by (unfold Qlt in Hx; simpl in Hx; lia).
  set (a := Z.log2 n). set (b := Z.log2 (Zpos d)).
  assert (Ha : (0 <= a)%Z) by apply Z.log2_nonneg.
  assert (Hb : (0 <= b)%Z) by apply Z.log2_nonneg.
  destruct (Z.log2_spec n Hn) as [Hlo _]. fold a in Hlo.
  destruct (Z.log2_spec (Zpos d) eq_refl) as [_ Hhi]. fold b in Hhi.
  replace (a - b - 1)%Z with (a + - (b + 1))%Z by lia.
  rewrite pow2_add. unfold pow2 at 2. rewrite Qpower_opp. fold (pow2 (b + 1)).
  rewrite (pow2_Z a), (pow2_Z (b + 1)) by lia.
  set (A := (2 ^ a)%Z) in *. set (B := (2 ^ (b + 1))%Z).
  replace (Z.succ b) with (b + 1)%Z in Hhi by lia. fold B in Hhi.
  assert (HB : 0 < inject_Z B) by (unfold Qlt; simpl; lia).
  apply Qmult_lt_0_le_reg_r with (z := inject_Z B); [assumption|].
  rewrite <- Qmult_assoc, (Qmult_comm (/ _)), Qmult_inv_r, Qmult_1_r
    by (intros H0; rewrite H0 in HB; discriminate).
  apply Qle_trans with (y := inject_Z n); [rewrite <- Zle_Qle; assumption|].
  rewrite <- (Qmake_mult_den n d).
  apply Qmult_le_l; [assumption|]. rewrite <- Zle_Qle. lia.
Qed.

Lemma rne_error y : Qabs (inject_Z (rne y) - y) <= 1 # 2.
Proof.
  pose proof (Qfloor_le y) as Hlo. pose proof (Qlt_floor y) as Hhi.
  rewrite inject_Z_plus in Hhi. change (inject_Z 1) with 1 in Hhi.
  apply Qabs_Qle_condition.
  unfold rne. destruct (Qcompare (y - inject_Z (Qfloor y)) (1 # 2)) eqn:C.
  - apply Qeq_alt in C. destruct (Z.even (Qfloor y));
      rewrite ?inject_Z_plus; change (inject_Z 1) with 1; split; lra.
  - apply Qlt_alt in C. split; lra.
  - apply Qgt_alt in C. rewrite inject_Z_plus. change (inject_Z 1) with 1.
    split; lra.
Qed.

Lemma roundPos_error x :
  0 < x -> Qabs (roundPos x - x) <= x * pow2 (-53) + pow2 (-1075).
Proof.
  intros Hx. unfold roundPos. rewrite Qred_correct.
  set (e := Z.max (ilog2 x - 52) (-1074)).
  pose proof (pow2_pos e) as HP.
  pose proof (rne_error (x / pow2 e)) as Hr.
  set (mt := inject_Z (rne (x / pow2 e))) in *.
  assert (Hxe : x == x / pow2 e * pow2 e)
    by (field; intros H0; rewrite H0 in HP; discriminate).
  assert (Hhalf : pow2 e * (1 # 2) <= x * pow2 (-53) + pow2 (-1075)).
  { pose proof (ilog2_lower x Hx) as HL.
    pose proof (pow2_pos (-53)). pose proof (pow2_pos (-1075)).
    change (1 # 2) with (pow2 (-1)). rewrite <- pow2_add.
    unfold e. destruct (Z.max_spec (ilog2 x - 52) (-1074)) as [[_ ->]|[_ ->]].
    - change (-1074 + -1)%Z with (-1075)%Z.
      assert (0 <= x * pow2 (-53)) by (apply Qmult_le_0_compat; lra). lra.
    - replace (ilog2 x - 52 + -1)%Z with (ilog2 x + -53)%Z by lia.
      rewrite pow2_add.
      assert (pow2 (ilog2 x) * pow2 (-53) <= x * pow2 (-53))
        by (apply Qmult_le_compat_r; lra). lra. }
  apply Qabs_Qle_condition in Hr. apply Qabs_Qle_condition.
  assert (H1 : mt * pow2 e - x == (mt - x / pow2 e) * pow2 e)
    by (rewrite Hxe at 1; ring).
  rewrite H1.
  assert (Hup : (mt - x / pow2 e) * pow2 e <= (1 # 2) * pow2 e)
    by (apply Qmult_le_compat_r; lra).
  assert (Hdn : - (1 # 2) * pow2 e <= (mt - x / pow2 e) * pow2 e)
    by (apply Qmult_le_compat_r; lra).
  split; lra.
Qed.

(** The standard model of one rounding, with the subnormal term. *)
Lemma roundNE_error x :
  0 < x -> Qabs (roundNE x - x) <= x * pow2 (-53) + pow2 (-1075).
Proof.
  intros Hx. unfold roundNE. destruct x as [n d].
  assert (Hn : (0 < n)%Z) by (unfold Qlt in Hx; simpl in Hx; lia).
  cbn [Qnum]. destruct n; try lia. apply roundPos_error. assumption.
Qed.

Lemma roundNE_zero x : x == 0 -> roundNE x = 0.
Proof.
  intros H. unfold roundNE. destruct x as [n d].
  unfold Qeq in H. simpl in H. rewrite Z.mul_1_r in H. subst n. reflexivity.
Qed.

Lemma Qfloor_unique x k : inject_Z k <= x -> x < inject_Z k + 1 -> Qfloor x = k.
Proof.
  intros H1 H2. pose proof (Qfloor_le x) as F1. pose proof (Qlt_floor x) as F2.
  rewrite inject_Z_plus in F2. change (inject_Z 1) with 1 in F2.
  assert (A : inject_Z (Qfloor x) < inject_Z k + 1) by lra.
  assert (B : inject_Z k < inject_Z (Qfloor x) + 1) by lra.
  change 1 with (inject_Z 1) in A, B. rewrite <- inject_Z_plus in A, B.
  rewrite <- Zlt_Qlt in A, B. lia.
Qed.

End DoubleFacts.

(* ------------------------------------------------------------------ *)
(** ** The rounding model against the kernel's binary64 numbers *)

Module Binary64.

Import JsDouble.

(** The rational that a finite float denotes. *)
Definition valueOfFloat (f : float) : option Q :=
  match Prim2SF f with
  | S754_zero _ => Some 0%Q
  | S754_finite s m e =>
      Some (Qred ((if s then -1 else 1) * inject_Z (Zpos m) * pow2 e))%Q
  | _ => None
  end.

Definition floatOfZ (z : Z) : float := PrimFloat.of_uint63 (Uint63.of_Z z).

(** [(seconds / goalSeconds) * 100] on the hardware numbers and in the
    model. *)
Definition hardwareRatio (goalSeconds seconds : Z) : option Q :=
  valueOfFloat
    (PrimFloat.mul (PrimFloat.div (floatOfZ seconds) (floatOfZ goalSeconds))
                   (floatOfZ 100)).

Definition modelRatio (goalSeconds seconds : Z) : option Q :=
  Some (fmul (fdiv (ofZ seconds) (ofZ goalSeconds)) (ofZ 100)).

Definition sampleSeconds : list Z :=
  [0; 1; 59; 60; 144; 720; 3599; 3600; 4176; 14400; 20880; 28799; 28800;
   28944; 29232; 36000; 36720; 86399; 86400; 144000; 144720; 604800;
   1234567; 987654321; 8796093022207]%Z.

(** On the samples, among them the halves where the product falls short,
    both goals give the same number in the model and on the hardware. *)
Lemma model_is_binary64_on_samples :
  forallb
    (fun t =>
       match hardwareRatio 28800 t, modelRatio 28800 t,
             hardwareRatio 144000 t, modelRatio 144000 t with
       | Some a, Some b, Some c, Some d => Qeq_bool a b && Qeq_bool c d
       | _, _, _, _ => false
       end)
    sampleSeconds = true.
Proof. vm_compute. reflexivity. Qed.

End Binary64.

(* ------------------------------------------------------------------ *)
(** ** Progress percentages *)

Module ProgressClaims.

Import JsDouble DoubleFacts Server WeeklyTimesheet.
Local Open Scope Z_scope.

(** The exact quotient [num / den] rounded to the nearest integer, a tie
    going up. *)
Definition roundHalfUp (num den : Z) : Z := (2 * num + den) / (2 * den).

(** Whether [num / den] lies exactly halfway between two integers. *)
Definition exactHalf (num den : Z) : Prop := (2 * num + den) mod (2 * den) = 0.

Lemma eps_small : (pow2 (-1075) <= 1 # 1267650600228229401496703205376)%Q.
Proof. apply Qle_bool_iff. vm_compute. reflexivity. Qed.

Lemma pow2_53 : (pow2 (-53) == 1 # 9007199254740992)%Q.
Proof. vm_compute. reflexivity. Qed.

Lemma Qdiv_pos_const (x c : Q) : (0 < x -> 0 < c -> 0 < x / c)%Q.
Proof.
  intros Hx Hc. unfold Qdiv. apply Qmult_lt_0_compat; [assumption|].
  apply Qinv_lt_0_compat; assumption.
Qed.

(** Three roundings in a row (the Number of the count, the quotient by the
    goal [G], the product by 100) stay on the side of every half that the
    exact quotient is on. *)
Ltac percent_exact G twoG twoGm1 :=
  match goal with
  | Hlo : 0 <= ?t, Hhi : ?t < 8796093022208,
    Hk1 : twoG * ?k + 1 <= 200 * ?t + G, Hk2 : 200 * ?t + G <= twoG * ?k + twoGm1
    |- _ =>
      destruct (Z.eq_dec t 0) as [->|Hnz];
      [ assert (k = 0) by lia; subst k; vm_compute; reflexivity | ];
      unfold fdiv, fmul, MathRound;
      assert (Hn : (1 <= inject_Z t)%Q)
        by (change 1%Q with (inject_Z 1); rewrite <- Zle_Qle; lia);
      rewrite Zle_Qle in Hk1, Hk2; rewrite Zlt_Qlt in Hhi;
      rewrite ?inject_Z_plus, ?inject_Z_mult in Hk1, Hk2;
      change (inject_Z twoG) with (twoG # 1)%Q in *;
      change (inject_Z 200) with (200 # 1)%Q in *;
      change (inject_Z G) with (G # 1)%Q in *;
      change (inject_Z twoGm1) with (twoGm1 # 1)%Q in *;
      change (inject_Z 1) with 1%Q in *;
      change (inject_Z 8796093022208) with (8796093022208 # 1)%Q in *;
      pose proof eps_small as Heta; pose proof (pow2_pos (-1075)) as Heta0;
      pose proof (roundNE_error (inject_Z t) ltac:(lra)) as Et;
      fold (ofZ t) in Et; apply Qabs_Qle_condition in Et; rewrite pow2_53 in Et;
      set (T := inject_Z t) in *; set (t' := ofZ t) in *;
      set (eta := pow2 (-1075)) in *;
      assert (Ht' : (0 < t')%Q) by lra;
      set (x1 := (t' / (G # 1))%Q);
      assert (Hx1 : (x1 * (G # 1) == t')%Q) by (unfold x1; field);
      assert (Hx1p : (0 < x1)%Q) by lra;
      pose proof (roundNE_error x1 Hx1p) as Eq;
      apply Qabs_Qle_condition in Eq; rewrite pow2_53 in Eq; fold eta in Eq;
      set (q := roundNE x1) in *;
      assert (Hq : (0 < q * (100 # 1))%Q) by lra;
      pose proof (roundNE_error (q * (100 # 1))%Q Hq) as Ep;
      apply Qabs_Qle_condition in Ep; rewrite pow2_53 in Ep; fold eta in Ep;
      set (p := roundNE (q * (100 # 1))) in *;
      apply Qfloor_unique; lra
  end.

(** The daily percentage is the exact quotient rounded, off the halves. *)
Lemma percent_8_exact t :
  0 <= t < 2 ^ 43 -> ~ exactHalf (100 * t) (8 * 3600) ->
  percentOf 8 t = roundHalfUp (100 * t) (8 * 3600).
Proof.
  intros [Hlo Hhi] Hne. unfold exactHalf in Hne. unfold roundHalfUp.
  change (2 ^ 43) with 8796093022208 in Hhi.
  change (8 * 3600) with 28800 in *.
  set (k := (2 * (100 * t) + 28800) / (2 * 28800)).
  assert (Hk1 : 57600 * k + 1 <= 200 * t + 28800)
    by (subst k; Z.div_mod_to_equations; lia).
  assert (Hk2 : 200 * t + 28800 <= 57600 * k + 57599)
    by (subst k; Z.div_mod_to_equations; lia).
  clearbody k. clear Hne.
  unfold percentOf. change (ofZ (8 * 3600)) with (28800 # 1)%Q.
  change (ofZ 100) with (100 # 1)%Q.
  percent_exact 28800 57600 57599.
Qed.

(** So is the weekly one. *)
Lemma percent_40_exact t :
  0 <= t < 2 ^ 43 -> ~ exactHalf (100 * t) (40 * 3600) ->
  percentOf 40 t = roundHalfUp (100 * t) (40 * 3600).
Proof.
  intros [Hlo Hhi] Hne. unfold exactHalf in Hne. unfold roundHalfUp.
  change (2 ^ 43) with 8796093022208 in Hhi.
  change (40 * 3600) with 144000 in *.
  set (k := (2 * (100 * t) + 144000) / (2 * 144000)).
  assert (Hk1 : 288000 * k + 1 <= 200 * t + 144000)
    by (subst k; Z.div_mod_to_equations; lia).
  assert (Hk2 : 200 * t + 144000 <= 288000 * k + 287999)
    by (subst k; Z.div_mod_to_equations; lia).
  clearbody k. clear Hne.
  unfold percentOf. change (ofZ (40 * 3600)) with (144000 # 1)%Q.
  change (ofZ 100) with (100 # 1)%Q.
  percent_exact 144000 288000 287999.
Qed.

End ProgressClaims.

(* ------------------------------------------------------------------ *)
(** ** The calendar *)

Module DateFacts.

Local Open Scope Z_scope.

Lemma yoe_bounds doe :
  0 <= doe <= 146096 ->
  let yoe := (doe - doe / 1460 + doe / 36524 - doe / 146096) / 365 in
  0 <= yoe <= 399 /\
  365 * yoe + yoe / 4 - yoe / 100 <= doe
    < 365 * (yoe + 1) + (yoe + 1) / 4 - (yoe + 1) / 100
      + (if yoe =? 399 then 1 else 0).
Proof.
  intros H yoe. subst yoe.
  Z.div_mod_to_equations; destruct (_ =? 399) eqn:E; lia.
Qed.

Lemma yoe_of_doe yoe doy :
  0 <= yoe <= 399 -> 0 <= doy <= 364 ->
  let doe := yoe * 365 + yoe / 4 - yoe / 100 + doy in
  (doe - doe / 1460 + doe / 36524 - doe / 146096) / 365 = yoe
  /\ 0 <= doe <= 146096.
Proof.
  intros H1 H2 doe. subst doe. Z.div_mod_to_equations; lia.
Qed.

(** A day number is the day number of its own civil date. *)
Lemma civil_days n :
  let '(y, m, d) := civilFromDays n in
  daysFromCivil y m d = n /\ 0 <= m <= 11 /\ 1 <= d <= 31.
Proof.
  unfold civilFromDays, daysFromCivil.
  set (z := n + 719468).
  set (era := z / 146097). set (doe := z mod 146097).
  assert (Hdoe : 0 <= doe <= 146096)
    by (subst doe; pose proof (Z.mod_pos_bound z 146097); lia).
  pose proof (yoe_bounds doe Hdoe) as Hy. cbv zeta in Hy.
  set (yoe := (doe - doe / 1460 + doe / 36524 - doe / 146096) / 365) in *.
  set (doy := doe - (365 * yoe + yoe / 4 - yoe / 100)).
  assert (Hdoy : 0 <= doy <= 365).
  { subst doy. destruct Hy as [Hy1 Hy2].
    destruct (yoe =? 399) eqn:E; Z.div_mod_to_equations; lia. }
  set (mp := (5 * doy + 2) / 153).
  assert (Hmp : 0 <= mp <= 11) by (subst mp; Z.div_mod_to_equations; lia).
  assert (Hz : z = 146097 * era + doe) by (subst era doe; apply Z.div_mod; lia).
  destruct (mp <? 10) eqn:E1.
  - apply Z.ltb_lt in E1.
    replace (mp + 2 <=? 1) with false by (symmetry; apply Z.leb_gt; lia).
    replace ((mp + 2 + 10) mod 12) with mp by (Z.div_mod_to_equations; lia).
    replace ((yoe + era * 400 + 0 - 0) / 400) with era
      by (Z.div_mod_to_equations; lia).
    replace ((yoe + era * 400 + 0 - 0) mod 400) with yoe
      by (Z.div_mod_to_equations; lia).
    split; [subst doy; lia|]. split; [lia|].
    subst mp. Z.div_mod_to_equations; lia.
  - apply Z.ltb_ge in E1.
    replace (mp - 10 <=? 1) with true by (symmetry; apply Z.leb_le; lia).
    replace ((mp - 10 + 10) mod 12) with mp by (Z.div_mod_to_equations; lia).
    replace ((yoe + era * 400 + 1 - 1) / 400) with era
      by (Z.div_mod_to_equations; lia).
    replace ((yoe + era * 400 + 1 - 1) mod 400) with yoe
      by (Z.div_mod_to_equations; lia).
    split; [subst doy; lia|]. split; [lia|].
    subst mp. Z.div_mod_to_equations; lia.
Qed.

(** The first of a month is read back as the first of that month. *)
Lemma first_of_month y m :
  0 <= m <= 11 -> civilFromDays (daysFromCivil y m 1) = (y, m, 1).
Proof.
  intros Hm. unfold daysFromCivil.
  set (y' := y - (if m <=? 1 then 1 else 0)).
  set (era := y' / 400). set (yoe := y' mod 400).
  set (mp := (m + 10) mod 12).
  assert (Hyoe : 0 <= yoe <= 399)
    by (subst yoe; pose proof (Z.mod_pos_bound y' 400); lia).
  assert (Hmp : 0 <= mp <= 11)
    by (subst mp; pose proof (Z.mod_pos_bound (m + 10) 12); lia).
  set (doy := (153 * mp + 2) / 5 + 1 - 1).
  assert (Hdoy : 0 <= doy <= 364) by (subst doy; Z.div_mod_to_equations; lia).
  pose proof (yoe_of_doe yoe doy Hyoe Hdoy) as [Hy Hd].
  set (doe := yoe * 365 + yoe / 4 - yoe / 100 + doy) in *.
  unfold civilFromDays.
  replace (era * 146097 + doe - 719468 + 719468) with (doe + era * 146097) by lia.
  rewrite Z.div_add by lia. rewrite Z.mod_add by lia.
  rewrite (Z.div_small doe) by lia. rewrite (Z.mod_small doe) by lia.
  rewrite Hy. cbn [Z.add].
  replace (doe - (365 * yoe + yoe / 4 - yoe / 100)) with doy by (subst doe; lia).
  assert (Hmp' : (5 * doy + 2) / 153 = mp)
    by (subst doy; Z.div_mod_to_equations; lia).
  rewrite Hmp'.
  assert (Hm' : (if mp <? 10 then mp + 2 else mp - 10) = m).
  { subst mp. destruct (Z.ltb_spec ((m + 10) mod 12) 10);
      Z.div_mod_to_equations; lia. }
  rewrite Hm'.
  f_equal; [f_equal|].
  - assert (Hy' : y' = 400 * era + yoe) by (subst era yoe; apply Z.div_mod; lia).
    subst y'. destruct (m <=? 1); lia.
  - subst doy. lia.
Qed.

Lemma daysFromCivil_shift y m d i :
  daysFromCivil y m (d + i) = daysFromCivil y m d + i.
Proof. unfold daysFromCivil. lia. Qed.

(** The month after (year, month). *)
Definition nextMonth (y m : Z) : Z * Z := (y + (m + 1) / 12, (m + 1) mod 12).

(** Every day lies before the first of the month after its own. *)
Lemma before_next_month n :
  let '(y, m, d) := civilFromDays n in
  n < daysFromCivil (fst (nextMonth y m)) (snd (nextMonth y m)) 1.
Proof.
  unfold civilFromDays, daysFromCivil, nextMonth. cbn [fst snd].
  set (z := n + 719468).
  set (era := z / 146097). set (doe := z mod 146097).
  assert (Hdoe : 0 <= doe <= 146096)
    by (subst doe; pose proof (Z.mod_pos_bound z 146097); lia).
  pose proof (yoe_bounds doe Hdoe) as Hy. cbv zeta in Hy.
  set (yoe := (doe - doe / 1460 + doe / 36524 - doe / 146096) / 365) in *.
  set (doy := doe - (365 * yoe + yoe / 4 - yoe / 100)).
  destruct Hy as [Hy1 Hy2].
  assert (Hdoy : 0 <= doy <= 365).
  { subst doy. destruct (yoe =? 399) eqn:E; Z.div_mod_to_equations; lia. }
  set (mp := (5 * doy + 2) / 153).
  assert (Hmp : 0 <= mp <= 11) by (subst mp; Z.div_mod_to_equations; lia).
  assert (Hz : n = 146097 * era + doe - 719468)
    by (subst era doe z; pose proof (Z.div_mod (n + 719468) 146097); lia).
  assert (Hfl : 5 * doy + 2 < 153 * (mp + 1))
    by (subst mp; Z.div_mod_to_equations; lia).
  destruct (Z.ltb_spec mp 10) as [E1|E1].
  - replace (mp + 2 <=? 1) with false by (symmetry; apply Z.leb_gt; lia).
    destruct (Z.eq_dec mp 9) as [E9|E9].
    + rewrite E9. cbn -[Z.mul Z.add Z.sub Z.div Z.modulo].
      change ((9 + 2 + 1) / 12) with 1. change ((9 + 2 + 1) mod 12) with 0.
      change (0 <=? 1) with true. change ((0 + 10) mod 12) with 10.
      replace ((yoe + era * 400 + 0 + 1 - 1) / 400) with era
        by (Z.div_mod_to_equations; lia).
      replace ((yoe + era * 400 + 0 + 1 - 1) mod 400) with yoe
        by (Z.div_mod_to_equations; lia).
      subst doy. rewrite E9 in Hfl. Z.div_mod_to_equations; lia.
    + replace ((mp + 2 + 1) / 12) with 0 by (Z.div_mod_to_equations; lia).
      replace ((mp + 2 + 1) mod 12) with (mp + 3) by (Z.div_mod_to_equations; lia).
      replace (mp + 3 <=? 1) with false by (symmetry; apply Z.leb_gt; lia).
      replace ((mp + 3 + 10) mod 12) with (mp + 1) by (Z.div_mod_to_equations; lia).
      replace ((yoe + era * 400 + 0 + 0 - 0) / 400) with era
        by (Z.div_mod_to_equations; lia).
      replace ((yoe + era * 400 + 0 + 0 - 0) mod 400) with yoe
        by (Z.div_mod_to_equations; lia).
      subst doy. Z.div_mod_to_equations; lia.
  - replace (mp - 10 <=? 1) with true by (symmetry; apply Z.leb_le; lia).
    replace ((mp - 10 + 1) / 12) with 0 by (Z.div_mod_to_equations; lia).
    replace ((mp - 10 + 1) mod 12) with (mp - 9) by (Z.div_mod_to_equations; lia).
    destruct (Z.eq_dec mp 10) as [E10|E10].
    + rewrite E10. change (10 - 9 <=? 1) with true.
      change ((10 - 9 + 10) mod 12) with 11.
      replace ((yoe + era * 400 + 1 + 0 - 1) / 400) with era
        by (Z.div_mod_to_equations; lia).
      replace ((yoe + era * 400 + 1 + 0 - 1) mod 400) with yoe
        by (Z.div_mod_to_equations; lia).
      subst doy. rewrite E10 in Hfl. Z.div_mod_to_equations; lia.
    + assert (E11 : mp = 11) by lia. rewrite E11.
      change (11 - 9 <=? 1) with false. change ((11 - 9 + 10) mod 12) with 0.
      destruct (Z.eqb_spec yoe 399) as [E399|E399].
      * replace ((yoe + era * 400 + 1 + 0 - 0) / 400) with (era + 1)
          by (Z.div_mod_to_equations; lia).
        replace ((yoe + era * 400 + 1 + 0 - 0) mod 400) with 0
          by (Z.div_mod_to_equations; lia).
        change ((153 * 0 + 2) / 5) with 0. change (0 / 4) with 0.
        change (0 / 100) with 0. lia.
      * replace ((yoe + era * 400 + 1 + 0 - 0) / 400) with era
          by (Z.div_mod_to_equations; lia).
        replace ((yoe + era * 400 + 1 + 0 - 0) mod 400) with (yoe + 1)
          by (Z.div_mod_to_equations; lia).
        change ((153 * 0 + 2) / 5) with 0.
        Z.div_mod_to_equations; lia.
Qed.

End DateFacts.

(* ------------------------------------------------------------------ *)
(** ** Dates of the server's clock *)

Module ClockFacts.

Import DateFacts.
Local Open Scope Z_scope.

Definition localDay (tz t : Z) : Z := Day (LocalTime tz t).

(** Monday of the week (Monday to Sunday) that holds day [D]. *)
Definition mondayOf (D : Z) : Z := D - (D + 3) mod 7.

Definition endOfDayTime : Z := MakeTime 23 59 59 999.

Lemma Day_MakeDate d tm : 0 <= tm < msPerDay -> Day (MakeDate d tm) = d.
Proof.
  unfold Day, MakeDate, msPerDay. intros H. Z.div_mod_to_equations. lia.
Qed.

Lemma MakeDate_Day t : MakeDate (Day t) (TimeWithinDay t) = t.
Proof.
  unfold MakeDate, Day, TimeWithinDay, msPerDay.
  pose proof (Z.div_mod t 86400000). lia.
Qed.

Lemma TimeWithinDay_bounds t : 0 <= TimeWithinDay t < msPerDay.
Proof. unfold TimeWithinDay, msPerDay. apply Z.mod_pos_bound. lia. Qed.

Lemma local_setHours tz t h mi s ms :
  LocalTime tz (setHours tz t h mi s ms)
  = MakeDate (localDay tz t) (MakeTime h mi s ms).
Proof. unfold setHours, LocalTime, UTC, localDay, LocalTime. lia. Qed.

Lemma civil_of_time lt :
  daysFromCivil (YearFromTime lt) (MonthFromTime lt) (DateFromTime lt) = Day lt
  /\ 0 <= MonthFromTime lt <= 11.
Proof.
  unfold YearFromTime, MonthFromTime, DateFromTime.
  pose proof (civil_days (Day lt)) as H.
  destruct (civilFromDays (Day lt)) as [[y m] d]. cbn [fst snd]. tauto.
Qed.

Lemma MakeDay_in_year y m d :
  0 <= m <= 11 -> MakeDay y m d = daysFromCivil y m 1 + d - 1.
Proof.
  intros H. unfold MakeDay. rewrite Z.div_small, Z.mod_small by lia.
  rewrite Z.add_0_r. reflexivity.
Qed.

(** [d.setDate(d.getDate() + i)] moves a date by [i] whole days. *)
Lemma setDate_shift tz t u i :
  localDay tz u = localDay tz t ->
  setDate tz t (getDate tz u + i) = t + i * msPerDay.
Proof.
  intros Hu. unfold setDate, getDate.
  destruct (civil_of_time (LocalTime tz t)) as [Hc Hm].
  rewrite MakeDay_in_year by assumption.
  assert (Hd : DateFromTime (LocalTime tz u) = DateFromTime (LocalTime tz t))
    by (unfold DateFromTime; unfold localDay in Hu; rewrite Hu; reflexivity).
  rewrite Hd.
  replace (daysFromCivil (YearFromTime (LocalTime tz t)) (MonthFromTime (LocalTime tz t)) 1
           + (DateFromTime (LocalTime tz t) + i) - 1)
    with (Day (LocalTime tz t) + i).
  - pose proof (MakeDate_Day (LocalTime tz t)) as Hmd.
    unfold UTC, MakeDate in *. unfold LocalTime in *. lia.
  - pose proof (daysFromCivil_shift (YearFromTime (LocalTime tz t))
                  (MonthFromTime (LocalTime tz t)) 1
                  (DateFromTime (LocalTime tz t) - 1)) as S.
    replace (1 + (DateFromTime (LocalTime tz t) - 1))
      with (DateFromTime (LocalTime tz t)) in S by lia.
    lia.
Qed.

Lemma localDay_shift tz t i : localDay tz (t + i * msPerDay) = localDay tz t + i.
Proof.
  unfold localDay, LocalTime, Day, msPerDay.
  replace (t + i * 86400000 + tz) with (t + tz + i * 86400000) by lia.
  rewrite Z.div_add by lia. reflexivity.
Qed.

(** [getDay() === 0 ? 6 : getDay() - 1] counts the days since Monday. *)
Lemma daysToMonday_spec D :
  (if (D + 4) mod 7 =? 0 then 6 else (D + 4) mod 7 - 1) = (D + 3) mod 7.
Proof. destruct (Z.eqb_spec ((D + 4) mod 7) 0); Z.div_mod_to_equations; lia. Qed.

Lemma daysToSunday_spec D :
  (if (D + 4) mod 7 =? 0 then 0 else 7 - (D + 4) mod 7) = 6 - (D + 3) mod 7.
Proof. destruct (Z.eqb_spec ((D + 4) mod 7) 0); Z.div_mod_to_equations; lia. Qed.

Lemma mondayOf_spec D :
  (mondayOf D + 4) mod 7 = 1 /\ mondayOf D <= D <= mondayOf D + 6.
Proof. unfold mondayOf. Z.div_mod_to_equations. lia. Qed.

(** An instant is between the start of local day [a] and the last
    millisecond of local day [b] exactly when its local day is. *)
Lemma between_days tz a b t :
  (MakeDate a 0 - tz <=? t) && (t <=? MakeDate b endOfDayTime - tz) = true
  <-> a <= localDay tz t <= b.
Proof.
  rewrite andb_true_iff, Z.leb_le, Z.leb_le.
  unfold localDay, LocalTime, Day, MakeDate, endOfDayTime, MakeTime, msPerDay.
  split; intros H; Z.div_mod_to_equations; lia.
Qed.

Section Week.

Variables tz now : Z.

Lemma weekStart_local :
  Server.weekStartDate tz now = MakeDate (mondayOf (localDay tz now)) 0 - tz.
Proof.
  unfold Server.weekStartDate.
  pose proof (local_setHours tz
    (setDate tz now
       (getDate tz now - (if getDay tz now =? 0 then 6 else getDay tz now - 1)))
    0 0 0 0) as H.
  assert (E : getDate tz now - (if getDay tz now =? 0 then 6 else getDay tz now - 1)
              = getDate tz now + - ((localDay tz now + 3) mod 7)).
  { unfold getDay, WeekDay. fold (localDay tz now).
    rewrite daysToMonday_spec. lia. }
  rewrite E in *. rewrite setDate_shift in * by reflexivity.
  rewrite localDay_shift in H. unfold LocalTime in H. unfold mondayOf.
  change (MakeTime 0 0 0 0) with 0 in H.
  unfold MakeDate, msPerDay in *. lia.
Qed.

Lemma weekEnd_local :
  Server.weekEndDate tz now
  = MakeDate (mondayOf (localDay tz now) + 6) endOfDayTime - tz.
Proof.
  unfold Server.weekEndDate.
  pose proof (local_setHours tz
    (setDate tz now
       (getDate tz now + (if getDay tz now =? 0 then 0 else 7 - getDay tz now)))
    23 59 59 999) as H.
  assert (E : (if getDay tz now =? 0 then 0 else 7 - getDay tz now)
              = 6 - (localDay tz now + 3) mod 7).
  { unfold getDay, WeekDay. fold (localDay tz now). apply daysToSunday_spec. }
  rewrite E in *. rewrite setDate_shift in * by reflexivity.
  rewrite localDay_shift in H. unfold LocalTime in H. unfold mondayOf.
  fold endOfDayTime in H. unfold MakeDate, msPerDay in *. lia.
Qed.

End Week.

End ClockFacts.

(* ------------------------------------------------------------------ *)
(** ** The period of the worklog summary *)

Module PeriodClaims.

Import DateFacts ClockFacts Server.
Local Open Scope string_scope.
Local Open Scope Z_scope.
Local Open Scope list_scope.

(** Whether the period route counts a worklog that started at [started],
    as far as the date range goes. *)
Definition within (tz now : Z) (period : string) (started : Z) : bool :=
  (periodStart tz now period <=? started) && (started <=? periodEnd tz now period).

(** Day number of the first of the current month, and of the next one. *)
Definition firstOfMonth (tz now : Z) : Z :=
  daysFromCivil (getFullYear tz now) (getMonth tz now) 1.

Definition firstOfNextMonth (tz now : Z) : Z :=
  daysFromCivil (fst (nextMonth (getFullYear tz now) (getMonth tz now)))
                (snd (nextMonth (getFullYear tz now) (getMonth tz now))) 1.

(** Seconds of the worklogs of one issue that the loop counts. *)
Definition windowSeconds (accountId : string) (startDate endDate : Z)
    (worklogs : list Worklog) : Z :=
  fold_right
    (fun w acc => if counted accountId startDate endDate w
                  then wl_timeSpentSeconds w + acc else acc)
    0 worklogs.

(** The same over the issues of the search; an issue whose worklogs could
    not be fetched adds nothing. *)
Definition expectedTotal (up : Upstream) (accountId : string)
    (startDate endDate : Z) (issues : list Issue) : Z :=
  fold_right
    (fun i acc =>
       match up_worklogs up (key i) with
       | Ok worklogs => windowSeconds accountId startDate endDate worklogs
       | Failed _ => 0
       end + acc)
    0 issues.

Lemma localDay_setHours tz t h mi s ms :
  0 <= MakeTime h mi s ms < msPerDay ->
  localDay tz (setHours tz t h mi s ms) = localDay tz t.
Proof.
  intros H. unfold localDay at 1. rewrite local_setHours.
  apply Day_MakeDate; assumption.
Qed.

Lemma endOfDay_bounds : 0 <= MakeTime 23 59 59 999 < msPerDay.
Proof. vm_compute. split; [discriminate|reflexivity]. Qed.

Lemma eqb_week : String.eqb "week" "week" = true.
Proof. reflexivity. Qed.

Lemma eqb_month_week : String.eqb "month" "week" = false.
Proof. reflexivity. Qed.

Lemma eqb_month : String.eqb "month" "month" = true.
Proof. reflexivity. Qed.

Lemma periodStart_week tz now :
  periodStart tz now "week" = MakeDate (mondayOf (localDay tz now)) 0 - tz.
Proof.
  rewrite <- weekStart_local. unfold periodStart, weekStartDate.
  rewrite eqb_week. reflexivity.
Qed.

Lemma periodEnd_week tz now :
  periodEnd tz now "week"
  = MakeDate (mondayOf (localDay tz now) + 6) endOfDayTime - tz.
Proof.
  unfold periodEnd. rewrite eqb_week.
  set (e0 := setHours tz now 23 59 59 999).
  assert (He0 : localDay tz now = localDay tz e0)
    by (symmetry; apply localDay_setHours, endOfDay_bounds).
  pose proof (local_setHours tz
    (setDate tz e0
       (getDate tz now + (if getDay tz now =? 0 then 0 else 7 - getDay tz now)))
    23 59 59 999) as H.
  assert (E : (if getDay tz now =? 0 then 0 else 7 - getDay tz now)
              = 6 - (localDay tz now + 3) mod 7).
  { unfold getDay, WeekDay. fold (localDay tz now). apply daysToSunday_spec. }
  rewrite E in *. rewrite setDate_shift in * by assumption.
  rewrite localDay_shift in H. rewrite <- He0 in H.
  unfold LocalTime in H. unfold mondayOf.
  fold endOfDayTime in H. unfold MakeDate, msPerDay in *. lia.
Qed.

Lemma local_setDate tz t d :
  localDay tz (setDate tz t d)
  = MakeDay (getFullYear tz t) (getMonth tz t) d.
Proof.
  unfold localDay, setDate, LocalTime, UTC, getFullYear, getMonth.
  replace (MakeDate _ _ - tz + tz)
    with (MakeDate (MakeDay (YearFromTime (t + tz)) (MonthFromTime (t + tz)) d)
                   (TimeWithinDay (t + tz))) by lia.
  apply Day_MakeDate, TimeWithinDay_bounds.
Qed.

Lemma periodStart_month tz now :
  periodStart tz now "month" = MakeDate (firstOfMonth tz now) 0 - tz.
Proof.
  unfold periodStart. rewrite eqb_month_week, eqb_month.
  pose proof (local_setHours tz (setDate tz now 1) 0 0 0 0) as H.
  rewrite local_setDate in H.
  destruct (civil_of_time (LocalTime tz now)) as [_ Hm].
  rewrite MakeDay_in_year in H by exact Hm.
  replace (daysFromCivil (getFullYear tz now) (getMonth tz now) 1 + 1 - 1)
    with (firstOfMonth tz now) in H by (unfold firstOfMonth; lia).
  change (MakeTime 0 0 0 0) with 0 in H.
  rewrite <- H. unfold LocalTime. lia.
Qed.

Lemma periodEnd_month tz now :
  periodEnd tz now "month"
  = MakeDate (firstOfNextMonth tz now - 1) endOfDayTime - tz.
Proof.
  unfold periodEnd. rewrite eqb_month_week, eqb_month.
  set (e0 := setHours tz now 23 59 59 999).
  assert (He0 : localDay tz e0 = localDay tz now)
    by (apply localDay_setHours, endOfDay_bounds).
  pose proof (local_setHours tz (setMonth tz e0 (getMonth tz now + 1) 0)
                23 59 59 999) as H.
  assert (Hd : localDay tz (setMonth tz e0 (getMonth tz now + 1) 0)
               = firstOfNextMonth tz now - 1).
  { unfold localDay at 1, setMonth, LocalTime at 1, UTC.
    replace (MakeDate _ _ - tz + tz)
      with (MakeDate (MakeDay (YearFromTime (LocalTime tz e0)) (getMonth tz now + 1) 0)
                     (TimeWithinDay (LocalTime tz e0))) by lia.
    rewrite Day_MakeDate by apply TimeWithinDay_bounds.
    unfold firstOfNextMonth, nextMonth, MakeDay, getFullYear, YearFromTime.
    cbn [fst snd]. fold (localDay tz e0). fold (localDay tz now).
    rewrite He0. lia. }
  rewrite Hd in H. fold endOfDayTime in H.
  rewrite <- H. unfold LocalTime. lia.
Qed.

Lemma periodStart_all tz now period :
  period <> "week" -> period <> "month" ->
  periodStart tz now period = now - 365 * msPerDay.
Proof.
  intros Hw Hm. unfold periodStart.
  destruct (String.eqb_spec period "week"); [contradiction|].
  destruct (String.eqb_spec period "month"); [contradiction|].
  replace (getDate tz now - 365) with (getDate tz now + -365) by lia.
  rewrite setDate_shift by reflexivity. lia.
Qed.

Lemma periodEnd_all tz now period :
  period <> "week" -> period <> "month" ->
  periodEnd tz now period = MakeDate (localDay tz now) endOfDayTime - tz.
Proof.
  intros Hw Hm. unfold periodEnd.
  destruct (String.eqb_spec period "week"); [contradiction|].
  destruct (String.eqb_spec period "month"); [contradiction|].
  pose proof (local_setHours tz (setHours tz now 23 59 59 999) 23 59 59 999) as H.
  rewrite localDay_setHours in H by apply endOfDay_bounds.
  fold endOfDayTime in H. rewrite <- H. unfold LocalTime. lia.
Qed.

Lemma month_of_today tz now :
  civilFromDays (firstOfMonth tz now) = (getFullYear tz now, getMonth tz now, 1)
  /\ civilFromDays (firstOfNextMonth tz now)
     = (fst (nextMonth (getFullYear tz now) (getMonth tz now)),
        snd (nextMonth (getFullYear tz now) (getMonth tz now)), 1)
  /\ firstOfMonth tz now <= localDay tz now <= firstOfNextMonth tz now - 1.
Proof.
  unfold firstOfMonth, firstOfNextMonth, getFullYear, getMonth.
  destruct (civil_of_time (LocalTime tz now)) as [Hc Hm].
  split; [apply first_of_month; assumption|]. split.
  - apply first_of_month. unfold nextMonth. cbn [snd].
    pose proof (Z.mod_pos_bound (MonthFromTime (LocalTime tz now) + 1) 12). lia.
  - pose proof (before_next_month (localDay tz now)) as Hn.
    pose proof (civil_days (localDay tz now)) as Hd.
    unfold YearFromTime, MonthFromTime, DateFromTime in *.
    fold (localDay tz now) in *.
    destruct (civilFromDays (localDay tz now)) as [[y m] d]. cbn [fst snd] in *.
    destruct Hd as (Hd & _ & Hd1).
    pose proof (daysFromCivil_shift y m 1 (d - 1)) as S.
    replace (1 + (d - 1)) with d in S by lia. lia.
Qed.

Lemma fold_addIssueWorklog a s e worklogs : forall total issueTotal issueWorklogs,
  exists ws,
    fold_left (addIssueWorklog a s e) worklogs (total, issueTotal, issueWorklogs)
    = (total + windowSeconds a s e worklogs,
       issueTotal + windowSeconds a s e worklogs, ws).
Proof.
  induction worklogs as [|w ws IH]; intros total issueTotal issueWorklogs; simpl.
  - eexists. rewrite !Z.add_0_r. reflexivity.
  - destruct (counted a s e w).
    + destruct (IH (total + wl_timeSpentSeconds w) (issueTotal + wl_timeSpentSeconds w)
                   (issueWorklogs ++
                    [{| iw_id := wl_id w; iw_timeSpentSeconds := wl_timeSpentSeconds w;
                        iw_started := wl_started w; iw_comment := wl_comment w |}]))
        as [ws' ->].
      eexists. f_equal. f_equal; lia.
    + apply IH.
Qed.

(** The loop over the issues never throws, asks only for worklogs, and
    adds up the counted seconds. *)
Lemma periodLoop_total up a s e issues : forall st,
  exists tr st',
    periodLoop up a s e issues st = (tr, Ok st')
    /\ fst st' = fst st + expectedTotal up a s e issues
    /\ (forall ev, In ev tr -> exists k, fst ev = GetWorklogs k).
Proof.
  induction issues as [|i rest IH]; intros st.
  - exists [], st. simpl. split; [reflexivity|]. split; [lia|]. intros ev [].
  - cbn [periodLoop expectedTotal fold_right]. fold (expectedTotal up a s e rest).
    unfold request. destruct (up_worklogs up (key i)) as [worklogs|err].
    + destruct (fold_addIssueWorklog a s e worklogs (fst st) 0 []) as [ws Hf].
      cbn [bind catch ret]. rewrite Hf. cbn [bind catch ret app].
      match goal with
      | |- context [periodLoop up a s e rest ?x] =>
          destruct (IH x) as (tr & st' & Hl & Ht & Hev); rewrite Hl
      end.
      eexists _, st'. split; [reflexivity|]. cbn [fst] in Ht. split; [lia|].
      intros ev [<-|Hin]; [eexists; reflexivity|].
      apply Hev. rewrite app_nil_r in Hin. exact Hin.
    + cbn [bind catch ret app].
      destruct (IH st) as (tr & st' & Hl & Ht & Hev). rewrite Hl.
      eexists _, st'. split; [reflexivity|]. split; [lia|].
      intros ev [<-|Hin]; [eexists; reflexivity|].
      apply Hev. rewrite app_nil_r in Hin. exact Hin.
Qed.


End PeriodClaims.

(* ------------------------------------------------------------------ *)
(** ** The daily worklog route *)

Module DailyFacts.

Import DateFacts ClockFacts Server.
Local Open Scope string_scope.
Local Open Scope Z_scope.
Local Open Scope list_scope.

Definition sumSeconds (buckets : list DayBucket) : Z :=
  fold_right (fun b acc => b_totalSeconds b + acc) 0 buckets.

Definition entrySeconds (entries : list LoggedEntry) : Z :=
  fold_right (fun e acc => le_timeSpentSeconds e + acc) 0 entries.

(** A bucket holds the sum of the entries listed under it. *)
Definition balanced (b : DayBucket) : Prop :=
  b_totalSeconds b = entrySeconds (b_worklogs b).

(** The state of the loop: the running total is the sum of the buckets. *)
Definition consistent (st : dict * Z) : Prop :=
  snd st = sumSeconds (dictValues (fst st))
  /\ Forall balanced (dictValues (fst st)).

Lemma entrySeconds_app a b : entrySeconds (a ++ b) = entrySeconds a + entrySeconds b.
Proof. induction a as [|x a IH]; simpl; [reflexivity|]. rewrite IH. lia. Qed.

Lemma dictSet_sum k b b' d :
  dictGet k d = Some b ->
  sumSeconds (dictValues (dictSet k b' d))
  = sumSeconds (dictValues d) - b_totalSeconds b + b_totalSeconds b'.
Proof.
  induction d as [|[k0 v0] d IH]; simpl; [discriminate|].
  destruct (isoDate_eqb k k0); simpl.
  - intros H; inversion H; subst. lia.
  - intros H. rewrite (IH H). lia.
Qed.

Lemma dictSet_Forall (P : DayBucket -> Prop) k b' d :
  Forall P (dictValues d) -> P b' -> Forall P (dictValues (dictSet k b' d)).
Proof.
  intros Hd Hb. induction d as [|[k0 v0] d IH]; simpl.
  - constructor; [assumption|constructor].
  - inversion Hd; subst. destruct (isoDate_eqb k k0); simpl.
    + constructor; assumption.
    + constructor; [assumption|]. apply IH; assumption.
Qed.

Lemma dictGet_Forall (P : DayBucket -> Prop) k b d :
  dictGet k d = Some b -> Forall P (dictValues d) -> P b.
Proof.
  induction d as [|[k0 v0] d IH]; simpl; [discriminate|].
  intros H Hd. inversion Hd; subst.
  destruct (isoDate_eqb k k0); [inversion H; subst; assumption|auto].
Qed.

Lemma dictSet_length k b b' d :
  dictGet k d = Some b -> List.length (dictSet k b' d) = List.length d.
Proof.
  induction d as [|[k0 v0] d IH]; simpl; [discriminate|].
  destruct (isoDate_eqb k k0); simpl; [reflexivity|].
  intros H. rewrite (IH H). reflexivity.
Qed.

Lemma addWorklog_consistent a s e issue st w :
  consistent st -> consistent (addWorklog a s e issue st w).
Proof.
  intros [Hs Hb]. destruct st as [d total]. cbn [fst snd] in *.
  unfold addWorklog.
  destruct (String.eqb (wl_author w) a); [|split; assumption].
  destruct ((s <=? wl_started w) && (wl_started w <=? e)); [|split; assumption].
  destruct (dictGet (toISODate (wl_started w)) d) as [day|] eqn:G;
    [|split; assumption].
  split; cbn [fst snd].
  - rewrite (dictSet_sum _ _ _ _ G). cbn [b_totalSeconds]. lia.
  - apply dictSet_Forall; [assumption|].
    pose proof (dictGet_Forall balanced _ _ _ G Hb) as Hday.
    unfold balanced in *. cbn [b_totalSeconds b_worklogs].
    rewrite entrySeconds_app. simpl. lia.
Qed.

Lemma addWorklog_length a s e issue st w :
  List.length (fst (addWorklog a s e issue st w)) = List.length (fst st).
Proof.
  destruct st as [d total]. unfold addWorklog.
  destruct (String.eqb (wl_author w) a); [|reflexivity].
  destruct ((s <=? wl_started w) && (wl_started w <=? e)); [|reflexivity].
  destruct (dictGet (toISODate (wl_started w)) d) as [day|] eqn:G; [|reflexivity].
  cbn [fst]. apply (dictSet_length _ _ _ _ G).
Qed.

Lemma fold_addWorklog a s e issue worklogs : forall st,
  consistent st ->
  consistent (fold_left (addWorklog a s e issue) worklogs st)
  /\ List.length (fst (fold_left (addWorklog a s e issue) worklogs st))
     = List.length (fst st).
Proof.
  induction worklogs as [|w ws IH]; intros st Hst; simpl; [auto|].
  destruct (IH _ (addWorklog_consistent a s e issue st w Hst)) as [H1 H2].
  split; [assumption|]. rewrite H2. apply addWorklog_length.
Qed.

(** The loop over the issues never throws, asks only for worklogs, and
    keeps the total equal to the sum of the buckets. *)
Lemma dailyLoop_consistent up a s e issues : forall st,
  consistent st ->
  exists tr st',
    dailyLoop up a s e issues st = (tr, Ok st')
    /\ consistent st'
    /\ List.length (fst st') = List.length (fst st)
    /\ (forall ev, In ev tr -> exists k, fst ev = GetWorklogs k).
Proof.
  induction issues as [|i rest IH]; intros st Hst.
  - exists [], st. simpl. repeat split; try apply Hst. intros ev [].
  - cbn [dailyLoop]. unfold request.
    destruct (up_worklogs up (key i)) as [worklogs|err]; cbn [bind catch ret app].
    + destruct (fold_addWorklog a s e i worklogs st Hst) as [Hc Hl].
      destruct (IH _ Hc) as (tr & st' & El & Hc' & Hl' & Hev). rewrite El.
      eexists _, st'. split; [reflexivity|]. split; [assumption|].
      split; [congruence|].
      intros ev [<-|Hin]; [eexists; reflexivity|].
      apply Hev. rewrite app_nil_r in Hin. exact Hin.
    + destruct (IH _ Hst) as (tr & st' & El & Hc' & Hl' & Hev). rewrite El.
      eexists _, st'. split; [reflexivity|]. split; [assumption|].
      split; [assumption|].
      intros ev [<-|Hin]; [eexists; reflexivity|].
      apply Hev. rewrite app_nil_r in Hin. exact Hin.
Qed.

(** *** The seven buckets *)

Lemma civil_injective a b : civilFromDays a = civilFromDays b -> a = b.
Proof.
  intros H. pose proof (civil_days a) as Ha. pose proof (civil_days b) as Hb.
  rewrite H in Ha. destruct (civilFromDays b) as [[y m] d].
  destruct Ha as [Ha _], Hb as [Hb _]. congruence.
Qed.

Lemma isoDate_eqb_eq a b : isoDate_eqb a b = true <-> a = b.
Proof.
  destruct a as [[y1 m1] d1], b as [[y2 m2] d2]. unfold isoDate_eqb.
  rewrite !andb_true_iff, !Z.eqb_eq. split.
  - intros [[-> ->] ->]. reflexivity.
  - intros H; inversion H. auto.
Qed.

Lemma toISODate_injective a b : toISODate a = toISODate b -> Day a = Day b.
Proof.
  unfold toISODate. intros H. apply civil_injective.
  destruct (civilFromDays (Day a)) as [[y1 m1] d1].
  destruct (civilFromDays (Day b)) as [[y2 m2] d2].
  inversion H. assert (m1 = m2) by lia. subst. reflexivity.
Qed.

Lemma key_distinct t i j :
  i <> j ->
  isoDate_eqb (toISODate (t + i * msPerDay)) (toISODate (t + j * msPerDay)) = false.
Proof.
  intros Hij. destruct (isoDate_eqb _ _) eqn:E; [|reflexivity].
  apply isoDate_eqb_eq, toISODate_injective in E.
  unfold Day, msPerDay in E. rewrite !Z.div_add in E by lia. lia.
Qed.

(** The bucket that the [i]-th turn of the initial loop creates. *)
Definition emptyDay (tz startDate i : Z) : isoDate * DayBucket :=
  (toISODate (startDate + i * msPerDay),
   {| b_date := toISODate (startDate + i * msPerDay);
      b_dayName := nth (Z.to_nat (getDay tz (startDate + i * msPerDay))) dayNames "";
      b_totalSeconds := 0; b_worklogs := [] |}).

Lemma initDay_spec tz s d i :
  initDay tz s d i = dictSet (fst (emptyDay tz s i)) (snd (emptyDay tz s i)) d.
Proof.
  unfold initDay, emptyDay. cbn [fst snd].
  rewrite setDate_shift by reflexivity. reflexivity.
Qed.

Lemma initDailyTotals_spec tz s :
  initDailyTotals tz s = List.map (emptyDay tz s) [0; 1; 2; 3; 4; 5; 6].
Proof.
  unfold initDailyTotals. cbn [fold_left]. rewrite !initDay_spec.
  unfold emptyDay. cbn [fst snd List.map].
  repeat (cbn [dictSet]; rewrite !key_distinct by lia). reflexivity.
Qed.

Lemma init_consistent tz s : consistent (initDailyTotals tz s, 0).
Proof.
  rewrite initDailyTotals_spec. split; cbn.
  - reflexivity.
  - repeat constructor.
Qed.

(** What a successful response of the daily route is made of. *)
Lemma daily_response up tz now tr r :
  getWorklogsDaily up tz now = (tr, json (DailyBody r)) ->
  exists st,
    r = dailyReport (weekStartDate tz now) (weekEndDate tz now) st
    /\ consistent st /\ List.length (fst st) = 7%nat.
Proof.
  unfold getWorklogsDaily, route, request.
  destruct (up_myself up) as [user|err]; cbn [bind];
    [|intros H; inversion H].
  destruct (up_worklogIssues up _) as [issues|err]; cbn [bind];
    [|intros H; inversion H].
  destruct (dailyLoop_consistent up (accountId user) (weekStartDate tz now)
              (weekEndDate tz now) issues _ (init_consistent tz (weekStartDate tz now)))
    as (tr' & st' & El & Hc & Hl & _).
  rewrite El. cbn [bind ret app]. intros H. inversion H; subst.
  exists st'. split; [reflexivity|]. split; [assumption|].
  rewrite Hl. cbn [fst]. rewrite initDailyTotals_spec. reflexivity.
Qed.

End DailyFacts.

(* ------------------------------------------------------------------ *)
(** ** Sample requests *)

Module Scenario.

Import Server.
Local Open Scope string_scope.
Local Open Scope Z_scope.
Local Open Scope list_scope.

Definition me : User := {| accountId := "u-1"; displayName := JStr "Ana" |}.

Definition networkError : UpstreamError :=
  {| message := "Network Error"; responseData := None |}.

Definition notFound : UpstreamError :=
  {| message := "Request failed with status code 404";
     responseData :=
       Some (JObj [("errorMessages", JArr [JStr "Issue does not exist"])]) |}.

(** An upstream that knows the user, finds the given issues and answers
    the worklog requests with [worklogsOf]; everything else is rejected
    with a 404 and its payload. *)
Definition upstreamWith (issues : list Issue)
    (worklogsOf : string -> result (list Worklog)) : Upstream :=
  {| up_projects := Failed notFound;
     up_search := fun _ _ _ => Failed notFound;
     up_issue := fun _ => Failed notFound;
     up_issueSubtasks := fun _ => Failed notFound;
     up_issueProject := fun _ => Ok {| projectKey := "JT"; projectName := "Jira table" |};
     up_putIssue := fun _ _ => Failed notFound;
     up_myself := Ok me;
     up_worklogIssues := fun _ => Ok issues;
     up_worklogs := worklogsOf;
     up_postWorklog := fun _ _ => Failed notFound;
     up_postComment := fun _ _ => Failed networkError;
     up_statuses := Failed networkError;
     up_transitions := fun _ => Failed notFound;
     up_postTransition := fun _ _ => Failed notFound;
     up_projectStatuses := fun _ =>
       Ok [{| it_id := "10001"; it_name := "Task"; it_subtask := false |};
           {| it_id := "10007"; it_name := "Subtarea"; it_subtask := true |};
           {| it_id := "10009"; it_name := "Subtask"; it_subtask := false |}];
     up_postIssue := fun _ => Ok {| createdKey := "JT-9"; createdData := JObj [("key", JStr "JT-9")] |} |}.

Definition board : Issue := {| key := "JT-1"; summary := JStr "Board" |}.
Definition report : Issue := {| key := "JT-2"; summary := JStr "Report" |}.

Definition logged (started seconds : Z) : Worklog :=
  {| wl_id := JStr "1"; wl_author := "u-1"; wl_started := started;
     wl_timeSpentSeconds := seconds; wl_comment := None |}.

(** Wednesday 2024-03-27, 12:00 where the server is (six hours behind
    UTC), that is 18:00 UTC. *)
Definition tzWest : Z := -21600000.
Definition wednesdayNoonWest : Z := 1711562400000.

(** Ten hours and twelve minutes logged on that Wednesday at 09:00 local
    time on JT-1; the worklogs of JT-2 cannot be fetched. *)
Definition longWednesday : Upstream :=
  upstreamWith [board; report]
    (fun k => if String.eqb k "JT-1" then Ok [logged 1711551600000 36720]
              else Failed notFound).

(** One hour logged on Monday 2024-03-25 at 20:00 local time, which is
    Tuesday 02:00 UTC. *)
Definition mondayEvening : Upstream :=
  upstreamWith [board] (fun _ => Ok [logged 1711418400000 3600]).

(** The same week where the server is two hours ahead of UTC: Wednesday
    12:00 local is 10:00 UTC; one hour is logged on Sunday 2024-03-31 at
    15:00 local time, 13:00 UTC. *)
Definition tzEast : Z := 7200000.
Definition wednesdayNoonEast : Z := 1711533600000.
Definition sundayAfternoon : Upstream :=
  upstreamWith [board] (fun _ => Ok [logged 1711890000000 3600]).

Definition noReport : DailyReport :=
  {| weekStart := (0, 0, 0); weekEnd := (0, 0, 0); dailyData := [];
     totalSeconds := 0; totalHours := 0; weeklyGoalHours := 0;
     weeklyProgress := 0 |}.

(** The report of a response of the daily route. *)
Definition reportOf (x : list event * Response) : DailyReport :=
  match body (snd x) with
  | DailyBody r => r
  | _ => noReport
  end.

(** Day name and seconds of each bucket. *)
Definition days (r : DailyReport) : list (string * Z) :=
  List.map (fun d => (b_dayName (d_day d), b_totalSeconds (d_day d))) (dailyData r).

Definition longWednesdayOutcome : list event * Response :=
  Eval vm_compute in getWorklogsDaily longWednesday tzWest wednesdayNoonWest.

End Scenario.

(* ------------------------------------------------------------------ *)
(** ** The daily worklog route: claims *)

Module DailyClaims.

Import JsDouble DoubleFacts DateFacts ClockFacts Server WeeklyTimesheet.
Import ProgressClaims DailyFacts Scenario.
Local Open Scope string_scope.
Local Open Scope Z_scope.
Local Open Scope list_scope.

(** Whether an instant lies in the current week of the daily route. *)
Definition within_week (tz now started : Z) : bool :=
  (weekStartDate tz now <=? started) && (started <=? weekEndDate tz now).

Lemma sum_of_balanced buckets :
  Forall balanced buckets ->
  sumSeconds buckets = entrySeconds (List.concat (List.map b_worklogs buckets)).
Proof.
  induction 1 as [|b bs Hb _ IH]; simpl; [reflexivity|].
  rewrite entrySeconds_app, <- IH. unfold balanced in Hb. lia.
Qed.

Lemma dailyData_days st s e :
  List.map d_day (dailyData (dailyReport s e st)) = dictValues (fst st).
Proof.
  destruct st as [d total]. cbn [dailyReport dailyData fst].
  rewrite List.map_map. cbn [toDailyData d_day]. apply List.map_id.
Qed.

(** C3, as amended.  In every response of the daily route each bucket has
    the goal 8 and the week the goal 40, and the progress is
    [Math.round((seconds / (goal * 3600)) * 100)] computed in doubles: for a
    count of seconds from 0 below 2^43 it equals the exact quotient
    100 * seconds / (goal * 3600) rounded to the nearest integer whenever
    that quotient is not exactly halfway between two integers.  The value
    in the response is not clamped (36000 seconds give 125) while the view
    draws a bar [min(progress, 100)] wide and prints the value itself; and
    4 hours against the 8-hour goal give 50. *)
Theorem C3_progress_off_the_halves up tz now tr r :
  getWorklogsDaily up tz now = (tr, json (DailyBody r)) ->
  (forall d, In d (dailyData r) ->
     d_goalHours d = 8
     /\ d_progress d = percentOf 8 (b_totalSeconds (d_day d))
     /\ (0 <= b_totalSeconds (d_day d) < 2 ^ 43 ->
         ~ exactHalf (100 * b_totalSeconds (d_day d)) (8 * 3600) ->
         d_progress d = roundHalfUp (100 * b_totalSeconds (d_day d)) (8 * 3600)))
  /\ weeklyGoalHours r = 40
  /\ weeklyProgress r = percentOf 40 (totalSeconds r)
  /\ (0 <= totalSeconds r < 2 ^ 43 ->
      ~ exactHalf (100 * totalSeconds r) (40 * 3600) ->
      weeklyProgress r = roundHalfUp (100 * totalSeconds r) (40 * 3600))
  /\ percentOf 8 (4 * 3600) = 50
  /\ percentOf 8 36000 = 125
  /\ (forall p, widthPercent (progressBar p) = Z.min p 100
                /\ widthPercent (progressBar p) <= 100
                /\ figure (progressBar p) = p).
Proof.
  intros H. destruct (daily_response up tz now tr r H) as (st & -> & _ & _).
  destruct st as [d0 total].
  split; [|split; [|split; [|split; [|split; [|split]]]]].
  - intros d Hin. cbn [dailyReport dailyData] in Hin.
    apply in_map_iff in Hin as (b & <- & _). cbn [toDailyData d_goalHours d_progress d_day].
    split; [reflexivity|]. split; [reflexivity|]. apply percent_8_exact.
  - reflexivity.
  - reflexivity.
  - cbn [dailyReport weeklyProgress totalSeconds]. apply percent_40_exact.
  - vm_compute. reflexivity.
  - vm_compute. reflexivity.
  - intros p. unfold progressBar, MathMin. cbn [widthPercent figure].
    split; [reflexivity|]. split; [lia|reflexivity].
Qed.

Lemma C3_witness :
  (forall d, In d (dailyData (reportOf longWednesdayOutcome)) ->
     d_goalHours d = 8
     /\ d_progress d = percentOf 8 (b_totalSeconds (d_day d))
     /\ (0 <= b_totalSeconds (d_day d) < 2 ^ 43 ->
         ~ exactHalf (100 * b_totalSeconds (d_day d)) (8 * 3600) ->
         d_progress d = roundHalfUp (100 * b_totalSeconds (d_day d)) (8 * 3600)))
  /\ weeklyGoalHours (reportOf longWednesdayOutcome) = 40
  /\ weeklyProgress (reportOf longWednesdayOutcome)
     = percentOf 40 (totalSeconds (reportOf longWednesdayOutcome))
  /\ (0 <= totalSeconds (reportOf longWednesdayOutcome) < 2 ^ 43 ->
      ~ exactHalf (100 * totalSeconds (reportOf longWednesdayOutcome)) (40 * 3600) ->
      weeklyProgress (reportOf longWednesdayOutcome)
      = roundHalfUp (100 * totalSeconds (reportOf longWednesdayOutcome)) (40 * 3600))
  /\ percentOf 8 (4 * 3600) = 50
  /\ percentOf 8 36000 = 125
  /\ (forall p, widthPercent (progressBar p) = Z.min p 100
                /\ widthPercent (progressBar p) <= 100
                /\ figure (progressBar p) = p).
Proof.
  apply (C3_progress_off_the_halves longWednesday tzWest wednesdayNoonWest
           (fst longWednesdayOutcome)).
  vm_compute. reflexivity.
Defined.

(** On an exact half the double product can fall short of the half: 10 h
    12 min logged on one day is 127.5 percent of the goal, and the bucket of
    the response says 127, not 128. *)
Lemma C3_counterexample :
  exists d, In d (dailyData (reportOf longWednesdayOutcome))
            /\ b_totalSeconds (d_day d) = 36720
            /\ 2 * (100 * 36720) = 255 * (8 * 3600)
            /\ d_progress d = 127
            /\ roundHalfUp (100 * b_totalSeconds (d_day d)) (8 * 3600) = 128.
Proof.
  exists (nth 2 (dailyData (reportOf longWednesdayOutcome))
              (toDailyData {| b_date := (0, 0, 0); b_dayName := "";
                              b_totalSeconds := 0; b_worklogs := [] |})).
  vm_compute. split; [right; right; left; reflexivity|]. repeat split.
Qed.

(** C5.  In every response of the daily route there are seven buckets, the
    top-level total is the sum of their totals, every bucket's total is the
    sum of the entries listed under it, and so the top-level total is the
    sum of all listed entries, each listed once. *)
Theorem C5_total_is_sum_of_buckets up tz now tr r :
  getWorklogsDaily up tz now = (tr, json (DailyBody r)) ->
  List.length (dailyData r) = 7%nat
  /\ totalSeconds r = sumSeconds (List.map d_day (dailyData r))
  /\ Forall (fun d => balanced (d_day d)) (dailyData r)
  /\ totalSeconds r
     = entrySeconds (List.concat (List.map (fun d => b_worklogs (d_day d)) (dailyData r))).
Proof.
  intros H. destruct (daily_response up tz now tr r H) as (st & -> & [Hs Hb] & Hl).
  pose proof (dailyData_days st (weekStartDate tz now) (weekEndDate tz now)) as Hd.
  assert (Ht : totalSeconds (dailyReport (weekStartDate tz now) (weekEndDate tz now) st)
               = snd st) by (destruct st; reflexivity).
  split; [|split; [|split]].
  - rewrite <- (length_map d_day), Hd. unfold dictValues. rewrite length_map. exact Hl.
  - rewrite Hd, Ht. exact Hs.
  - rewrite Forall_forall. intros d Hin. rewrite Forall_forall in Hb.
    apply Hb. rewrite <- Hd. apply in_map. exact Hin.
  - rewrite Ht, Hs, (sum_of_balanced _ Hb), <- Hd, List.map_map. reflexivity.
Qed.

Lemma C5_witness :
  List.length (dailyData (reportOf longWednesdayOutcome)) = 7%nat
  /\ totalSeconds (reportOf longWednesdayOutcome)
     = sumSeconds (List.map d_day (dailyData (reportOf longWednesdayOutcome)))
  /\ Forall (fun d => balanced (d_day d)) (dailyData (reportOf longWednesdayOutcome))
  /\ totalSeconds (reportOf longWednesdayOutcome)
     = entrySeconds (List.concat (List.map (fun d => b_worklogs (d_day d))
                               (dailyData (reportOf longWednesdayOutcome)))).
Proof.
  apply (C5_total_is_sum_of_buckets longWednesday tzWest wednesdayNoonWest
           (fst longWednesdayOutcome)).
  vm_compute. reflexivity.
Defined.

(** C4, where the code departs from it.  With the server six hours behind
    UTC, an hour that the current user logged on Monday of the current week
    at 20:00 local time is filed under Tuesday ("Martes"), and Monday's
    bucket stays empty.  With the server two hours ahead of UTC the seven
    buckets carry the dates of Sunday to Saturday, and an hour logged on
    Sunday of the current week at 15:00 local time is filed nowhere. *)
Theorem C4_buckets_follow_the_utc_date :
  (WeekDay (LocalTime tzWest 1711418400000) = 1
   /\ within_week tzWest wednesdayNoonWest 1711418400000 = true
   /\ days (reportOf (getWorklogsDaily mondayEvening tzWest wednesdayNoonWest))
      = [("Lunes", 0); ("Martes", 3600); ("Miércoles", 0); ("Jueves", 0);
         ("Viernes", 0); ("Sábado", 0); ("Domingo", 0)])
  /\ (WeekDay (LocalTime tzEast 1711890000000) = 0
      /\ within_week tzEast wednesdayNoonEast 1711890000000 = true
      /\ civilFromDays (localDay tzEast (weekStartDate tzEast wednesdayNoonEast))
         = (2024, 2, 25)
      /\ List.map (fun d => b_date (d_day d))
           (dailyData (reportOf (getWorklogsDaily sundayAfternoon tzEast wednesdayNoonEast)))
         = [(2024, 3, 24); (2024, 3, 25); (2024, 3, 26); (2024, 3, 27);
            (2024, 3, 28); (2024, 3, 29); (2024, 3, 30)]
      /\ days (reportOf (getWorklogsDaily sundayAfternoon tzEast wednesdayNoonEast))
         = [("Lunes", 0); ("Martes", 0); ("Miércoles", 0); ("Jueves", 0);
            ("Viernes", 0); ("Sábado", 0); ("Domingo", 0)]
      /\ totalSeconds (reportOf (getWorklogsDaily sundayAfternoon tzEast wednesdayNoonEast))
         = 0).
Proof. vm_compute. repeat split. Qed.

End DailyClaims.

(* ------------------------------------------------------------------ *)
(** ** Upstream failures and the subtask type: claims *)

Module RouteClaims.

Import Server DailyFacts PeriodClaims Scenario.
Local Open Scope string_scope.
Local Open Scope Z_scope.
Local Open Scope list_scope.

(** The requests that a route makes inside a [try] of their own: the
    worklogs of each issue in the two worklog routes and the template
    comment of the subtask route. *)
Definition guarded (req : Request) (c : call) : bool :=
  match req, c with
  | GetApiWorklogsDaily, GetWorklogs _ => true
  | GetApiWorklogs _, GetWorklogs _ => true
  | PostApiSubtask _ _ _, PostComment _ _ => true
  | _, _ => false
  end.

(** The routes whose error response carries [details]. *)
Definition withDetails (req : Request) : bool :=
  match req with
  | GetApiIssues _ _ | PutApiIssue _ _ | GetApiWorklogsDaily | GetApiWorklogs _
  | PostApiWorklog _ _ | PostApiComment _ _ | PostApiTransition _ _
  | PostApiSubtask _ _ _ => true
  | _ => false
  end.

Definition isHealth (req : Request) : bool :=
  match req with GetApiHealth => true | _ => false end.

Definition bodyField (k : string) (b : Body) : option Json :=
  match b with
  | JsonBody j => getField k j
  | _ => None
  end.

Definition isText (j : option Json) : Prop :=
  match j with Some (JStr _) => True | _ => False end.

Definition isSubtaskType (t : IssueType) : bool :=
  String.eqb (it_name t) "Subtask" || it_subtask t.

Lemma only_worklogs_unguarded_daily (tr : list event) c e :
  (forall ev, In ev tr -> exists k, fst ev = GetWorklogs k) ->
  In (c, Some e) tr -> guarded GetApiWorklogsDaily c = true.
Proof. intros H Hin. destruct (H _ Hin) as [k Hk]. cbn in Hk. subst c. reflexivity. Qed.

Lemma only_worklogs_unguarded_period (tr : list event) p c e :
  (forall ev, In ev tr -> exists k, fst ev = GetWorklogs k) ->
  In (c, Some e) tr -> guarded (GetApiWorklogs p) c = true.
Proof. intros H Hin. destruct (H _ Hin) as [k Hk]. cbn in Hk. subst c. reflexivity. Qed.

(** One request, then the response. *)
Ltac single_request :=
  unfold route, request;
  match goal with
  | |- context [bind (_, ?answer) _] => destruct answer as [?data|?err]
  end;
  cbn [bind ret app fst snd];
  intros [Hin|[]] Hg; inversion Hin; subst;
  cbn; repeat split; try discriminate;
  try (destruct (responseData _); reflexivity).




Lemma subtaskTypeId_find types :
  subtaskTypeId types
  = match find isSubtaskType types with
    | Some t => it_id t
    | None => "10003"
    end.
Proof.
  induction types as [|t rest IH]; simpl; [reflexivity|].
  unfold isSubtaskType at 1. destruct (String.eqb (it_name t) "Subtask" || it_subtask t);
    [reflexivity|exact IH].
Qed.

(** C7.  The subtask route asks for the parent issue, then for the issue
    types of the parent's project, and creates the subtask with the id of
    the first type that is named Subtask or flagged as a subtask, or with
    '10003' when there is none. *)
Theorem C7_subtask_issue_type up tz now issueKey summary projectName parent types :
  up_issueProject up issueKey = Ok parent ->
  up_projectStatuses up (projectKey parent) = Ok types ->
  subtaskTypeId types
  = match find isSubtaskType types with
    | Some t => it_id t
    | None => "10003"
    end
  /\ exists fields rest,
       List.map fst (fst (postSubtask up tz now issueKey summary projectName))
       = GetIssue issueKey "project,issuetype" None
         :: GetProjectStatuses (projectKey parent)
         :: PostIssue fields :: rest
       /\ f_issuetype fields = subtaskTypeId types
       /\ f_parent fields = issueKey
       /\ f_project fields = projectKey parent
       /\ (forall f, ~ In (PostIssue f) rest).
Proof.
  intros Hp Ht. split; [apply subtaskTypeId_find|].
  unfold postSubtask, route, request. rewrite Hp. cbn [bind]. rewrite Ht. cbn [bind].
  match goal with
  | |- context [up_postIssue up ?f] =>
      exists f; destruct (up_postIssue up f) as [created|err]
  end; cbn [bind ret app fst snd List.map].
  - destruct (up_postComment up _ _) as [posted|err];
      cbn [bind catch ret app fst snd List.map];
      eexists; (split; [reflexivity|]); repeat split;
      intros f [Hin|[]]; discriminate.
  - exists []. split; [reflexivity|]. repeat split. intros f [].
Qed.

Lemma C7_witness :
  subtaskTypeId
    [{| it_id := "10001"; it_name := "Task"; it_subtask := false |};
     {| it_id := "10007"; it_name := "Subtarea"; it_subtask := true |};
     {| it_id := "10009"; it_name := "Subtask"; it_subtask := false |}]
  = "10007"
  /\ exists fields rest,
       List.map fst (fst (postSubtask longWednesday tzWest wednesdayNoonWest "JT-1"
                            (Some (JStr "Daily")) None))
       = GetIssue "JT-1" "project,issuetype" None
         :: GetProjectStatuses "JT" :: PostIssue fields :: rest
       /\ f_issuetype fields = "10007"
       /\ f_parent fields = "JT-1"
       /\ f_project fields = "JT"
       /\ (forall f, ~ In (PostIssue f) rest).
Proof.
  apply (C7_subtask_issue_type longWednesday tzWest wednesdayNoonWest "JT-1"
           (Some (JStr "Daily")) None
           {| projectKey := "JT"; projectName := "Jira table" |}
           [{| it_id := "10001"; it_name := "Task"; it_subtask := false |};
            {| it_id := "10007"; it_name := "Subtarea"; it_subtask := true |};
            {| it_id := "10009"; it_name := "Subtask"; it_subtask := false |}]);
    reflexivity.
Defined.

End RouteClaims.

(* ------------------------------------------------------------------ *)
(** ** What each day bucket holds *)

Module BucketFacts.

Import DateFacts ClockFacts Server DailyFacts.
Local Open Scope string_scope.
Local Open Scope Z_scope.
Local Open Scope list_scope.

Definition entryOf (issue : Issue) (w : Worklog) : LoggedEntry :=
  {| le_issueKey := key issue; le_summary := summary issue;
     le_timeSpentSeconds := wl_timeSpentSeconds w;
     le_started := wl_started w |}.

(** The worklogs that the daily loop looks at and counts, in its order:
    those of the current user that start within the week, of the issues
    whose worklogs could be fetched. *)
Definition countedEntries (up : Upstream) (accountId : string)
    (startDate endDate : Z) (issues : list Issue) : list LoggedEntry :=
  flat_map
    (fun i =>
       match up_worklogs up (key i) with
       | Ok worklogs =>
           List.map (entryOf i) (filter (counted accountId startDate endDate) worklogs)
       | Failed _ => []
       end)
    issues.

(** Whether an entry started on the UTC date [k]. *)
Definition under (k : isoDate) (en : LoggedEntry) : bool :=
  isoDate_eqb (toISODate (le_started en)) k.

(** The buckets list, each under its own key, the entries of [L]. *)
Definition filed (d : dict) (L : list LoggedEntry) : Prop :=
  Forall (fun kv => b_worklogs (snd kv) = filter (under (fst kv)) L) d.

(** Key, date and name of each bucket. *)
Definition labels (d : dict) : list (isoDate * isoDate * string) :=
  List.map (fun kv => (fst kv, b_date (snd kv), b_dayName (snd kv))) d.

Fixpoint distinctKeys (d : dict) : Prop :=
  match d with
  | [] => True
  | kv :: rest =>
      Forall (fun kv' => isoDate_eqb (fst kv) (fst kv') = false) rest
      /\ distinctKeys rest
  end.

Lemma isoDate_eqb_refl k : isoDate_eqb k k = true.
Proof. apply isoDate_eqb_eq. reflexivity. Qed.

Lemma filter_snoc {A} (f : A -> bool) l x :
  filter f (l ++ [x]) = filter f l ++ (if f x then [x] else []).
Proof. rewrite filter_app. reflexivity. Qed.

Lemma dictGet_None_all k d :
  dictGet k d = None -> Forall (fun kv => isoDate_eqb k (fst kv) = false) d.
Proof.
  induction d as [|[k0 v0] d IH]; simpl; [constructor|].
  destruct (isoDate_eqb k k0) eqn:E; [discriminate|].
  intros H. constructor; [exact E|auto].
Qed.

(** Filing one more entry under key [k], whose bucket is [day]. *)
Lemma file_entry k day en d L :
  k = toISODate (le_started en) ->
  distinctKeys d -> filed d L -> dictGet k d = Some day ->
  let day' := {| b_date := b_date day; b_dayName := b_dayName day;
                 b_totalSeconds := b_totalSeconds day + le_timeSpentSeconds en;
                 b_worklogs := b_worklogs day ++ [en] |} in
  filed (dictSet k day' d) (L ++ [en])
  /\ labels (dictSet k day' d) = labels d
  /\ distinctKeys (dictSet k day' d).
Proof.
  intros ->. cbv zeta. induction d as [|[k0 v0] d IH]; [discriminate|].
  intros [Hfresh Hdist] Hfiled Hget. inversion Hfiled as [|? ? Hhead Htail]; subst.
  cbn [fst snd dictGet dictSet] in *.
  destruct (isoDate_eqb (toISODate (le_started en)) k0) eqn:E.
  - apply isoDate_eqb_eq in E. subst k0. injection Hget as Hv. subst v0.
    cbn [labels List.map fst snd b_date b_dayName distinctKeys].
    split; [|split; [reflexivity|split; assumption]].
    constructor.
    + cbn [fst snd b_worklogs]. rewrite filter_snoc, Hhead.
      unfold under. rewrite isoDate_eqb_refl. reflexivity.
    + rewrite Forall_forall in *. intros kv Hin.
      rewrite filter_snoc, (Htail kv Hin). unfold under.
      rewrite (Hfresh kv Hin), app_nil_r. reflexivity.
  - destruct (IH Hdist Htail Hget) as (F & Lb & Dk).
    cbn [labels List.map fst snd distinctKeys]. split; [|split].
    + constructor; [|exact F]. cbn [fst snd].
      rewrite filter_snoc, Hhead. unfold under. rewrite E, app_nil_r. reflexivity.
    + f_equal. exact Lb.
    + split; [|exact Dk].
      assert (Hl : List.map fst (dictSet (toISODate (le_started en))
                            {| b_date := b_date day; b_dayName := b_dayName day;
                               b_totalSeconds := b_totalSeconds day + le_timeSpentSeconds en;
                               b_worklogs := b_worklogs day ++ [en] |} d)
                   = List.map fst d).
      { unfold labels in Lb. apply (f_equal (List.map (fun x => fst (fst x)))) in Lb.
        rewrite !List.map_map in Lb. exact Lb. }
      rewrite Forall_forall in *. intros kv Hin.
      apply (in_map fst) in Hin. rewrite Hl in Hin.
      apply in_map_iff in Hin as (kv' & Ekv & Hin'). rewrite <- Ekv.
      apply Hfresh. exact Hin'.
Qed.

Lemma skip_entry en d L :
  filed d L -> dictGet (toISODate (le_started en)) d = None -> filed d (L ++ [en]).
Proof.
  intros Hfiled Hget. apply dictGet_None_all in Hget.
  unfold filed in *. rewrite Forall_forall in *. intros kv Hin.
  rewrite filter_snoc, (Hfiled kv Hin). unfold under.
  rewrite (Hget kv Hin), app_nil_r. reflexivity.
Qed.

Lemma addWorklog_filed a s e issue d total w L :
  distinctKeys d -> filed d L ->
  filed (fst (addWorklog a s e issue (d, total) w))
        (L ++ List.map (entryOf issue) (filter (counted a s e) [w]))
  /\ labels (fst (addWorklog a s e issue (d, total) w)) = labels d
  /\ distinctKeys (fst (addWorklog a s e issue (d, total) w)).
Proof.
  intros Hd Hf. unfold addWorklog, counted. cbn [filter].
  destruct (String.eqb (wl_author w) a); cbn [andb];
    [|rewrite app_nil_r; auto].
  destruct ((s <=? wl_started w) && (wl_started w <=? e));
    [|cbn [List.map]; rewrite app_nil_r; auto].
  cbn [List.map].
  destruct (dictGet (toISODate (wl_started w)) d) as [day|] eqn:G; cbn [fst].
  - apply (file_entry (toISODate (wl_started w)) day (entryOf issue w) d L
             eq_refl Hd Hf G).
  - split; [|auto]. apply (skip_entry (entryOf issue w)); assumption.
Qed.

Lemma fold_addWorklog_filed a s e issue worklogs : forall d total L,
  distinctKeys d -> filed d L ->
  filed (fst (fold_left (addWorklog a s e issue) worklogs (d, total)))
        (L ++ List.map (entryOf issue) (filter (counted a s e) worklogs))
  /\ labels (fst (fold_left (addWorklog a s e issue) worklogs (d, total))) = labels d
  /\ distinctKeys (fst (fold_left (addWorklog a s e issue) worklogs (d, total))).
Proof.
  induction worklogs as [|w ws IH]; intros d total L Hd Hf.
  - cbn. rewrite app_nil_r. auto.
  - cbn [fold_left].
    destruct (addWorklog_filed a s e issue d total w L Hd Hf) as (F1 & L1 & D1).
    destruct (addWorklog a s e issue (d, total) w) as [d1 t1] eqn:E1. cbn [fst] in *.
    destruct (IH d1 t1 _ D1 F1) as (F2 & L2 & D2).
    split; [|split; [congruence|exact D2]].
    replace (filter (counted a s e) (w :: ws))
      with (filter (counted a s e) [w] ++ filter (counted a s e) ws)
      by (cbn [filter]; destruct (counted a s e w); reflexivity).
    rewrite List.map_app, app_assoc. exact F2.
Qed.

Lemma dailyLoop_filed up a s e issues : forall d total L,
  distinctKeys d -> filed d L ->
  exists tr st',
    dailyLoop up a s e issues (d, total) = (tr, Ok st')
    /\ filed (fst st') (L ++ countedEntries up a s e issues)
    /\ labels (fst st') = labels d.
Proof.
  induction issues as [|i rest IH]; intros d total L Hd Hf.
  - exists [], (d, total). cbn. rewrite app_nil_r. auto.
  - cbn [dailyLoop countedEntries flat_map]. fold (countedEntries up a s e rest).
    unfold request.
    destruct (up_worklogs up (key i)) as [worklogs|err]; cbn [bind catch ret app].
    + destruct (fold_addWorklog_filed a s e i worklogs d total L Hd Hf) as (F1 & L1 & D1).
      destruct (fold_left (addWorklog a s e i) worklogs (d, total)) as [d1 t1].
      cbn [fst] in *.
      destruct (IH d1 t1 _ D1 F1) as (tr & st' & El & F2 & L2). rewrite El.
      eexists _, st'. split; [reflexivity|]. split; [|congruence].
      rewrite app_assoc. exact F2.
    + destruct (IH d total L Hd Hf) as (tr & st' & El & F2 & L2). rewrite El.
      eexists _, st'. split; [reflexivity|]. split; assumption.
Qed.

Lemma init_distinct tz s : distinctKeys (initDailyTotals tz s).
Proof.
  rewrite initDailyTotals_spec. unfold emptyDay. cbn [List.map distinctKeys fst].
  repeat split; repeat constructor; apply key_distinct; lia.
Qed.

Lemma init_filed tz s : filed (initDailyTotals tz s) [].
Proof. rewrite initDailyTotals_spec. unfold filed. repeat constructor. Qed.

(** From the pairs of the final state to the buckets of the response. *)
Lemma filed_labels_determine d L :
  filed d L ->
  List.map (fun b => (b_date b, b_dayName b, b_worklogs b)) (dictValues d)
  = List.map (fun x => (snd (fst x), snd x, filter (under (fst (fst x))) L)) (labels d).
Proof.
  unfold filed, labels, dictValues. rewrite !List.map_map.
  induction 1 as [|kv d Hkv _ IH]; cbn [List.map fst snd]; [reflexivity|].
  rewrite Hkv, IH. reflexivity.
Qed.

Definition weekDayNames : list string :=
  ["Lunes"; "Martes"; "Miércoles"; "Jueves"; "Viernes"; "Sábado"; "Domingo"].

Lemma getDay_localDay tz t : getDay tz t = (localDay tz t + 4) mod 7.
Proof. reflexivity. Qed.

Lemma localDay_of_local tz x : localDay tz (x - tz) = Day x.
Proof. unfold localDay, LocalTime. f_equal. lia. Qed.

Lemma dayName_of_week tz now i :
  0 <= i <= 6 ->
  nth (Z.to_nat (getDay tz (weekStartDate tz now + i * msPerDay))) dayNames ""
  = nth (Z.to_nat i) weekDayNames "".
Proof.
  intros Hi. rewrite getDay_localDay, localDay_shift, weekStart_local.
  replace (localDay tz (MakeDate (mondayOf (localDay tz now)) 0 - tz))
    with (mondayOf (localDay tz now)).
  - destruct (mondayOf_spec (localDay tz now)) as [Hm _].
    assert (E : (mondayOf (localDay tz now) + i + 4) mod 7 = (1 + i) mod 7)
      by (Z.div_mod_to_equations; lia).
    rewrite E.
    assert (Hc : i = 0 \/ i = 1 \/ i = 2 \/ i = 3 \/ i = 4 \/ i = 5 \/ i = 6) by lia.
    destruct Hc as [->|[->|[->|[->|[->|[->| ->]]]]]]; reflexivity.
  - rewrite localDay_of_local. symmetry. apply Day_MakeDate. unfold msPerDay. lia.
Qed.

Lemma under_day t i en :
  under (toISODate (t + i * msPerDay)) en = (Day (le_started en) =? Day t + i).
Proof.
  unfold under. destruct (Z.eqb_spec (Day (le_started en)) (Day t + i)) as [E|E].
  - apply isoDate_eqb_eq. unfold toISODate.
    replace (Day (t + i * msPerDay)) with (Day t + i)
      by (unfold Day, msPerDay; rewrite Z.div_add by lia; reflexivity).
    rewrite E. reflexivity.
  - destruct (isoDate_eqb _ _) eqn:B; [|reflexivity].
    apply isoDate_eqb_eq, toISODate_injective in B.
    unfold Day, msPerDay in *. rewrite Z.div_add in B by lia. contradiction.
Qed.

Lemma filter_under t i L :
  filter (under (toISODate (t + i * msPerDay))) L
  = filter (fun en => Day (le_started en) =? Day t + i) L.
Proof. apply filter_ext. intros en. apply under_day. Qed.

(** What the seven buckets of a response of the daily route hold. *)
Lemma daily_buckets up tz now tr r :
  getWorklogsDaily up tz now = (tr, json (DailyBody r)) ->
  exists user issues,
    up_myself up = Ok user
    /\ up_worklogIssues up (toISODate (weekStartDate tz now)) = Ok issues
    /\ List.map (fun d => (b_date (d_day d), b_dayName (d_day d), b_worklogs (d_day d)))
         (dailyData r)
       = List.map
           (fun i =>
              (toISODate (weekStartDate tz now + i * msPerDay),
               nth (Z.to_nat i) weekDayNames "",
               filter (fun en => Day (le_started en) =? Day (weekStartDate tz now) + i)
                 (countedEntries up (accountId user) (weekStartDate tz now)
                    (weekEndDate tz now) issues)))
           [0; 1; 2; 3; 4; 5; 6].
Proof.
  unfold getWorklogsDaily, route, request.
  destruct (up_myself up) as [user|err]; cbn [bind]; [|intros H; inversion H].
  destruct (up_worklogIssues up _) as [issues|err]; cbn [bind]; [|intros H; inversion H].
  destruct (dailyLoop_filed up (accountId user) (weekStartDate tz now)
              (weekEndDate tz now) issues
              (initDailyTotals tz (weekStartDate tz now)) 0 []
              (init_distinct tz (weekStartDate tz now))
              (init_filed tz (weekStartDate tz now)))
    as (tr' & st' & El & F & Lb).
  rewrite El. cbn [bind ret app]. intros H. inversion H; subst. clear H.
  exists user, issues. split; [reflexivity|]. split; [reflexivity|].
  rewrite app_nil_l in F. destruct st' as [d' t']. cbn [fst dailyReport dailyData] in *.
  rewrite List.map_map. cbn [toDailyData d_day].
  rewrite (filed_labels_determine d' _ F), Lb.
  rewrite initDailyTotals_spec. unfold labels, emptyDay.
  rewrite !List.map_map. cbn [fst snd b_date b_dayName List.map].
  rewrite !dayName_of_week by lia. rewrite !filter_under. reflexivity.
Qed.

(** X1.  The seven buckets of a response of the daily route, under any
    constant offset of the server's clock: they are named Monday to Sunday, the
    [i]-th is dated with the UTC date of the [i]-th local midnight of the
    week, and it lists the counted entries that started on that UTC day. *)
Theorem daily_buckets_by_utc_day up tz now tr r :
  getWorklogsDaily up tz now = (tr, json (DailyBody r)) ->
  exists user issues,
    up_myself up = Ok user
    /\ up_worklogIssues up (toISODate (weekStartDate tz now)) = Ok issues
    /\ List.map (fun d => (b_date (d_day d), b_dayName (d_day d), b_worklogs (d_day d)))
         (dailyData r)
       = List.map
           (fun i =>
              (toISODate (weekStartDate tz now + i * msPerDay),
               nth (Z.to_nat i) weekDayNames "",
               filter (fun en => Day (le_started en) =? Day (weekStartDate tz now) + i)
                 (countedEntries up (accountId user) (weekStartDate tz now)
                    (weekEndDate tz now) issues)))
           [0; 1; 2; 3; 4; 5; 6].
Proof. exact (daily_buckets up tz now tr r). Qed.

(** The calendar date of a day number, as the route prints dates. *)
Definition dateOfDay (n : Z) : isoDate :=
  let '(y, mo, d) := civilFromDays n in (y, mo + 1, d).

Lemma countedEntries_in_week up a s e issues en :
  In en (countedEntries up a s e issues) ->
  (s <=? le_started en) && (le_started en <=? e) = true.
Proof.
  unfold countedEntries. rewrite in_flat_map. intros (i & _ & Hin).
  destruct (up_worklogs up (key i)) as [worklogs|err]; [|destruct Hin].
  apply in_map_iff in Hin as (w & <- & Hw). apply filter_In in Hw as [_ Hc].
  unfold counted in Hc. apply andb_true_iff in Hc as [_ Hc]. exact Hc.
Qed.

(** X2.  Where the server's clock is UTC the buckets are what the week view
    means them to be: the [i]-th is named and dated after the [i]-th day of
    the week that starts on Monday, it lists the current user's entries of
    that calendar day, and every counted entry falls on one of the seven
    days. *)
Theorem daily_buckets_in_utc up now tr r :
  getWorklogsDaily up 0 now = (tr, json (DailyBody r)) ->
  exists user issues,
    up_myself up = Ok user
    /\ up_worklogIssues up (toISODate (weekStartDate 0 now)) = Ok issues
    /\ List.map (fun d => (b_date (d_day d), b_dayName (d_day d), b_worklogs (d_day d)))
         (dailyData r)
       = List.map
           (fun i =>
              (dateOfDay (mondayOf (localDay 0 now) + i),
               nth (Z.to_nat i) weekDayNames "",
               filter (fun en => localDay 0 (le_started en)
                                 =? mondayOf (localDay 0 now) + i)
                 (countedEntries up (accountId user) (weekStartDate 0 now)
                    (weekEndDate 0 now) issues)))
           [0; 1; 2; 3; 4; 5; 6]
    /\ (forall en,
          In en (countedEntries up (accountId user) (weekStartDate 0 now)
                   (weekEndDate 0 now) issues) ->
          mondayOf (localDay 0 now) <= localDay 0 (le_started en)
          <= mondayOf (localDay 0 now) + 6).
Proof.
  intros H. destruct (daily_buckets up 0 now tr r H)
    as (user & issues & Hu & Hi & Hb).
  exists user, issues. split; [exact Hu|]. split; [exact Hi|].
  assert (Hday : Day (weekStartDate 0 now) = mondayOf (localDay 0 now)).
  { rewrite weekStart_local. rewrite Z.sub_0_r. apply Day_MakeDate.
    unfold msPerDay. lia. }
  split.
  - rewrite Hb. apply map_ext. intros i.
    assert (Hd : toISODate (weekStartDate 0 now + i * msPerDay)
                 = dateOfDay (mondayOf (localDay 0 now) + i)).
    { unfold toISODate, dateOfDay. rewrite <- Hday.
      replace (Day (weekStartDate 0 now + i * msPerDay)) with (Day (weekStartDate 0 now) + i)
        by (unfold Day, msPerDay; rewrite Z.div_add by lia; reflexivity).
      reflexivity. }
    rewrite Hd, Hday. f_equal. apply filter_ext. intros en.
    unfold localDay, LocalTime. rewrite !Z.add_0_r. reflexivity.
  - intros en Hin. apply countedEntries_in_week in Hin.
    rewrite weekStart_local, weekEnd_local in Hin.
    apply between_days in Hin. exact Hin.
Qed.

Lemma daily_buckets_by_utc_day_witness :
  exists user issues,
    up_myself Scenario.mondayEvening = Ok user
    /\ up_worklogIssues Scenario.mondayEvening
         (toISODate (weekStartDate Scenario.tzWest Scenario.wednesdayNoonWest))
       = Ok issues
    /\ List.map (fun d => (b_date (d_day d), b_dayName (d_day d), b_worklogs (d_day d)))
         (dailyData
            (Scenario.reportOf
               (getWorklogsDaily Scenario.mondayEvening Scenario.tzWest
                  Scenario.wednesdayNoonWest)))
       = List.map
           (fun i =>
              (toISODate
                 (weekStartDate Scenario.tzWest Scenario.wednesdayNoonWest + i * msPerDay),
               nth (Z.to_nat i) weekDayNames "",
               filter
                 (fun en =>
                    Day (le_started en)
                    =? Day (weekStartDate Scenario.tzWest Scenario.wednesdayNoonWest) + i)
                 (countedEntries Scenario.mondayEvening (accountId user)
                    (weekStartDate Scenario.tzWest Scenario.wednesdayNoonWest)
                    (weekEndDate Scenario.tzWest Scenario.wednesdayNoonWest) issues)))
           [0; 1; 2; 3; 4; 5; 6].
Proof.
  apply (daily_buckets_by_utc_day Scenario.mondayEvening Scenario.tzWest
           Scenario.wednesdayNoonWest
           (fst (getWorklogsDaily Scenario.mondayEvening Scenario.tzWest
                   Scenario.wednesdayNoonWest))).
  vm_compute. reflexivity.
Defined.

Lemma daily_buckets_in_utc_witness :
  exists user issues,
    up_myself Scenario.mondayEvening = Ok user
    /\ up_worklogIssues Scenario.mondayEvening
         (toISODate (weekStartDate 0 Scenario.wednesdayNoonWest)) = Ok issues
    /\ List.map (fun d => (b_date (d_day d), b_dayName (d_day d), b_worklogs (d_day d)))
         (dailyData
            (Scenario.reportOf
               (getWorklogsDaily Scenario.mondayEvening 0 Scenario.wednesdayNoonWest)))
       = List.map
           (fun i =>
              (dateOfDay (mondayOf (localDay 0 Scenario.wednesdayNoonWest) + i),
               nth (Z.to_nat i) weekDayNames "",
               filter (fun en => localDay 0 (le_started en)
                                 =? mondayOf (localDay 0 Scenario.wednesdayNoonWest) + i)
                 (countedEntries Scenario.mondayEvening (accountId user)
                    (weekStartDate 0 Scenario.wednesdayNoonWest)
                    (weekEndDate 0 Scenario.wednesdayNoonWest) issues)))
           [0; 1; 2; 3; 4; 5; 6]
    /\ (forall en,
          In en (countedEntries Scenario.mondayEvening (accountId user)
                   (weekStartDate 0 Scenario.wednesdayNoonWest)
                   (weekEndDate 0 Scenario.wednesdayNoonWest) issues) ->
          mondayOf (localDay 0 Scenario.wednesdayNoonWest) <= localDay 0 (le_started en)
          <= mondayOf (localDay 0 Scenario.wednesdayNoonWest) + 6).
Proof.
  apply (daily_buckets_in_utc Scenario.mondayEvening Scenario.wednesdayNoonWest
           (fst (getWorklogsDaily Scenario.mondayEvening 0 Scenario.wednesdayNoonWest))).
  vm_compute. reflexivity.
Defined.

End BucketFacts.

(* ------------------------------------------------------------------ *)
(** ** The detail panel: formatted times, logged time, rendered comments *)

Module DetailPanelFacts.

Import IssueDetailPanel Format Scan Tokens Server IssueDetailText.
Import StringFacts.
Local Open Scope string_scope.
Local Open Scope Z_scope.
Local Open Scope list_scope.

Lemma parse_minutes_only ds :
  ds <> [] -> allOf isDigit ds ->
  parseTimeToSeconds (ds ++ lit "m") = Some (Num (digitsValue ds * 60)).
Proof.
  intros Hn Hd.
  transitivity (parseTimeToSeconds
    ([] ++ token (ch "w") None ++ token (ch "d") None
        ++ token (ch "h") None ++ token (ch "m") (Some (ds, [])))).
  { reflexivity. }
  rewrite parse_tokens
    by (cbn [wellFormed]; repeat split; try assumption; reflexivity).
  cbn [amount]. f_equal.
Qed.

Lemma parse_hours_minutes hs ms :
  hs <> [] -> allOf isDigit hs -> ms <> [] -> allOf isDigit ms ->
  parseTimeToSeconds (hs ++ lit "h " ++ ms ++ lit "m")
  = Some (Num (digitsValue hs * 3600 + digitsValue ms * 60)).
Proof.
  intros Hn1 Hd1 Hn2 Hd2.
  transitivity (parseTimeToSeconds
    ([] ++ token (ch "w") None ++ token (ch "d") None
        ++ token (ch "h") (Some (hs, lit " "))
        ++ token (ch "m") (Some (ms, [])))).
  { f_equal. simpl. rewrite <- app_assoc. reflexivity. }
  rewrite parse_tokens
    by (cbn [wellFormed]; repeat split; try assumption; reflexivity).
  cbn [amount]. f_equal.
Qed.

(** Formatting a count of seconds with [formatTime] and parsing the text
    again gives the count rounded down to a whole minute; the placeholder
    ['-'] of a missing or zero count parses to 0. *)
Theorem formatTime_then_parse s :
  0 <= s <= MAX_SAFE_INTEGER ->
  parseTimeToSeconds (formatTime (Some s)) = Some (Num (60 * (s / 60)))
  /\ parseTimeToSeconds (formatTime None) = Some (Num 0).
Proof.
  intros [Hs _]. split; [|vm_compute; reflexivity].
  unfold formatTime. destruct (Z.eqb_spec s 0) as [->|Hnz]; [vm_compute; reflexivity|].
  rewrite Z.rem_mod_nonneg by lia.
  assert (HH : 0 <= s / 3600) by (apply Z.div_pos; lia).
  assert (HM : 0 <= s mod 3600 / 60)
    by (apply Z.div_pos; [apply Z.mod_pos_bound|]; lia).
  rewrite !numToString_nonneg by assumption.
  destruct (natToString_spec (Z.to_N (s / 3600))) as (Hn1 & Hd1 & Hv1).
  destruct (natToString_spec (Z.to_N (s mod 3600 / 60))) as (Hn2 & Hd2 & Hv2).
  destruct (Z.ltb_spec 0 (s / 3600)) as [Hh|Hh].
  - rewrite parse_hours_minutes by assumption.
    rewrite Hv1, Hv2, !Z2N.id by assumption.
    do 2 f_equal. Z.div_mod_to_equations. lia.
  - rewrite parse_minutes_only by assumption.
    rewrite Hv2, !Z2N.id by assumption.
    do 2 f_equal. Z.div_mod_to_equations. lia.
Qed.

Lemma formatTime_then_parse_witness :
  parseTimeToSeconds (formatTime (Some 2745)) = Some (Num (60 * (2745 / 60)))
  /\ parseTimeToSeconds (formatTime None) = Some (Num 0).
Proof. apply (formatTime_then_parse 2745). vm_compute. split; discriminate. Defined.

Lemma handleLogTime_posted s :
  forall n, handleLogTime s = Posted n ->
  exists z, n = Num z /\ 0 < z /\ parseTimeToSeconds s = Some (Num z).
Proof.
  intros n. unfold handleLogTime. destruct (trim s) eqn:E; [discriminate|].
  pose proof (parse_scan s) as P. pose proof (secondsOf_scan_nonneg (trim s)) as Hz.
  rewrite P. cbn [falsy truthy].
  destruct (Z.eqb_spec (secondsOf (scan (trim s))) 0) as [E0|E0]; cbn [negb];
    [discriminate|].
  intros H. inversion H. eexists. split; [reflexivity|]. split; [lia|reflexivity].
Qed.


Section Rendering.

Variable numberToString : Q -> string.

Lemma render_docOf t :
  renderDescription numberToString (Some (docOf t))
  = match t with
    | Some v =>
        if jsTruthy v then
          match toStr numberToString v with
          | Some s => if String.eqb s "" then JStr "No description" else JStr s
          | None => JStr "No description"
          end
        else JStr "No description"
    | None => JStr "No description"
    end.
Proof.
  destruct t as [v|]; [|reflexivity].
  unfold renderDescription, docOf, prop.
  cbn -[toStr jsTruthy String.eqb String.concat].
  cbn [jsTruthy negb].
  change (String.eqb "content" "type") with false.
  change (String.eqb "content" "version") with false.
  change (String.eqb "content" "content") with true.
  change (String.eqb "text" "type") with false.
  change (String.eqb "text" "version") with false.
  change (String.eqb "text" "content") with false.
  change (String.eqb "text" "text") with true.
  cbn -[toStr jsTruthy String.eqb String.concat].
  destruct (jsTruthy v) eqn:Tv; cbn -[toStr jsTruthy String.eqb String.concat].
  - assert (J : joined numberToString v = toStr numberToString v)
      by (destruct v; try reflexivity; discriminate).
    rewrite J. destruct (toStr numberToString v) as [s|]; [|reflexivity].
    cbn [joined toStr String.concat jsTruthy].
    destruct (String.eqb s ""); reflexivity.
  - reflexivity.
Qed.

End Rendering.

(** A comment typed in the panel and posted through the server comes back
    as typed: the document that the comment route, and the worklog route for
    its comment, send upstream is rendered by [renderDescription] as the
    text itself. *)
Theorem comment_renders_as_typed numberToString up issueKey s :
  s <> "" ->
  (exists doc,
      List.map fst (fst (postComment up issueKey (JObj [("body", JStr s)])))
      = [PostComment issueKey (JObj [("body", doc)])]
      /\ renderDescription numberToString (Some doc) = JStr s)
  /\ (forall seconds, exists doc,
        List.map fst
          (fst (postWorklog up issueKey
                  (JObj [("timeSpentSeconds", seconds); ("comment", JStr s)])))
        = [PostWorklog issueKey
             (JObj [("timeSpentSeconds", seconds); ("comment", doc)])]
        /\ renderDescription numberToString (Some doc) = JStr s).
Proof.
  intros Hs.
  assert (Hne : String.eqb s "" = false) by (apply String.eqb_neq; assumption).
  assert (R : renderDescription numberToString (Some (docOf (Some (JStr s)))) = JStr s).
  { rewrite render_docOf. cbn [jsTruthy toStr]. rewrite Hne. reflexivity. }
  split.
  - exists (docOf (Some (JStr s))). split; [|exact R].
    unfold postComment, route, request. cbn [getField lookup].
    change (String.eqb "body" "body") with true. cbn iota.
    destruct (up_postComment up issueKey _); reflexivity.
  - intros seconds. exists (docOf (Some (JStr s))). split; [|exact R].
    unfold postWorklog, route, request. cbn [getField lookup].
    change (String.eqb "timeSpentSeconds" "timeSpentSeconds") with true.
    change (String.eqb "comment" "timeSpentSeconds") with false.
    change (String.eqb "comment" "comment") with true.
    cbn iota. cbn [jsTruthy]. rewrite Hne. cbn [negb prop app].
    destruct (up_postWorklog up issueKey _); reflexivity.
Qed.

Lemma comment_renders_as_typed_witness :
  (exists doc,
      List.map fst (fst (postComment Scenario.longWednesday "JT-1"
                           (JObj [("body", JStr "done")])))
      = [PostComment "JT-1" (JObj [("body", doc)])]
      /\ renderDescription (fun _ => "") (Some doc) = JStr "done")
  /\ (forall seconds, exists doc,
        List.map fst
          (fst (postWorklog Scenario.longWednesday "JT-1"
                  (JObj [("timeSpentSeconds", seconds); ("comment", JStr "done")])))
        = [PostWorklog "JT-1"
             (JObj [("timeSpentSeconds", seconds); ("comment", doc)])]
        /\ renderDescription (fun _ => "") (Some doc) = JStr "done").
Proof.
  apply (comment_renders_as_typed (fun _ => "") Scenario.longWednesday "JT-1" "done").
  discriminate.
Defined.

End DetailPanelFacts.

(* ------------------------------------------------------------------ *)
(** ** What the duration parser leaves unread *)

Module UnreadText.

Import IssueDetailPanel Scan Tokens StringFacts.
Local Open Scope Z_scope.

Lemma scan_tokens_then lead tw td th ds rest :
  allOf isSpace lead ->
  wellFormed tw -> wellFormed td -> wellFormed th ->
  ds <> [] -> allOf isDigit ds ->
  scan (trimStart
          (lead ++ token (ch "w") tw ++ token (ch "d") td
                ++ token (ch "h") th ++ ds ++ ch "m" :: rest))
  = [option_map fst tw; option_map fst td; option_map fst th; Some ds].
Proof.
  intros Hlead Hw Hd Hh Hne Hds. unfold trimStart.
  rewrite dropWhile_all by assumption. unfold scan.
  assert (B : forall u, isUnit u = true -> u <> ch "m" ->
                scanUnit u (dropWhile isSpace (ds ++ ch "m" :: rest)) = None).
  { intros u Hu Hm. rewrite digits_start by assumption.
    apply scanUnit_other; [reflexivity|congruence|assumption]. }
  rewrite scanGroup_token; [|reflexivity|assumption|].
  2:{ repeat (apply scanUnit_skip; [reflexivity|discriminate|assumption|]).
      apply B; [reflexivity|discriminate]. }
  rewrite scanGroup_token; [|reflexivity|assumption|].
  2:{ repeat (apply scanUnit_skip; [reflexivity|discriminate|assumption|]).
      apply B; [reflexivity|discriminate]. }
  rewrite scanGroup_token; [|reflexivity|assumption|].
  2:{ apply B; [reflexivity|discriminate]. }
  rewrite digits_start by assumption. unfold scanGroup.
  rewrite scanUnit_hit by (try reflexivity; assumption). reflexivity.
Qed.

Lemma scanUnit_no_digit u c r : isDigit c = false -> scanUnit u (c :: r) = None.
Proof. intros H. unfold scanUnit. cbn [takeWhile]. rewrite H. reflexivity. Qed.

Lemma scan_no_digit c r :
  isDigit c = false -> scan (c :: r) = [None; None; None; None].
Proof.
  intros H. unfold scan, scanGroup.
  repeat (rewrite scanUnit_no_digit by assumption; cbv iota beta zeta).
  reflexivity.
Qed.


End UnreadText.

(* ------------------------------------------------------------------ *)
(** ** A failed search, from the upstream payload to the screen *)

Module SearchErrorFacts.

Import Server IssueDetailText SearchResult.
Local Open Scope string_scope.
Local Open Scope Z_scope.
Local Open Scope list_scope.

(** The parsed body of a response of the server's JSON routes. *)
Definition parsedBody (r : Response) : Json :=
  match body r with
  | JsonBody j => j
  | _ => JNull
  end.

Lemma joinMessages_texts numberToString msgs :
  joinMessages numberToString (List.map JStr msgs) = Some msgs.
Proof.
  induction msgs as [|m msgs IH]; [reflexivity|].
  cbn [List.map joinMessages joined toStr]. rewrite IH. reflexivity.
Qed.

(** A search that fails upstream, as the board reports it.  The server
    answers with its own error text and the upstream payload as details;
    the client then shows the upstream [errorMessages], joined by ", ",
    when the payload is an object that lists some text, and the server's
    'Failed to fetch issues' when the rejection carries no payload; in both
    cases the board is emptied. *)
Theorem search_error_shown numberToString up jql maxResults e :
  up_search up
    (match jql with Some j => j | None => JStr "order by created DESC" end)
    (match maxResults with Some n => n | None => jnum 50 end)
    searchFields
  = Failed e ->
  let state := afterSearch numberToString
                 (parsedBody (snd (getIssues up jql maxResults))) in
  shownIssues state = JArr []
  /\ (responseData e = None ->
      shownError state = Some (Message "Failed to fetch issues"))
  /\ (forall fields msgs,
         responseData e = Some (JObj fields) ->
         lookup "errorMessages" fields = Some (JArr (List.map JStr msgs)) ->
         String.concat ", " msgs <> "" ->
         shownError state = Some (Message (String.concat ", " msgs))).
Proof.
  intros Hf. cbv zeta. unfold getIssues, route, request. rewrite Hf.
  cbn [bind snd errorWithDetails json500 parsedBody body].
  assert (S : forall d, shownIssues (afterSearch numberToString
                (JObj (("error", JStr "Failed to fetch issues") :: prop "details" d)))
                = JArr []).
  { intros d. unfold afterSearch. cbn [getField lookup].
    change (String.eqb "error" "error") with true. cbn iota. cbn [jsTruthy].
    change (negb (String.eqb "Failed to fetch issues" "")) with true. cbn iota.
    destruct (detailMessages _ _) as [[text|]|]; [| |reflexivity].
    - destruct (String.eqb text ""); cbn [toStr]; reflexivity.
    - reflexivity. }
  split; [apply S|]. split.
  - intros ->. reflexivity.
  - intros fields msgs -> Hm Hne. unfold afterSearch, detailMessages.
    cbn [prop getField lookup].
    change (String.eqb "error" "error") with true.
    change (String.eqb "details" "error") with false.
    change (String.eqb "details" "details") with true.
    cbn iota. cbn [jsTruthy].
    change (negb (String.eqb "Failed to fetch issues" "")) with true. cbn iota.
    cbn [getField]. rewrite Hm, joinMessages_texts.
    apply String.eqb_neq in Hne. rewrite Hne. reflexivity.
Qed.

Lemma search_error_shown_witness :
  let state := afterSearch (fun _ => "")
                 (parsedBody (snd (getIssues Scenario.longWednesday None None))) in
  shownIssues state = JArr []
  /\ (responseData Scenario.notFound = None ->
      shownError state = Some (Message "Failed to fetch issues"))
  /\ (forall fields msgs,
         responseData Scenario.notFound = Some (JObj fields) ->
         lookup "errorMessages" fields = Some (JArr (List.map JStr msgs)) ->
         String.concat ", " msgs <> "" ->
         shownError state = Some (Message (String.concat ", " msgs))).
Proof.
  apply (search_error_shown (fun _ => "") Scenario.longWednesday None None
           Scenario.notFound).
  reflexivity.
Defined.

End SearchErrorFacts.

(* ------------------------------------------------------------------ *)
(** ** The columns of the board *)

Module BoardFacts.

Import KanbanBoard.
Local Open Scope string_scope.
Local Open Scope Z_scope.
Local Open Scope list_scope.

(** Whether an issue has the status that a column is named after. *)
Definition inColumn (columnName : string) (issue : JiraIssue) : bool :=
  String.eqb columnName (ji_statusName issue).

Definition rank (c : StatusColumn) : Z := indexOf order (key c).

(** The names of a list without their repetitions, in the order of first
    appearance; [seen] holds the names met before. *)
Fixpoint firstSeen (seen l : list string) : list string :=
  match l with
  | x :: rest =>
      if existsb (String.eqb x) seen then firstSeen seen rest
      else x :: firstSeen (seen ++ [x]) rest
  | [] => []
  end.

(** What holds of a column once the issues [seen] are placed. *)
Definition filled (seen : list JiraIssue) (c : StatusColumn) : Prop :=
  issues c = filter (inColumn (name c)) seen
  /\ exists first, hd_error (issues c) = Some first
                   /\ key c = columnKey first
                   /\ color c = statusColor (key c).

Definition placed (statusMap : list StatusColumn) (seen : list JiraIssue) : Prop :=
  NoDup (List.map name statusMap)
  /\ Forall (filled seen) statusMap
  /\ forall i, In i seen -> has (ji_statusName i) statusMap = true.

Lemma has_In n m : has n m = true <-> In n (List.map name m).
Proof.
  unfold has. rewrite existsb_exists, in_map_iff. split.
  - intros (c & Hc & E). apply String.eqb_eq in E. exists c. auto.
  - intros (c & E & Hc). exists c. split; [assumption|]. apply String.eqb_eq. assumption.
Qed.

Lemma has_app n a b : has n (a ++ b) = has n a || has n b.
Proof. unfold has. apply existsb_app. Qed.

Lemma push_names n i m : List.map name (push n i m) = List.map name m.
Proof.
  induction m as [|c m IH]; cbn [push List.map]; [reflexivity|].
  destruct (String.eqb (name c) n); cbn [List.map name]; [reflexivity|].
  rewrite IH. reflexivity.
Qed.

Lemma push_absent n i m : has n m = false -> push n i m = m.
Proof.
  induction m as [|c m IH]; cbn [push]; [reflexivity|].
  unfold has. cbn [existsb]. intros H. apply orb_false_iff in H as [H1 H2].
  rewrite H1. rewrite IH by exact H2. reflexivity.
Qed.

Lemma push_app_absent n i a b :
  has n a = false -> push n i (a ++ b) = a ++ push n i b.
Proof.
  induction a as [|c a IH]; cbn [push app]; [reflexivity|].
  unfold has. cbn [existsb]. intros H. apply orb_false_iff in H as [H1 H2].
  rewrite H1. rewrite IH by exact H2. reflexivity.
Qed.

Lemma filter_last {A} (f : A -> bool) l x :
  filter f (l ++ [x]) = filter f l ++ (if f x then [x] else []).
Proof. rewrite filter_app. reflexivity. Qed.

Lemma filled_other seen i c :
  String.eqb (name c) (ji_statusName i) = false ->
  filled seen c -> filled (seen ++ [i]) c.
Proof.
  intros Hn [Hf Hx]. split; [|exact Hx].
  rewrite filter_last. unfold inColumn at 2. rewrite Hn, app_nil_r. exact Hf.
Qed.

Lemma push_filled seen i m :
  NoDup (List.map name m) -> Forall (filled seen) m ->
  Forall (filled (seen ++ [i])) (push (ji_statusName i) i m).
Proof.
  induction m as [|c m IH]; intros Hnd Hf; cbn [push]; [constructor|].
  inversion Hnd as [|? ? Hnotin Hnd']. subst. inversion Hf as [|? ? Hc Hm]. subst.
  destruct (String.eqb (name c) (ji_statusName i)) eqn:E.
  - constructor.
    + destruct Hc as [Hi (first & Hh & Hk & Hcol)]. split; cbn [issues name key color].
      * rewrite filter_last. unfold inColumn at 2. rewrite E, Hi. reflexivity.
      * exists first. split; [|split; assumption].
        destruct (issues c); [discriminate|exact Hh].
    + apply String.eqb_eq in E.
      rewrite Forall_forall in *. intros c' Hin. apply filled_other; [|auto].
      apply String.eqb_neq. intros E'. apply Hnotin. rewrite E, <- E'.
      apply in_map. exact Hin.
  - constructor; [apply filled_other; assumption|]. apply IH; assumption.
Qed.

Lemma filter_none {A} (f : A -> bool) l :
  (forall x, In x l -> f x = false) -> filter f l = [].
Proof.
  induction l as [|x l IH]; intros H; cbn [filter]; [reflexivity|].
  rewrite (H x (or_introl eq_refl)). apply IH. intros y Hy. apply H. right. exact Hy.
Qed.

Lemma place_placed m seen i : placed m seen -> placed (place m i) (seen ++ [i]).
Proof.
  intros (Hnd & Hf & Hs). unfold place.
  destruct (has (ji_statusName i) m) eqn:Hh; cbn [negb].
  - split; [rewrite push_names; exact Hnd|]. split; [apply push_filled; assumption|].
    intros j Hj. rewrite has_In, push_names, <- has_In.
    apply in_app_or in Hj as [Hj|[<-|[]]]; [apply Hs; exact Hj|exact Hh].
  - assert (Hnone : filter (inColumn (ji_statusName i)) seen = []).
    { apply filter_none. intros j Hj. unfold inColumn.
      destruct (String.eqb (ji_statusName i) (ji_statusName j)) eqn:E; [|reflexivity].
      apply String.eqb_eq in E. rewrite E, (Hs j Hj) in Hh. discriminate. }
    rewrite push_app_absent by exact Hh. cbn [push name].
    rewrite String.eqb_refl. cbn [issues key color name app].
    split; [|split].
    + rewrite map_app. cbn [List.map name].
      apply NoDup_app; [exact Hnd|repeat constructor; intros []|].
      intros x Hx [<-|[]]. apply has_In in Hx. congruence.
    + apply Forall_app. split.
      * rewrite Forall_forall in *. intros c Hc. apply filled_other; [|auto].
        destruct (String.eqb (name c) (ji_statusName i)) eqn:E; [|reflexivity].
        apply String.eqb_eq in E.
        assert (Hin : In (ji_statusName i) (List.map name m))
          by (rewrite <- E; apply in_map; exact Hc).
        apply has_In in Hin. congruence.
      * constructor; [|constructor]. split; cbn [issues name key color].
        -- rewrite filter_last, Hnone. unfold inColumn. rewrite String.eqb_refl.
           reflexivity.
        -- exists i. repeat split.
    + intros j Hj. rewrite has_app. apply in_app_or in Hj as [Hj|[<-|[]]].
      * rewrite (Hs j Hj). reflexivity.
      * unfold has at 2. cbn [existsb name]. rewrite String.eqb_refl.
        apply orb_true_iff. right. reflexivity.
Qed.

Lemma statusMap_placed issues : placed (statusMapOf issues) issues.
Proof.
  unfold statusMapOf.
  assert (G : forall m seen, placed m seen ->
                placed (fold_left place issues m) (seen ++ issues)).
  { induction issues as [|i rest IH]; intros m seen H; cbn [fold_left].
    - rewrite app_nil_r. exact H.
    - replace (seen ++ i :: rest) with ((seen ++ [i]) ++ rest)
        by (rewrite <- app_assoc; reflexivity).
      apply IH, place_placed, H. }
  apply (G [] []). split; [constructor|]. split; [constructor|]. intros i [].
Qed.

(** *** The sort *)

Lemma insert_perm c l : Permutation (insertColumn c l) (c :: l).
Proof.
  induction l as [|x l IH]; cbn [insertColumn]; [reflexivity|].
  destruct (compareColumns c x <=? 0); [reflexivity|].
  rewrite IH. apply perm_swap.
Qed.

Lemma sort_perm l : Permutation (sortColumns l) l.
Proof.
  induction l as [|c l IH]; cbn [sortColumns fold_right]; [reflexivity|].
  fold (sortColumns l). rewrite insert_perm. constructor. exact IH.
Qed.

Lemma compare_rank a b : (compareColumns a b <=? 0) = (rank a <=? rank b).
Proof.
  unfold compareColumns, rank.
  destruct (Z.leb_spec (indexOf order (key a) - indexOf order (key b)) 0),
           (Z.leb_spec (indexOf order (key a)) (indexOf order (key b)));
    try reflexivity; lia.
Qed.

Lemma insert_sorted c l :
  StronglySorted (fun a b => rank a <= rank b) l ->
  StronglySorted (fun a b => rank a <= rank b) (insertColumn c l).
Proof.
  induction 1 as [|x l Hl IH Hx]; cbn [insertColumn]; [repeat constructor|].
  rewrite compare_rank. destruct (Z.leb_spec (rank c) (rank x)) as [Hc|Hc].
  - constructor; [constructor; assumption|]. constructor; [assumption|].
    rewrite Forall_forall in *. intros y Hy. specialize (Hx y Hy). lia.
  - constructor; [exact IH|]. rewrite Forall_forall in *. intros y Hy.
    apply (Permutation_in _ (insert_perm c l)) in Hy as [<-|Hy]; [lia|auto].
Qed.

Lemma sort_sorted l : StronglySorted (fun a b => rank a <= rank b) (sortColumns l).
Proof.
  induction l as [|c l IH]; cbn [sortColumns fold_right]; [constructor|].
  apply insert_sorted, IH.
Qed.

(** The sort is stable: the columns of one rank keep their order. *)
Lemma insert_stable r c l :
  StronglySorted (fun a b => rank a <= rank b) l ->
  filter (fun x => rank x =? r) (insertColumn c l)
  = filter (fun x => rank x =? r) (c :: l).
Proof.
  induction 1 as [|x l Hl IH Hx]; cbn [insertColumn]; [reflexivity|].
  rewrite compare_rank. destruct (Z.leb_spec (rank c) (rank x)) as [Hc|Hc];
    [reflexivity|].
  cbn [filter] in *. rewrite IH.
  destruct (Z.eqb_spec (rank x) r), (Z.eqb_spec (rank c) r); try reflexivity; lia.
Qed.

Lemma sort_stable r l :
  filter (fun x => rank x =? r) (sortColumns l) = filter (fun x => rank x =? r) l.
Proof.
  induction l as [|c l IH]; cbn [sortColumns fold_right]; [reflexivity|].
  fold (sortColumns l). rewrite insert_stable by apply sort_sorted.
  cbn [filter]. rewrite IH. reflexivity.
Qed.

(** *** The order of the Map *)

Lemma place_names m i :
  List.map name (place m i)
  = List.map name m
    ++ (if existsb (String.eqb (ji_statusName i)) (List.map name m)
        then [] else [ji_statusName i]).
Proof.
  unfold place. rewrite push_names.
  assert (E : has (ji_statusName i) m
              = existsb (String.eqb (ji_statusName i)) (List.map name m)).
  { unfold has. induction m as [|c m IH]; cbn [existsb List.map]; [reflexivity|].
    rewrite IH, (String.eqb_sym (name c)). reflexivity. }
  rewrite <- E. destruct (has (ji_statusName i) m); cbn [negb].
  - rewrite app_nil_r. reflexivity.
  - rewrite map_app. reflexivity.
Qed.

Lemma statusMap_names issues :
  List.map name (statusMapOf issues) = firstSeen [] (List.map ji_statusName issues).
Proof.
  unfold statusMapOf.
  assert (G : forall m,
             List.map name (fold_left place issues m)
             = List.map name m
               ++ firstSeen (List.map name m) (List.map ji_statusName issues)).
  { induction issues as [|i rest IH]; intros m; cbn [fold_left List.map firstSeen].
    - rewrite app_nil_r. reflexivity.
    - rewrite IH, place_names.
      destruct (existsb (String.eqb (ji_statusName i)) (List.map name m)).
      + rewrite app_nil_r. reflexivity.
      + rewrite <- app_assoc. reflexivity. }
  apply (G []).
Qed.

(** Every issue is in one column, the one named after its status: the
    names of the columns are pairwise distinct, each column lists the issues
    of its status in the order of the input and is not empty, and every
    status of the input has its column. *)
Theorem columns_group_by_status issues :
  NoDup (List.map name (columns issues))
  /\ (forall c, In c (columns issues) ->
        KanbanBoard.issues c = filter (inColumn (name c)) issues
        /\ KanbanBoard.issues c <> [])
  /\ (forall i, In i issues ->
        exists c, In c (columns issues) /\ name c = ji_statusName i).
Proof.
  destruct (statusMap_placed issues) as (Hnd & Hf & Hs).
  pose proof (sort_perm (statusMapOf issues)) as P. fold (columns issues) in P.
  split; [|split].
  - apply (Permutation_NoDup (l := List.map name (statusMapOf issues)));
      [apply Permutation_map; symmetry; exact P|exact Hnd].
  - intros c Hc. apply (Permutation_in _ P) in Hc.
    rewrite Forall_forall in Hf. destruct (Hf c Hc) as [Hi (first & Hh & _)].
    split; [exact Hi|]. intros E. rewrite E in Hh. discriminate.
  - intros i Hi. specialize (Hs i Hi). apply has_In, in_map_iff in Hs as (c & E & Hc).
    exists c. split; [|exact E]. apply (Permutation_in _ (Permutation_sym P)). exact Hc.
Qed.

(** The columns come in the order To Do, In Progress, Done of their
    categories, a column of any other category before them all; the
    columns of one category stay in the order in which their statuses first
    appear among the issues; and the category and the colour of a column are
    those of the first issue that has its status. *)
Theorem columns_in_category_order issues :
  StronglySorted (fun a b => rank a <= rank b) (columns issues)
  /\ (forall c, rank c = if String.eqb (key c) "new" then 0
                         else if String.eqb (key c) "indeterminate" then 1
                         else if String.eqb (key c) "done" then 2
                         else -1)
  /\ (forall r, filter (fun c => rank c =? r) (columns issues)
                = filter (fun c => rank c =? r) (statusMapOf issues))
  /\ List.map name (statusMapOf issues)
     = firstSeen [] (List.map ji_statusName issues)
  /\ (forall c, In c (columns issues) ->
        exists first, hd_error (KanbanBoard.issues c) = Some first
                      /\ key c = columnKey first
                      /\ color c = statusColor (columnKey first)).
Proof.
  split; [apply sort_sorted|]. split.
  - intros c. unfold rank, indexOf, order. cbn [indexFrom].
    rewrite !(String.eqb_sym (key c)).
    destruct (String.eqb "new" (key c)); [reflexivity|].
    destruct (String.eqb "indeterminate" (key c)); [reflexivity|].
    destruct (String.eqb "done" (key c)); reflexivity.
  - split; [intros r; apply sort_stable|]. split; [apply statusMap_names|].
    intros c Hc. destruct (statusMap_placed issues) as (_ & Hf & _).
    apply (Permutation_in _ (sort_perm (statusMapOf issues))) in Hc.
    rewrite Forall_forall in Hf. destruct (Hf c Hc) as [_ (first & Hh & Hk & Hcol)].
    exists first. rewrite <- Hk. auto.
Qed.

End BoardFacts.

(* ------------------------------------------------------------------ *)
(** ** The project list, the stars and the side panels *)

Module ShellFacts.

Import App.
Local Open Scope string_scope.
Local Open Scope Z_scope.
Local Open Scope list_scope.

(** Whether the search text selects a project. *)
Definition found (toLowerCase : string -> string) (projectSearch : string)
    (p : Project) : bool :=
  includes (toLowerCase (name p)) (toLowerCase projectSearch)
  || includes (toLowerCase (key p)) (toLowerCase projectSearch).

Lemma filter_split {A} (f : A -> bool) l :
  Permutation (filter f l ++ filter (fun x => negb (f x)) l) l.
Proof.
  induction l as [|x l IH]; cbn [filter]; [reflexivity|].
  destruct (f x); cbn [negb app].
  - constructor. exact IH.
  - rewrite <- Permutation_middle. constructor. exact IH.
Qed.

Lemma filter_filter {A} (f g : A -> bool) l :
  filter f (filter g l) = filter (fun x => g x && f x) l.
Proof.
  induction l as [|x l IH]; cbn [filter]; [reflexivity|].
  destruct (g x); cbn [filter andb]; rewrite IH; reflexivity.
Qed.

Lemma filter_all {A} (f : A -> bool) l :
  (forall x, In x l -> f x = true) -> filter f l = l.
Proof.
  induction l as [|x l IH]; intros H; cbn [filter]; [reflexivity|].
  rewrite (H x (or_introl eq_refl)). f_equal. apply IH. intros y Hy. apply H.
  right. exact Hy.
Qed.

Lemma filter_nothing {A} (f : A -> bool) l :
  (forall x, In x l -> f x = false) -> filter f l = [].
Proof.
  induction l as [|x l IH]; intros H; cbn [filter]; [reflexivity|].
  rewrite (H x (or_introl eq_refl)). apply IH. intros y Hy. apply H. right. exact Hy.
Qed.

Lemma includes_empty s : includes s "" = true.
Proof. destruct s; reflexivity. Qed.

Lemma stable_partition {A} (st : A -> bool) filtered :
  let shown := filter st filtered ++ filter (fun p => negb (st p)) filtered in
  Permutation shown filtered
  /\ shown = filter st shown ++ filter (fun p => negb (st p)) shown
  /\ filter st shown = filter st filtered
  /\ filter (fun p => negb (st p)) shown = filter (fun p => negb (st p)) filtered.
Proof.
  cbv zeta.
  assert (E1 : filter st (filter st filtered ++ filter (fun p => negb (st p)) filtered)
               = filter st filtered).
  { rewrite filter_app, !filter_filter.
    rewrite (filter_nothing (fun x => negb (st x) && st x))
      by (intros x _; destruct (st x); reflexivity).
    rewrite app_nil_r. apply filter_ext. intros x. destruct (st x); reflexivity. }
  assert (E2 : filter (fun p => negb (st p))
                 (filter st filtered ++ filter (fun p => negb (st p)) filtered)
               = filter (fun p => negb (st p)) filtered).
  { rewrite filter_app, !filter_filter.
    rewrite (filter_nothing (fun x => st x && negb (st x)))
      by (intros x _; destruct (st x); reflexivity).
    cbn [app]. apply filter_ext. intros x. destruct (st x); reflexivity. }
  split; [apply filter_split|]. split; [rewrite E1, E2; reflexivity|].
  split; [exact E1|exact E2].
Qed.

(** The list of the dropdown holds the projects that the search selects,
    each once: the starred ones first, then the others, both in the order
    of the project list.  With an empty search no project is left out. *)
Theorem sortedProjects_partition toLowerCase projects starredProjects projectSearch :
  let shown := sortedProjects toLowerCase projects starredProjects projectSearch in
  Permutation shown (filter (found toLowerCase projectSearch) projects)
  /\ shown
     = filter (fun p => isStarred starredProjects (key p)) shown
       ++ filter (fun p => negb (isStarred starredProjects (key p))) shown
  /\ filter (fun p => isStarred starredProjects (key p)) shown
     = filter (fun p => isStarred starredProjects (key p))
         (filter (found toLowerCase projectSearch) projects)
  /\ filter (fun p => negb (isStarred starredProjects (key p))) shown
     = filter (fun p => negb (isStarred starredProjects (key p)))
         (filter (found toLowerCase projectSearch) projects)
  /\ (toLowerCase "" = "" ->
      Permutation (sortedProjects toLowerCase projects starredProjects "") projects).
Proof.
  cbv zeta.
  destruct (stable_partition (fun p => isStarred starredProjects (key p))
              (filter (found toLowerCase projectSearch) projects))
    as (H1 & H2 & H3 & H4).
  split; [exact H1|]. split; [exact H2|]. split; [exact H3|]. split; [exact H4|].
  intros H0.
  destruct (stable_partition (fun p => isStarred starredProjects (key p))
              (filter (found toLowerCase "") projects)) as (P & _).
  rewrite (filter_all (found toLowerCase "")) in P at 3
    by (intros x _; unfold found; rewrite H0, includes_empty; reflexivity).
  exact P.
Qed.

Lemma sortedProjects_split toLowerCase projects starredProjects projectSearch :
  let shown := sortedProjects toLowerCase projects starredProjects projectSearch in
  shown
  = filter (fun p => isStarred starredProjects (key p)) shown
    ++ filter (fun p => negb (isStarred starredProjects (key p))) shown.
Proof.
  cbv zeta.
  destruct (stable_partition (fun p => isStarred starredProjects (key p))
              (filter (found toLowerCase projectSearch) projects))
    as (_ & H2 & _).
  exact H2.
Qed.

(** *** The headings of the dropdown *)

Lemma nth_error_starred starredProjects (a b : list Project) idx p :
  Forall (fun p => isStarred starredProjects (key p) = true) a ->
  Forall (fun p => isStarred starredProjects (key p) = false) b ->
  nth_error (a ++ b) idx = Some p ->
  isStarred starredProjects (key p) = (idx <? List.length a)%nat.
Proof.
  intros Ha Hb H. destruct (Nat.ltb_spec idx (List.length a)) as [L|L].
  - rewrite nth_error_app1 in H by exact L.
    rewrite Forall_forall in Ha. apply Ha. apply nth_error_In in H. exact H.
  - rewrite nth_error_app2 in H by exact L.
    rewrite Forall_forall in Hb. apply Hb. apply nth_error_In in H. exact H.
Qed.

Lemma filter_Forall {A} (f : A -> bool) l : Forall (fun x => f x = true) (filter f l).
Proof. rewrite Forall_forall. intros x Hx. apply filter_In in Hx. tauto. Qed.

(** The 'Other Projects' heading is drawn at most once, above the first
    project that is not starred and only when a starred one precedes it;
    and whenever it is drawn the 'Starred' heading is drawn too. *)
Theorem one_divider toLowerCase projects starredProjects projectSearch :
  let shown := sortedProjects toLowerCase projects starredProjects projectSearch in
  let starred := filter (fun p => isStarred starredProjects (key p)) shown in
  (forall idx, showDivider shown starredProjects idx = true ->
     idx = List.length starred /\ (0 < idx < List.length shown)%nat
     /\ starredHeading shown starredProjects = true)
  /\ (List.length (filter (showDivider shown starredProjects)
                     (seq 0 (List.length shown))) <= 1)%nat.
Proof.
  cbv zeta.
  pose proof (sortedProjects_split toLowerCase projects starredProjects projectSearch)
    as Hsplit.
  cbv zeta in Hsplit.
  set (shown := sortedProjects toLowerCase projects starredProjects projectSearch) in *.
  set (a := filter (fun p => isStarred starredProjects (key p)) shown) in *.
  set (b := filter (fun p => negb (isStarred starredProjects (key p))) shown) in *.
  assert (Ha : Forall (fun p => isStarred starredProjects (key p) = true) a)
    by apply filter_Forall.
  assert (Hb : Forall (fun p => isStarred starredProjects (key p) = false) b).
  { rewrite Forall_forall. intros x Hx. apply filter_In in Hx as [_ Hx].
    destruct (isStarred starredProjects (key x)); [discriminate|reflexivity]. }
  assert (D : forall idx, showDivider shown starredProjects idx = true ->
                idx = List.length a /\ (0 < idx < List.length shown)%nat
                /\ starredHeading shown starredProjects = true).
  { intros idx. unfold showDivider. destruct idx as [|before]; [discriminate|].
    destruct (nth_error shown (S before)) as [p|] eqn:Ep; [|discriminate].
    destruct (nth_error shown before) as [q|] eqn:Eq; [|discriminate].
    intros H. apply andb_true_iff in H as [Hq Hp].
    pose proof Ep as Ep'. pose proof Eq as Eq'.
    rewrite Hsplit in Ep', Eq'.
    pose proof Hq as Hqs.
    rewrite (nth_error_starred _ _ _ _ _ Ha Hb Ep') in Hp.
    rewrite (nth_error_starred _ _ _ _ _ Ha Hb Eq') in Hq.
    apply Nat.ltb_lt in Hq. apply negb_true_iff, Nat.ltb_ge in Hp.
    split; [lia|]. split.
    - split; [lia|]. apply nth_error_Some. rewrite Ep. discriminate.
    - unfold starredHeading. apply andb_true_iff. split.
      + apply Z.ltb_lt. destruct starredProjects; [discriminate|cbn [List.length]; lia].
      + apply existsb_exists. exists q. split; [|exact Hqs].
        eapply nth_error_In; eassumption. }
  split; [exact D|].
  assert (S : forall l,
             (forall idx, In idx l -> showDivider shown starredProjects idx = true ->
                          idx = List.length a) ->
             NoDup l ->
             (List.length (filter (showDivider shown starredProjects) l) <= 1)%nat).
  { induction l as [|x l IH]; intros Hl Hnd; cbn [filter List.length]; [lia|].
    inversion Hnd as [|? ? Hx Hnd']. subst.
    destruct (showDivider shown starredProjects x) eqn:Ex.
    - rewrite (filter_nothing (showDivider shown starredProjects) l); [cbn; lia|].
      intros y Hy. destruct (showDivider shown starredProjects y) eqn:Ey; [|reflexivity].
      exfalso. apply Hx.
      rewrite (Hl x (or_introl eq_refl) Ex), <- (Hl y (or_intror Hy) Ey). exact Hy.
    - apply IH; [|exact Hnd']. intros idx Hin. apply Hl. right. exact Hin. }
  apply S; [|apply seq_NoDup]. intros idx _ H. apply (D idx H).
Qed.

(** *** Stars *)

Lemma isStarred_In starredProjects k :
  isStarred starredProjects k = true <-> In k starredProjects.
Proof.
  unfold isStarred. rewrite existsb_exists. split.
  - intros (x & Hx & E). apply String.eqb_eq in E. subst. exact Hx.
  - intros H. exists k. split; [exact H|apply String.eqb_refl].
Qed.

(** Clicking the star of a project flips whether it is starred and leaves
    every other project as it was; no key is ever listed twice; and starring
    then unstarring a project gives back the list one started with. *)
Theorem toggleStar_flips projectKey prev :
  isStarred (toggleStar projectKey prev) projectKey = negb (isStarred prev projectKey)
  /\ (forall k, k <> projectKey ->
        isStarred (toggleStar projectKey prev) k = isStarred prev k)
  /\ (NoDup prev -> NoDup (toggleStar projectKey prev))
  /\ (isStarred prev projectKey = false ->
      toggleStar projectKey (toggleStar projectKey prev) = prev).
Proof.
  assert (M : forall k, In k (toggleStar projectKey prev)
                        <-> (if isStarred prev projectKey
                             then In k prev /\ k <> projectKey
                             else In k prev \/ k = projectKey)).
  { intros k. unfold toggleStar. destruct (isStarred prev projectKey).
    - rewrite filter_In, negb_true_iff, String.eqb_neq. tauto.
    - rewrite in_app_iff. cbn [In]. intuition congruence. }
  split; [|split; [|split]].
  - destruct (isStarred prev projectKey) eqn:E; cbn [negb].
    + apply not_true_is_false. rewrite isStarred_In, M. tauto.
    + apply isStarred_In, M. right. reflexivity.
  - intros k Hk.
    destruct (isStarred prev k) eqn:E.
    + apply isStarred_In. apply isStarred_In in E. apply M.
      destruct (isStarred prev projectKey); tauto.
    + apply not_true_is_false. rewrite isStarred_In, M. intros H.
      assert (In k prev) by (destruct (isStarred prev projectKey); tauto).
      apply isStarred_In in H0. congruence.
  - intros Hnd. unfold toggleStar. destruct (isStarred prev projectKey) eqn:E.
    + apply NoDup_filter. exact Hnd.
    + apply NoDup_app; [exact Hnd|repeat constructor; intros []|].
      intros x Hx [<-|[]]. apply isStarred_In in Hx. congruence.
  - intros E. unfold toggleStar at 2. rewrite E. unfold toggleStar.
    assert (E' : isStarred (prev ++ [projectKey]) projectKey = true)
      by (apply isStarred_In, in_app_iff; right; left; reflexivity).
    rewrite E'. rewrite filter_app. cbn [filter]. rewrite String.eqb_refl. cbn [negb].
    rewrite app_nil_r. apply filter_all. intros x Hx. apply negb_true_iff.
    apply String.eqb_neq. intros ->. apply isStarred_In in Hx. congruence.
Qed.

(** *** Side panels *)

(** Whatever is clicked, in whatever order, the timesheet and the worklog
    summary are never both switched on, at most one side panel is rendered,
    and an open issue takes the place of both. *)
Theorem one_side_panel actions :
  let s := fold_left update actions initialPanels in
  showTimesheet s && showWorklogSummary s = false
  /\ (List.length (rendered s) <= 1)%nat
  /\ (forall k, selectedIssue s = Some k -> rendered s = [DetailPanel k]).
Proof.
  cbv zeta.
  assert (I : forall s, showTimesheet s && showWorklogSummary s = false ->
                showTimesheet (fold_left update actions s)
                && showWorklogSummary (fold_left update actions s) = false).
  { induction actions as [|a rest IH]; intros s H; cbn [fold_left]; [exact H|].
    apply IH. destruct a; cbn [update showTimesheet showWorklogSummary];
      destruct (showTimesheet s), (showWorklogSummary s); try reflexivity;
      discriminate. }
  specialize (I initialPanels eq_refl).
  set (s := fold_left update actions initialPanels) in *.
  split; [exact I|]. unfold rendered.
  destruct (showTimesheet s), (showWorklogSummary s), (selectedIssue s);
    try discriminate; cbn; split; try lia; intros k H; inversion H; reflexivity.
Qed.

End ShellFacts.

(* ------------------------------------------------------------------ *)
(** ** The query of the issue search *)

Module SearchFacts.

Import IssueSearch StringFacts.
Local Open Scope N_scope.
Local Open Scope list_scope.

(** Whether the text holds [ ORDER BY], in any letter case, somewhere. *)
Fixpoint hasOrderBy (s : jsstring) : bool :=
  match literal (lit " ORDER BY") s with
  | Some _ => true
  | None => match s with
            | _ :: rest => hasOrderBy rest
            | [] => false
            end
  end.

Definition oneLine (s : jsstring) : Prop :=
  forallb (fun c => negb (isLineTerminator c)) s = true.

Lemma literal_app pattern s rest tail :
  literal pattern s = Some rest -> literal pattern (s ++ tail) = Some (rest ++ tail).
Proof.
  revert s. induction pattern as [|p pattern IH]; intros s; cbn [literal].
  - intros H. inversion H. reflexivity.
  - destruct s as [|c s]; [discriminate|]. cbn [List.app].
    destruct (canonicalize c =? canonicalize p); [apply IH|discriminate].
Qed.

Lemma literal_suffix pattern s rest :
  literal pattern s = Some rest -> exists front, s = front ++ rest.
Proof.
  revert s. induction pattern as [|p pattern IH]; intros s; cbn [literal].
  - intros H. inversion H. exists []. reflexivity.
  - destruct s as [|c s]; [discriminate|].
    destruct (canonicalize c =? canonicalize p); [|discriminate].
    intros H. destruct (IH s H) as [front ->]. exists (c :: front). reflexivity.
Qed.

Lemma oneLine_app a b : oneLine (a ++ b) <-> oneLine a /\ oneLine b.
Proof. unfold oneLine. rewrite forallb_app, andb_true_iff. tauto. Qed.

Lemma oneLine_tail c s : oneLine (c :: s) -> oneLine s.
Proof. unfold oneLine. cbn [forallb]. rewrite andb_true_iff. tauto. Qed.

(** The query is cut at its first [ ORDER BY] when it is on one line. *)
Lemma strip_spec s :
  exists tail,
    s = stripOrderBy s ++ tail
    /\ (tail <> [] -> orderByAt tail = true)
    /\ (oneLine s -> hasOrderBy (stripOrderBy s) = false)
    /\ (hasOrderBy s = false -> tail = []).
Proof.
  induction s as [|c s IH].
  - exists []. cbn. repeat split; try reflexivity. intros H. contradiction.
  - cbn [stripOrderBy]. destruct (orderByAt (c :: s)) eqn:E.
    + exists (c :: s). cbn [List.app]. split; [reflexivity|]. split; [auto|].
      split; [reflexivity|]. intros H. cbn [hasOrderBy] in H.
      unfold orderByAt in E. destruct (literal (lit " ORDER BY") (c :: s)); discriminate.
    + destruct IH as (tail & Hs & Ht & Hn & He). exists tail.
      split; [cbn [List.app]; rewrite <- Hs; reflexivity|]. split; [exact Ht|]. split.
      * intros Hl. cbn [hasOrderBy].
        destruct (literal (lit " ORDER BY") (c :: stripOrderBy s)) as [rest|] eqn:L.
        -- exfalso. apply (literal_app _ _ _ tail) in L.
           cbn [List.app] in L. rewrite <- Hs in L.
           unfold orderByAt in E. rewrite L in E.
           destruct (literal_suffix _ _ _ L) as [front Hf].
           rewrite Hf in Hl. apply oneLine_app in Hl as [_ Hl].
           unfold oneLine in Hl. congruence.
        -- apply Hn. apply oneLine_tail in Hl. exact Hl.
      * intros H. apply He. cbn [hasOrderBy] in H.
        destruct (literal (lit " ORDER BY") (c :: s)); [discriminate|exact H].
Qed.

(** What [fetchIssues] searches for when a project is selected.  The
    user's query is put between the project clause and a fresh ordering;
    it is cut at its first [ ORDER BY], in any letter case, whenever what
    follows holds no line break, so that of a one-line query no ordering
    is left; and a query without [ ORDER BY] is put there whole. *)
Theorem project_query jqlOverride customJql selectedProject :
  selectedProject <> [] ->
  exists jql kept,
    jql = match jqlOverride with
          | Some (c :: j) => c :: j
          | _ => customJql
          end
    /\ searchedJql jqlOverride customJql selectedProject
       = lit "project = " ++ quote :: selectedProject ++ quote :: lit " AND ("
         ++ kept ++ lit ") ORDER BY updated DESC"
    /\ (exists cut, jql = kept ++ cut /\ (cut <> [] -> orderByAt cut = true))
    /\ (oneLine jql -> hasOrderBy kept = false)
    /\ (hasOrderBy jql = false -> kept = jql).
Proof.
  intros Hp. unfold searchedJql.
  set (jql := match jqlOverride with
              | Some (c :: j) => c :: j
              | _ => customJql
              end).
  exists jql, (stripOrderBy jql). split; [reflexivity|].
  destruct selectedProject as [|c p]; [contradiction|]. split; [reflexivity|].
  destruct (strip_spec jql) as (cut & Hs & Hc & Hn & He).
  split; [exists cut; auto|]. split; [exact Hn|].
  intros H. rewrite (He H), app_nil_r in Hs. symmetry. exact Hs.
Qed.

Lemma project_query_witness :
  exists jql kept,
    jql = lit "assignee = currentUser() order by updated DESC"
    /\ searchedJql None (lit "assignee = currentUser() order by updated DESC")
         (lit "JT")
       = lit "project = " ++ quote :: lit "JT" ++ quote :: lit " AND ("
         ++ kept ++ lit ") ORDER BY updated DESC"
    /\ (exists cut, jql = kept ++ cut /\ (cut <> [] -> orderByAt cut = true))
    /\ (oneLine jql -> hasOrderBy kept = false)
    /\ (hasOrderBy jql = false -> kept = jql).
Proof.
  apply (project_query None (lit "assignee = currentUser() order by updated DESC")
           (lit "JT")).
  discriminate.
Defined.

End SearchFacts.

(* ------------------------------------------------------------------ *)
(** ** The dates that the timesheet shows *)

Module ShownDates.

Import DateFacts ClockFacts Server DailyFacts BucketFacts TimesheetDates.
Local Open Scope string_scope.
Local Open Scope Z_scope.
Local Open Scope list_scope.

(** Day and month of a civil date, as [formatDate] prints them. *)
Definition dayMonth (date : Z * Z * Z) : string :=
  let '(_, m, d) := date in showZ d ++ "/" ++ showZ (m + 1).

Lemma parse_of_iso t : parseDateOnly (toISODate t) = MakeDate (Day t) 0.
Proof.
  unfold parseDateOnly, toISODate.
  pose proof (civil_days (Day t)) as H.
  destruct (civilFromDays (Day t)) as [[y m] d]. destruct H as (Hd & Hm & _).
  replace (m + 1 - 1) with m by lia.
  rewrite MakeDay_in_year by exact Hm.
  pose proof (daysFromCivil_shift y m 1 (d - 1)) as S.
  replace (1 + (d - 1)) with d in S by lia. f_equal. lia.
Qed.

Lemma formatDate_local tz t :
  formatDate tz (toISODate t)
  = dayMonth (civilFromDays (Day (MakeDate (Day t) 0 + tz))).
Proof.
  unfold formatDate. rewrite parse_of_iso.
  unfold getDate, getMonth, DateFromTime, MonthFromTime, LocalTime, dayMonth.
  destruct (civilFromDays (Day (MakeDate (Day t) 0 + tz))) as [[y m] d].
  reflexivity.
Qed.

Lemma Day_of_midnight D tz :
  Day (MakeDate D 0 + tz) = D + tz / msPerDay.
Proof.
  unfold Day, MakeDate, msPerDay.
  replace (D * 86400000 + 0 + tz) with (tz + D * 86400000) by lia.
  rewrite Z.div_add by lia. lia.
Qed.

(** The date text of an instant, as the server sends it, read back by
    [formatDate]: at or east of Greenwich (an offset from 0 up to a day) the
    view shows day and month of that UTC date; west of Greenwich it shows
    the day before. *)
Theorem formatDate_of_utc_date tz t :
  (0 <= tz < msPerDay ->
   formatDate tz (toISODate t) = dayMonth (civilFromDays (Day t)))
  /\ (- msPerDay <= tz < 0 ->
      formatDate tz (toISODate t) = dayMonth (civilFromDays (Day t - 1))).
Proof.
  split; intros H; rewrite formatDate_local, Day_of_midnight; do 2 f_equal.
  - rewrite Z.div_small by lia. lia.
  - replace (tz / msPerDay) with (-1); [lia|].
    unfold msPerDay in *. Z.div_mod_to_equations. lia.
Qed.

(** Dates and names of the seven buckets of a response. *)
Lemma daily_labels up tz now tr r :
  getWorklogsDaily up tz now = (tr, json (DailyBody r)) ->
  weekStart r = toISODate (weekStartDate tz now)
  /\ weekEnd r = toISODate (weekEndDate tz now)
  /\ List.map (fun d => (b_date (d_day d), b_dayName (d_day d))) (dailyData r)
     = List.map
         (fun i => (toISODate (weekStartDate tz now + i * msPerDay),
                    nth (Z.to_nat i) weekDayNames ""))
         [0; 1; 2; 3; 4; 5; 6].
Proof.
  unfold getWorklogsDaily, route, request.
  destruct (up_myself up) as [user|err]; cbn [bind]; [|intros H; inversion H].
  destruct (up_worklogIssues up _) as [issues|err]; cbn [bind]; [|intros H; inversion H].
  destruct (dailyLoop_filed up (accountId user) (weekStartDate tz now)
              (weekEndDate tz now) issues
              (initDailyTotals tz (weekStartDate tz now)) 0 []
              (init_distinct tz (weekStartDate tz now))
              (init_filed tz (weekStartDate tz now)))
    as (tr' & st' & El & _ & Lb).
  rewrite El. cbn [bind ret app]. intros H. inversion H; subst. clear H.
  destruct st' as [d' t']. cbn [fst dailyReport dailyData weekStart weekEnd] in *.
  split; [reflexivity|]. split; [reflexivity|].
  rewrite List.map_map. cbn [toDailyData d_day].
  transitivity (List.map (fun x : isoDate * isoDate * string => (snd (fst x), snd x))
                  (labels d')).
  { unfold labels, dictValues. rewrite !List.map_map. reflexivity. }
  rewrite Lb, initDailyTotals_spec. unfold labels, emptyDay.
  rewrite !List.map_map. cbn [fst snd b_date b_dayName List.map].
  rewrite !dayName_of_week by lia. reflexivity.
Qed.

Lemma Day_weekStart tz now :
  - msPerDay < tz < msPerDay ->
  Day (weekStartDate tz now)
  = mondayOf (localDay tz now) - (if 0 <? tz then 1 else 0).
Proof.
  intros H. rewrite weekStart_local.
  unfold Day, MakeDate, msPerDay in *.
  destruct (Z.ltb_spec 0 tz); Z.div_mod_to_equations; lia.
Qed.

Lemma Day_weekEnd tz now :
  - msPerDay < tz < msPerDay ->
  Day (weekEndDate tz now)
  = mondayOf (localDay tz now) + 6 + (if tz <? 0 then 1 else 0).
Proof.
  intros H. rewrite weekEnd_local.
  unfold Day, MakeDate, endOfDayTime, MakeTime, msPerDay in *.
  destruct (Z.ltb_spec tz 0); Z.div_mod_to_equations; lia.
Qed.

Lemma Day_shift t i : Day (t + i * msPerDay) = Day t + i.
Proof. unfold Day, msPerDay. rewrite Z.div_add by lia. reflexivity. Qed.

Lemma formatDate_shift tz t :
  - msPerDay < tz < msPerDay ->
  formatDate tz (toISODate t)
  = dayMonth (civilFromDays (Day t - (if tz <? 0 then 1 else 0))).
Proof.
  intros H. rewrite formatDate_local, Day_of_midnight. do 2 f_equal.
  destruct (Z.ltb_spec tz 0).
  - replace (tz / msPerDay) with (-1); [lia|].
    unfold msPerDay in *. Z.div_mod_to_equations. lia.
  - rewrite Z.div_small by lia. lia.
Qed.

(** The timesheet as it is shown where the browser and the server keep the
    same clock, at a constant offset of less than a day from UTC.  The week
    header ends on the Sunday of the week, but it starts on its Monday only
    when the clock is on UTC; at any other offset it starts on the Sunday
    before, and every day card, named Lunes to Domingo, carries the date of
    the day before its own. *)
Theorem timesheet_dates_shown up tz now tr r :
  getWorklogsDaily up tz now = (tr, json (DailyBody r)) ->
  - msPerDay < tz < msPerDay ->
  formatDate tz (weekStart r)
  = dayMonth (civilFromDays (mondayOf (localDay tz now) - (if tz =? 0 then 0 else 1)))
  /\ formatDate tz (weekEnd r)
     = dayMonth (civilFromDays (mondayOf (localDay tz now) + 6))
  /\ List.map (fun d => (b_dayName (d_day d), formatDate tz (b_date (d_day d))))
       (dailyData r)
     = List.map
         (fun i =>
            (nth (Z.to_nat i) weekDayNames "",
             dayMonth (civilFromDays
                         (mondayOf (localDay tz now) + i
                          - (if tz =? 0 then 0 else 1)))))
         [0; 1; 2; 3; 4; 5; 6].
Proof.
  intros Hr Htz. destruct (daily_labels up tz now tr r Hr) as (Hs & He & Hl).
  assert (B : forall i,
             formatDate tz (toISODate (weekStartDate tz now + i * msPerDay))
             = dayMonth (civilFromDays
                           (mondayOf (localDay tz now) + i
                            - (if tz =? 0 then 0 else 1)))).
  { intros i. rewrite formatDate_shift, Day_shift, Day_weekStart by exact Htz.
    do 2 f_equal.
    destruct (Z.ltb_spec 0 tz), (Z.ltb_spec tz 0), (Z.eqb_spec tz 0); lia. }
  split; [|split].
  - rewrite Hs. specialize (B 0).
    replace (weekStartDate tz now + 0 * msPerDay) with (weekStartDate tz now) in B by lia.
    rewrite B. do 2 f_equal. lia.
  - rewrite He, formatDate_shift, Day_weekEnd by exact Htz. do 2 f_equal.
    destruct (Z.ltb_spec tz 0); lia.
  - transitivity
      (List.map (fun x : isoDate * string => (snd x, formatDate tz (fst x)))
         (List.map (fun d => (b_date (d_day d), b_dayName (d_day d))) (dailyData r))).
    { rewrite List.map_map. reflexivity. }
    rewrite Hl, List.map_map. cbn [List.map fst snd]. rewrite !B. reflexivity.
Qed.

Lemma timesheet_dates_shown_witness :
  formatDate Scenario.tzWest
    (weekStart (Scenario.reportOf Scenario.longWednesdayOutcome))
  = dayMonth (civilFromDays
                (mondayOf (localDay Scenario.tzWest Scenario.wednesdayNoonWest)
                 - (if Scenario.tzWest =? 0 then 0 else 1)))
  /\ formatDate Scenario.tzWest
       (weekEnd (Scenario.reportOf Scenario.longWednesdayOutcome))
     = dayMonth (civilFromDays
                   (mondayOf (localDay Scenario.tzWest Scenario.wednesdayNoonWest) + 6))
  /\ List.map (fun d => (b_dayName (d_day d),
                         formatDate Scenario.tzWest (b_date (d_day d))))
       (dailyData (Scenario.reportOf Scenario.longWednesdayOutcome))
     = List.map
         (fun i =>
            (nth (Z.to_nat i) weekDayNames "",
             dayMonth (civilFromDays
                         (mondayOf (localDay Scenario.tzWest Scenario.wednesdayNoonWest)
                          + i - (if Scenario.tzWest =? 0 then 0 else 1)))))
         [0; 1; 2; 3; 4; 5; 6].
Proof.
  apply (timesheet_dates_shown Scenario.longWednesday Scenario.tzWest
           Scenario.wednesdayNoonWest (fst Scenario.longWednesdayOutcome)).
  - vm_compute. reflexivity.
  - vm_compute. split; reflexivity.
Defined.

Lemma isToday_day now t i :
  isToday now (toISODate (t + i * msPerDay)) = (Day t + i =? Day now).
Proof.
  unfold isToday. destruct (Z.eqb_spec (Day t + i) (Day now)) as [E|E].
  - apply isoDate_eqb_eq. unfold toISODate. rewrite Day_shift, E. reflexivity.
  - destruct (isoDate_eqb _ _) eqn:B; [|reflexivity].
    apply isoDate_eqb_eq, toISODate_injective in B. rewrite Day_shift in B.
    contradiction.
Qed.

Lemma filter_map_length {A B} (f : B -> bool) (g : A -> B) l :
  List.length (filter (fun x => f (g x)) l) = List.length (filter f (List.map g l)).
Proof.
  induction l as [|x l IH]; cbn [filter List.map]; [reflexivity|].
  destruct (f (g x)); cbn [List.length]; rewrite IH; reflexivity.
Qed.

(** Of the seven day cards of a response at most one is marked as today,
    whatever the clock of the browser says; and where the server's clock is
    on UTC and the browser reads the same instant, exactly one is. *)
Theorem at_most_one_today up tz now tr r :
  getWorklogsDaily up tz now = (tr, json (DailyBody r)) ->
  (forall clientNow,
      (List.length (filter (fun d => isToday clientNow (b_date (d_day d)))
                      (dailyData r)) <= 1)%nat)
  /\ (tz = 0 ->
      List.length (filter (fun d => isToday now (b_date (d_day d))) (dailyData r))
      = 1%nat).
Proof.
  intros Hr. destruct (daily_labels up tz now tr r Hr) as (_ & _ & Hl).
  assert (Hd : List.map (fun d => b_date (d_day d)) (dailyData r)
               = List.map (fun i => toISODate (weekStartDate tz now + i * msPerDay))
                   [0; 1; 2; 3; 4; 5; 6]).
  { transitivity (List.map fst
      (List.map (fun d => (b_date (d_day d), b_dayName (d_day d))) (dailyData r))).
    - rewrite List.map_map. reflexivity.
    - rewrite Hl, List.map_map. reflexivity. }
  assert (F : forall c,
             List.length (filter (fun d => isToday c (b_date (d_day d))) (dailyData r))
             = List.length
                 (filter (fun i => Day (weekStartDate tz now) + i =? Day c)
                    [0; 1; 2; 3; 4; 5; 6])).
  { intros c.
    rewrite (filter_map_length (isToday c) (fun d => b_date (d_day d))), Hd.
    rewrite <- (filter_map_length (isToday c)).
    f_equal. apply filter_ext. intros i. apply isToday_day. }
  split.
  - intros c. rewrite F. cbn [filter].
    repeat match goal with
           | |- context [?a =? ?b] => destruct (Z.eqb_spec a b)
           end; cbn [List.length]; lia.
  - intros ->. rewrite F.
    assert (Hw : Day (weekStartDate 0 now) = mondayOf (localDay 0 now)).
    { rewrite weekStart_local, Z.sub_0_r. apply Day_MakeDate. unfold msPerDay. lia. }
    rewrite Hw. destruct (mondayOf_spec (localDay 0 now)) as [_ Hb].
    replace (Day now) with (localDay 0 now)
      by (unfold localDay, LocalTime; rewrite Z.add_0_r; reflexivity).
    cbn [filter].
    repeat match goal with
           | |- context [?a =? ?b] => destruct (Z.eqb_spec a b)
           end; cbn [List.length]; lia.
Qed.

Lemma at_most_one_today_witness :
  (forall clientNow,
      (List.length
         (filter (fun d => isToday clientNow (b_date (d_day d)))
            (dailyData (Scenario.reportOf Scenario.longWednesdayOutcome))) <= 1)%nat)
  /\ (Scenario.tzWest = 0 ->
      List.length
        (filter (fun d => isToday Scenario.wednesdayNoonWest (b_date (d_day d)))
           (dailyData (Scenario.reportOf Scenario.longWednesdayOutcome)))
      = 1%nat).
Proof.
  apply (at_most_one_today Scenario.longWednesday Scenario.tzWest
           Scenario.wednesdayNoonWest (fst Scenario.longWednesdayOutcome)).
  vm_compute. reflexivity.
Defined.

End ShownDates.

(* ------------------------------------------------------------------ *)
(** ** The colours of the progress bars *)

Module BarColours.

Import JsDouble DoubleFacts Server WeeklyTimesheet ProgressClaims.
Local Open Scope Z_scope.

Lemma Qfloor_at_least x k : (inject_Z k <= x)%Q -> k <= Qfloor x.
Proof.
  intros H. pose proof (Qlt_floor x) as F.
  rewrite inject_Z_plus in F. change (inject_Z 1) with 1%Q in F.
  assert (A : (inject_Z k < inject_Z (Qfloor x) + 1)%Q) by lra.
  change 1%Q with (inject_Z 1) in A. rewrite <- inject_Z_plus, <- Zlt_Qlt in A. lia.
Qed.

Lemma Qfloor_at_most x k : (x < inject_Z k + 1)%Q -> Qfloor x <= k.
Proof.
  intros H. pose proof (Qfloor_le x) as F.
  assert (A : (inject_Z (Qfloor x) < inject_Z k + 1)%Q) by lra.
  change 1%Q with (inject_Z 1) in A. rewrite <- inject_Z_plus, <- Zlt_Qlt in A. lia.
Qed.

(** The three roundings of [percentOf] against one side of a half. *)
Ltac percent_side G lemma :=
  match goal with
  | Hnz : ?t <> 0, Hlo : 0 <= ?t, Hhi : ?t < 8796093022208 |- _ =>
      unfold fdiv, fmul, MathRound;
      assert (Hn : (1 <= inject_Z t)%Q)
        by (change 1%Q with (inject_Z 1); rewrite <- Zle_Qle; lia);
      rewrite Zlt_Qlt in Hhi;
      repeat match goal with
             | H : (_ <= _)%Z |- _ => rewrite Zle_Qle in H
             end;
      repeat match goal with
             | H : context [inject_Z (_ + _)] |- _ => rewrite inject_Z_plus in H
             | H : context [inject_Z (_ * _)] |- _ => rewrite inject_Z_mult in H
             end;
      repeat match goal with
             | H : context [inject_Z (Zpos ?p)] |- _ =>
                 change (inject_Z (Zpos p)) with (Zpos p # 1)%Q in H
             end;
      change (inject_Z 0) with 0%Q in *;
      pose proof eps_small as Heta; pose proof (pow2_pos (-1075)) as Heta0;
      pose proof (roundNE_error (inject_Z t) ltac:(lra)) as Et;
      fold (ofZ t) in Et; apply Qabs_Qle_condition in Et; rewrite pow2_53 in Et;
      set (T := inject_Z t) in *; set (t' := ofZ t) in *;
      set (eta := pow2 (-1075)) in *;
      assert (Ht' : (0 < t')%Q) by lra;
      set (x1 := (t' / (G # 1))%Q);
      assert (Hx1 : (x1 * (G # 1) == t')%Q) by (unfold x1; field);
      assert (Hx1p : (0 < x1)%Q) by lra;
      pose proof (roundNE_error x1 Hx1p) as Eq;
      apply Qabs_Qle_condition in Eq; rewrite pow2_53 in Eq; fold eta in Eq;
      set (q := roundNE x1) in *;
      assert (Hq : (0 < q * (100 # 1))%Q) by lra;
      pose proof (roundNE_error (q * (100 # 1))%Q Hq) as Ep;
      apply Qabs_Qle_condition in Ep; rewrite pow2_53 in Ep; fold eta in Ep;
      set (p := roundNE (q * (100 # 1))) in *;
      apply lemma;
      repeat match goal with
             | |- context [inject_Z (Zpos ?p)] =>
                 change (inject_Z (Zpos p)) with (Zpos p # 1)%Q
             end;
      lra
  end.

Lemma percent_8_at_least t k :
  0 <= t < 2 ^ 43 -> 0 < k -> 57600 * k + 1 <= 200 * t + 28800 ->
  k <= percentOf 8 t.
Proof.
  intros [Hlo Hhi] Hk H. change (2 ^ 43) with 8796093022208 in Hhi.
  assert (Hnz : t <> 0) by lia.
  unfold percentOf. change (ofZ (8 * 3600)) with (28800 # 1)%Q.
  change (ofZ 100) with (100 # 1)%Q.
  percent_side 28800 Qfloor_at_least.
Qed.

Lemma percent_8_at_most t k :
  0 <= t < 2 ^ 43 -> 0 <= k -> 200 * t + 28800 <= 57600 * k + 57599 ->
  percentOf 8 t <= k.
Proof.
  intros [Hlo Hhi] Hk H. change (2 ^ 43) with 8796093022208 in Hhi.
  destruct (Z.eq_dec t 0) as [->|Hnz];
    [replace (percentOf 8 0) with 0 by (vm_compute; reflexivity); lia|].
  unfold percentOf. change (ofZ (8 * 3600)) with (28800 # 1)%Q.
  change (ofZ 100) with (100 # 1)%Q.
  percent_side 28800 Qfloor_at_most.
Qed.

Lemma percent_40_at_least t k :
  0 <= t < 2 ^ 43 -> 0 < k -> 288000 * k + 1 <= 200 * t + 144000 ->
  k <= percentOf 40 t.
Proof.
  intros [Hlo Hhi] Hk H. change (2 ^ 43) with 8796093022208 in Hhi.
  assert (Hnz : t <> 0) by lia.
  unfold percentOf. change (ofZ (40 * 3600)) with (144000 # 1)%Q.
  change (ofZ 100) with (100 # 1)%Q.
  percent_side 144000 Qfloor_at_least.
Qed.

Lemma percent_40_at_most t k :
  0 <= t < 2 ^ 43 -> 0 <= k -> 200 * t + 144000 <= 288000 * k + 287999 ->
  percentOf 40 t <= k.
Proof.
  intros [Hlo Hhi] Hk H. change (2 ^ 43) with 8796093022208 in Hhi.
  destruct (Z.eq_dec t 0) as [->|Hnz];
    [replace (percentOf 40 0) with 0 by (vm_compute; reflexivity); lia|].
  unfold percentOf. change (ofZ (40 * 3600)) with (144000 # 1)%Q.
  change (ofZ 100) with (100 # 1)%Q.
  percent_side 144000 Qfloor_at_most.
Qed.

Lemma colour_of p :
  getProgressColor p
  = if 100 <=? p then success else if 75 <=? p then warning else danger.
Proof. reflexivity. Qed.

(** The colour of a bar, from the seconds logged.  A day's bar is green
    from 7 h 57 min 36 s on, orange from 5 h 57 min 36 s on and red below;
    the week's bar is green from 39 h 48 min, orange from 29 h 48 min and
    red below.  These are the counts at which the percentage, computed in
    doubles, reaches 100 and 75. *)
Theorem bar_colours t :
  0 <= t < 2 ^ 43 ->
  getProgressColor (percentOf 8 t)
  = (if 28656 <=? t then success else if 21456 <=? t then warning else danger)
  /\ getProgressColor (percentOf 40 t)
     = (if 143280 <=? t then success else if 107280 <=? t then warning else danger).
Proof.
  intros Ht. rewrite !colour_of. split.
  - destruct (Z.leb_spec 28656 t) as [H1|H1].
    + assert (100 <= percentOf 8 t).
      { destruct (Z.eq_dec t 28656) as [->|Hne]; [vm_compute; discriminate|].
        apply percent_8_at_least; lia. }
      destruct (Z.leb_spec 100 (percentOf 8 t)); [reflexivity|lia].
    + assert (percentOf 8 t <= 99) by (apply percent_8_at_most; lia).
      destruct (Z.leb_spec 100 (percentOf 8 t)); [lia|].
      destruct (Z.leb_spec 21456 t) as [H2|H2].
      * assert (75 <= percentOf 8 t).
        { destruct (Z.eq_dec t 21456) as [->|Hne]; [vm_compute; discriminate|].
          apply percent_8_at_least; lia. }
        destruct (Z.leb_spec 75 (percentOf 8 t)); [reflexivity|lia].
      * assert (percentOf 8 t <= 74) by (apply percent_8_at_most; lia).
        destruct (Z.leb_spec 75 (percentOf 8 t)); [lia|reflexivity].
  - destruct (Z.leb_spec 143280 t) as [H1|H1].
    + assert (100 <= percentOf 40 t).
      { destruct (Z.eq_dec t 143280) as [->|Hne]; [vm_compute; discriminate|].
        apply percent_40_at_least; lia. }
      destruct (Z.leb_spec 100 (percentOf 40 t)); [reflexivity|lia].
    + assert (percentOf 40 t <= 99) by (apply percent_40_at_most; lia).
      destruct (Z.leb_spec 100 (percentOf 40 t)); [lia|].
      destruct (Z.leb_spec 107280 t) as [H2|H2].
      * assert (75 <= percentOf 40 t).
        { destruct (Z.eq_dec t 107280) as [->|Hne]; [vm_compute; discriminate|].
          apply percent_40_at_least; lia. }
        destruct (Z.leb_spec 75 (percentOf 40 t)); [reflexivity|lia].
      * assert (percentOf 40 t <= 74) by (apply percent_40_at_most; lia).
        destruct (Z.leb_spec 75 (percentOf 40 t)); [lia|reflexivity].
Qed.

Lemma bar_colours_witness :
  getProgressColor (percentOf 8 27000)
  = (if 28656 <=? 27000 then success else if 21456 <=? 27000 then warning else danger)
  /\ getProgressColor (percentOf 40 27000)
     = (if 143280 <=? 27000 then success
        else if 107280 <=? 27000 then warning else danger).
Proof. apply (bar_colours 27000). vm_compute. split; [discriminate|reflexivity]. Defined.

End BarColours.

(* ------------------------------------------------------------------ *)
(** ** The hours figure *)

Module HoursFigure.

Import JsDouble DoubleFacts Server ProgressClaims BarColours.
Local Open Scope Z_scope.

Lemma ofZ_0 : ofZ 0 = 0%Q.
Proof. reflexivity. Qed.

(** The roundings of [hours2], one after the other. *)
Lemma hours2_error t :
  0 <= t < 2 ^ 43 ->
  (Qabs (hours2 t - inject_Z t / 3600) <= (1 # 200) + (1 # 100000))%Q.
Proof.
  intros [Hlo Hhi]. change (2 ^ 43) with 8796093022208 in Hhi.
  destruct (Z.eq_dec t 0) as [->|Hnz]; [vm_compute; discriminate|].
  unfold hours2. change (ofZ 3600) with (3600 # 1)%Q.
  change (ofZ 100) with (100 # 1)%Q.
  unfold fdiv, fmul, MathRound.
  assert (Hn : (1 <= inject_Z t)%Q)
    by (change 1%Q with (inject_Z 1); rewrite <- Zle_Qle; lia).
  rewrite Zlt_Qlt in Hhi.
  change (inject_Z 8796093022208) with (8796093022208 # 1)%Q in Hhi.
  pose proof eps_small as Heta. pose proof (pow2_pos (-1075)) as Heta0.
  pose proof (roundNE_error (inject_Z t) ltac:(lra)) as Et.
  fold (ofZ t) in Et. apply Qabs_Qle_condition in Et. rewrite pow2_53 in Et.
  set (T := inject_Z t) in *. set (t' := ofZ t) in *.
  set (eta := pow2 (-1075)) in *.
  assert (Ht' : (0 < t')%Q) by lra.
  set (x1 := (t' / (3600 # 1))%Q).
  assert (Hx1 : (x1 * (3600 # 1) == t')%Q) by (unfold x1; field).
  assert (Hx1p : (0 < x1)%Q) by lra.
  pose proof (roundNE_error x1 Hx1p) as Eq.
  apply Qabs_Qle_condition in Eq. rewrite pow2_53 in Eq. fold eta in Eq.
  set (q := roundNE x1) in *.
  assert (Hq : (0 < q * (100 # 1))%Q) by lra.
  pose proof (roundNE_error (q * (100 # 1))%Q Hq) as Ep.
  apply Qabs_Qle_condition in Ep. rewrite pow2_53 in Ep. fold eta in Ep.
  set (p := roundNE (q * (100 # 1))) in *.
  pose proof (Qfloor_le (p + (1 # 2))) as F1.
  pose proof (Qlt_floor (p + (1 # 2))) as F2.
  rewrite inject_Z_plus in F2. change (inject_Z 1) with 1%Q in F2.
  set (k := Qfloor (p + (1 # 2))) in *.
  assert (HT : (T / 3600 * (3600 # 1) == T)%Q) by field.
  set (X := (T / 3600)%Q) in *.
  destruct (Z.eq_dec k 0) as [E0|E0].
  - rewrite E0 in *. rewrite ofZ_0.
    rewrite (roundNE_zero (0 / (100 # 1))%Q) by reflexivity.
    change (inject_Z 0) with 0%Q in *.
    apply Qabs_Qle_condition. split; lra.
  - assert (Hk : (1 <= inject_Z k)%Q).
    { change 1%Q with (inject_Z 1). rewrite <- Zle_Qle.
      assert (0 <= k); [|lia].
      apply Qfloor_at_least. change (inject_Z 0) with 0%Q. lra. }
    pose proof (roundNE_error (inject_Z k) ltac:(lra)) as Ek.
    fold (ofZ k) in Ek. apply Qabs_Qle_condition in Ek. rewrite pow2_53 in Ek.
    fold eta in Ek.
    set (K := inject_Z k) in *. set (k' := ofZ k) in *.
    assert (Hk' : (0 < k')%Q) by lra.
    set (y := (k' / (100 # 1))%Q).
    assert (Hy : (y * (100 # 1) == k')%Q) by (unfold y; field).
    assert (Hyp : (0 < y)%Q) by lra.
    pose proof (roundNE_error y Hyp) as Eh.
    apply Qabs_Qle_condition in Eh. rewrite pow2_53 in Eh. fold eta in Eh.
    set (h := roundNE y) in *.
    apply Qabs_Qle_condition. split; lra.
Qed.

(** [totalHours], the count of seconds in hours rounded to hundredths
    ([Math.round(hours * 100) / 100] in doubles), is within half a
    hundredth of an hour of the exact quotient, up to the rounding of the
    doubles, for every count from 0 below 2^43; so it never shows more than
    18.04 seconds too much or too little. *)
Theorem hours2_accuracy t :
  0 <= t < 2 ^ 43 ->
  (Qabs (hours2 t - inject_Z t / 3600) <= (1 # 200) + (1 # 100000))%Q
  /\ (Qabs (hours2 t * 3600 - inject_Z t) <= 1804 # 100)%Q.
Proof.
  intros H. pose proof (hours2_error t H) as E. split; [exact E|].
  apply Qabs_Qle_condition in E. apply Qabs_Qle_condition.
  assert (X : (inject_Z t / 3600 * 3600 == inject_Z t)%Q) by field.
  split; lra.
Qed.

Lemma hours2_accuracy_witness :
  (Qabs (hours2 5430 - inject_Z 5430 / 3600) <= (1 # 200) + (1 # 100000))%Q
  /\ (Qabs (hours2 5430 * 3600 - inject_Z 5430) <= 1804 # 100)%Q.
Proof. apply (hours2_accuracy 5430). vm_compute. split; [discriminate|reflexivity]. Defined.

End HoursFigure.

(* ------------------------------------------------------------------ *)
(** ** The issues of the worklog summary *)

Module SummaryFacts.

Import Server PeriodClaims.
Local Open Scope string_scope.
Local Open Scope Z_scope.
Local Open Scope list_scope.

(** The report of a response of the period route. *)
Definition summaryOf (x : list event * Response) : SummaryReport :=
  match snd x with
  | {| body := SummaryBody r |} => r
  | _ => {| sr_period := ""; sr_totalSeconds := 0; sr_totalHours := 0;
            sr_worklogsByIssue := [] |}
  end.

(** A worklog as the summary lists it. *)
Definition listed (w : Worklog) : IssueWorklog :=
  {| iw_id := wl_id w; iw_timeSpentSeconds := wl_timeSpentSeconds w;
     iw_started := wl_started w; iw_comment := wl_comment w |}.

Definition secondsOf (ws : list Worklog) : Z :=
  fold_right (fun w acc => wl_timeSpentSeconds w + acc) 0 ws.

Definition listedSeconds (ws : list IssueWorklog) : Z :=
  fold_right (fun w acc => iw_timeSpentSeconds w + acc) 0 ws.

Definition issueSeconds (l : list IssueSummary) : Z :=
  fold_right (fun x acc => is_totalSeconds x + acc) 0 l.

(** The entry of one issue of the search, if it gets one: its worklogs
    could be fetched and those that count add up to more than zero. *)
Definition entryOfIssue (up : Upstream) (accountId : string)
    (startDate endDate : Z) (issue : Issue) : list IssueSummary :=
  match up_worklogs up (key issue) with
  | Ok worklogs =>
      let mine := filter (counted accountId startDate endDate) worklogs in
      if 0 <? secondsOf mine
      then [{| is_issueKey := key issue; is_summary := summary issue;
               is_totalSeconds := secondsOf mine;
               is_worklogs := List.map listed mine |}]
      else []
  | Failed _ => []
  end.

(** Seconds of the issues whose worklogs could be fetched. *)
Definition fetchedSeconds (up : Upstream) (accountId : string)
    (startDate endDate : Z) (issues : list Issue) : Z :=
  fold_right
    (fun issue acc =>
       match up_worklogs up (key issue) with
       | Ok worklogs => secondsOf (filter (counted accountId startDate endDate) worklogs)
       | Failed _ => 0
       end + acc)
    0 issues.

Lemma secondsOf_cons w ws : secondsOf (w :: ws) = wl_timeSpentSeconds w + secondsOf ws.
Proof. reflexivity. Qed.

Lemma fold_listed a s e worklogs : forall total issueTotal issueWorklogs,
  fold_left (addIssueWorklog a s e) worklogs (total, issueTotal, issueWorklogs)
  = (total + secondsOf (filter (counted a s e) worklogs),
     issueTotal + secondsOf (filter (counted a s e) worklogs),
     issueWorklogs ++ List.map listed (filter (counted a s e) worklogs)).
Proof.
  induction worklogs as [|w ws IH]; intros total issueTotal issueWorklogs;
    cbn [fold_left filter].
  - cbn [secondsOf fold_right List.map]. rewrite !Z.add_0_r, app_nil_r. reflexivity.
  - unfold addIssueWorklog at 2. destruct (counted a s e w).
    + rewrite IH, secondsOf_cons. cbn [List.map].
      fold (listed w). rewrite <- app_assoc, <- !Z.add_assoc. reflexivity.
    + apply IH.
Qed.

Lemma periodLoop_listed up a s e issues : forall st,
  exists tr,
    periodLoop up a s e issues st
    = (tr, Ok (fst st + fetchedSeconds up a s e issues,
               snd st ++ flat_map (entryOfIssue up a s e) issues)).
Proof.
  induction issues as [|i rest IH]; intros st.
  - exists []. destruct st. cbn. rewrite Z.add_0_r, app_nil_r. reflexivity.
  - cbn [periodLoop fetchedSeconds fold_right flat_map].
    fold (fetchedSeconds up a s e rest). unfold entryOfIssue at 1.
    unfold request. destruct (up_worklogs up (key i)) as [worklogs|err].
    + cbn [bind catch ret]. rewrite fold_listed. cbn [bind catch ret app].
      match goal with
      | |- context [periodLoop up a s e rest ?x] =>
          destruct (IH x) as [tr ->]
      end.
      eexists. cbn [fst snd]. cbv zeta. rewrite Z.add_0_l. cbn [app].
      apply f_equal2; [reflexivity|]. f_equal. apply f_equal2; [lia|].
      destruct (0 <? secondsOf (filter (counted a s e) worklogs));
        [rewrite <- app_assoc|]; reflexivity.
    + cbn [bind catch ret app]. destruct (IH st) as [tr ->].
      eexists. reflexivity.
Qed.

Lemma listedSeconds_cons w ws :
  listedSeconds (w :: ws) = iw_timeSpentSeconds w + listedSeconds ws.
Proof. reflexivity. Qed.

Lemma issueSeconds_cons x l : issueSeconds (x :: l) = is_totalSeconds x + issueSeconds l.
Proof. reflexivity. Qed.

Lemma listedSeconds_map ws : listedSeconds (List.map listed ws) = secondsOf ws.
Proof.
  induction ws as [|w ws IH]; [reflexivity|].
  cbn [List.map]. rewrite listedSeconds_cons, secondsOf_cons, IH. reflexivity.
Qed.

Lemma secondsOf_nonneg ws :
  (forall w, In w ws -> 0 <= wl_timeSpentSeconds w) -> 0 <= secondsOf ws.
Proof.
  induction ws as [|w ws IH]; intros H; [cbn; lia|].
  rewrite secondsOf_cons. pose proof (H w (or_introl eq_refl)) as Hw.
  assert (0 <= secondsOf ws) by (apply IH; intros x Hx; apply H; right; exact Hx). lia.
Qed.

Lemma issueSeconds_app a b : issueSeconds (a ++ b) = issueSeconds a + issueSeconds b.
Proof.
  induction a as [|x a IH]; [reflexivity|].
  cbn [List.app]. rewrite !issueSeconds_cons, IH. lia.
Qed.



End SummaryFacts.

(* ------------------------------------------------------------------ *)
(** ** The week's total in the timesheet and in the summary *)

Module WeekTotals.

Import DateFacts ClockFacts Server PeriodClaims DailyFacts BucketFacts SummaryFacts.
Local Open Scope string_scope.
Local Open Scope Z_scope.
Local Open Scope list_scope.

(** Whether an entry started on one of the seven UTC days from [D0] on. *)
Definition onBucketDay (D0 : Z) (en : LoggedEntry) : bool :=
  (D0 <=? Day (le_started en)) && (Day (le_started en) <=? D0 + 6).

Definition onDay (D0 i : Z) (en : LoggedEntry) : bool :=
  Day (le_started en) =? D0 + i.

Lemma entrySeconds_cons en L :
  entrySeconds (en :: L) = le_timeSpentSeconds en + entrySeconds L.
Proof. reflexivity. Qed.

Lemma entrySeconds_filter_cons (f : LoggedEntry -> bool) en L :
  entrySeconds (filter f (en :: L))
  = (if f en then le_timeSpentSeconds en else 0) + entrySeconds (filter f L).
Proof. cbn [filter]. destruct (f en); [apply entrySeconds_cons|reflexivity]. Qed.

Lemma seven_days D0 L :
  entrySeconds (filter (onDay D0 0) L) + entrySeconds (filter (onDay D0 1) L)
  + entrySeconds (filter (onDay D0 2) L) + entrySeconds (filter (onDay D0 3) L)
  + entrySeconds (filter (onDay D0 4) L) + entrySeconds (filter (onDay D0 5) L)
  + entrySeconds (filter (onDay D0 6) L)
  = entrySeconds (filter (onBucketDay D0) L).
Proof.
  induction L as [|en L IH]; [reflexivity|].
  rewrite !entrySeconds_filter_cons, <- IH. unfold onDay, onBucketDay.
  destruct (Z.eqb_spec (Day (le_started en)) (D0 + 0));
    destruct (Z.eqb_spec (Day (le_started en)) (D0 + 1));
    destruct (Z.eqb_spec (Day (le_started en)) (D0 + 2));
    destruct (Z.eqb_spec (Day (le_started en)) (D0 + 3));
    destruct (Z.eqb_spec (Day (le_started en)) (D0 + 4));
    destruct (Z.eqb_spec (Day (le_started en)) (D0 + 5));
    destruct (Z.eqb_spec (Day (le_started en)) (D0 + 6));
    destruct (Z.leb_spec D0 (Day (le_started en)));
    destruct (Z.leb_spec (Day (le_started en)) (D0 + 6));
    cbn [andb]; lia.
Qed.

Lemma filter_every {A} (f : A -> bool) l :
  (forall x, In x l -> f x = true) -> filter f l = l.
Proof.
  induction l as [|x l IH]; intros H; cbn [filter]; [reflexivity|].
  rewrite (H x (or_introl eq_refl)). f_equal. apply IH. intros y Hy. apply H.
  right. exact Hy.
Qed.

Lemma entrySeconds_filter_le (f : LoggedEntry -> bool) L :
  (forall en, In en L -> 0 <= le_timeSpentSeconds en) ->
  entrySeconds (filter f L) <= entrySeconds L.
Proof.
  induction L as [|en L IH]; intros H; [cbn; lia|].
  cbn [filter]. pose proof (H en (or_introl eq_refl)).
  assert (entrySeconds (filter f L) <= entrySeconds L)
    by (apply IH; intros x Hx; apply H; right; exact Hx).
  destruct (f en); rewrite ?entrySeconds_cons; lia.
Qed.

Lemma entrySeconds_counted up a s e issues :
  entrySeconds (countedEntries up a s e issues) = fetchedSeconds up a s e issues.
Proof.
  induction issues as [|i rest IH]; [reflexivity|].
  cbn [countedEntries flat_map fetchedSeconds fold_right].
  fold (countedEntries up a s e rest). fold (fetchedSeconds up a s e rest).
  rewrite entrySeconds_app, IH. f_equal.
  destruct (up_worklogs up (key i)) as [ws|]; [|reflexivity].
  induction (filter (counted a s e) ws) as [|w l IHl]; [reflexivity|].
  cbn [List.map]. rewrite entrySeconds_cons, secondsOf_cons, IHl. reflexivity.
Qed.

Lemma sum_by_bucket buckets :
  Forall balanced buckets ->
  sumSeconds buckets
  = fold_right (fun l acc => entrySeconds l + acc) 0 (List.map b_worklogs buckets).
Proof.
  induction 1 as [|b bs Hb _ IH]; [reflexivity|].
  cbn [sumSeconds fold_right List.map]. fold (sumSeconds bs). rewrite IH, Hb.
  reflexivity.
Qed.

(** The total of the daily route: the seconds of the counted entries that
    started on one of the seven UTC days of the buckets. *)
Lemma daily_total up tz now tr r :
  getWorklogsDaily up tz now = (tr, json (DailyBody r)) ->
  exists user issues,
    up_myself up = Ok user
    /\ up_worklogIssues up (toISODate (weekStartDate tz now)) = Ok issues
    /\ totalSeconds r
       = entrySeconds
           (filter (onBucketDay (Day (weekStartDate tz now)))
              (countedEntries up (accountId user) (weekStartDate tz now)
                 (weekEndDate tz now) issues)).
Proof.
  unfold getWorklogsDaily, route, request.
  destruct (up_myself up) as [user|err]; cbn [bind]; [|intros H; inversion H].
  destruct (up_worklogIssues up _) as [issues|err]; cbn [bind]; [|intros H; inversion H].
  destruct (dailyLoop_filed up (accountId user) (weekStartDate tz now)
              (weekEndDate tz now) issues
              (initDailyTotals tz (weekStartDate tz now)) 0 []
              (init_distinct tz (weekStartDate tz now))
              (init_filed tz (weekStartDate tz now)))
    as (tr' & st' & El & F & Lb).
  destruct (dailyLoop_consistent up (accountId user) (weekStartDate tz now)
              (weekEndDate tz now) issues _ (init_consistent tz (weekStartDate tz now)))
    as (tr2 & st2 & El2 & [Hsum Hbal] & _).
  rewrite El in El2. inversion El2. subst tr2 st2. clear El2.
  rewrite El. cbn [bind ret List.app]. intros H. inversion H; subst. clear H.
  exists user, issues. split; [reflexivity|]. split; [reflexivity|].
  rewrite app_nil_l in F. destruct st' as [d' t'].
  cbn [fst snd dailyReport totalSeconds] in *.
  set (L := countedEntries up (accountId user) (weekStartDate tz now)
              (weekEndDate tz now) issues) in *.
  assert (W : List.map b_worklogs (dictValues d')
              = List.map (fun i => filter (onDay (Day (weekStartDate tz now)) i) L)
                  [0; 1; 2; 3; 4; 5; 6]).
  { transitivity (List.map (fun x : isoDate * string * list LoggedEntry => snd x)
                    (List.map (fun b => (b_date b, b_dayName b, b_worklogs b))
                       (dictValues d'))).
    - rewrite List.map_map. reflexivity.
    - rewrite (filed_labels_determine d' _ F), Lb, initDailyTotals_spec.
      unfold labels, emptyDay. rewrite !List.map_map.
      cbn [fst snd b_date b_dayName List.map]. rewrite !filter_under. reflexivity. }
  rewrite Hsum, (sum_by_bucket _ Hbal), W. cbn [List.map fold_right].
  rewrite <- seven_days. lia.
Qed.

Lemma week_is_the_period tz now :
  periodStart tz now "week" = weekStartDate tz now
  /\ periodEnd tz now "week" = weekEndDate tz now.
Proof.
  split.
  - rewrite periodStart_week, weekStart_local. reflexivity.
  - rewrite periodEnd_week, weekEnd_local. reflexivity.
Qed.

(** The week's total of the timesheet against that of the worklog summary
    for the same week, answered from the same upstream data.  The timesheet
    counts the entries of the summary that started on one of the seven UTC
    days of its buckets: on a UTC clock the two totals are equal, and
    elsewhere, no worklog being negative, the timesheet's total is at most
    the summary's. *)
Theorem week_totals_agree up tz now tr1 r1 tr2 r2 :
  getWorklogsDaily up tz now = (tr1, json (DailyBody r1)) ->
  getWorklogs up tz now (Some "week") = (tr2, json (SummaryBody r2)) ->
  (tz = 0 -> totalSeconds r1 = sr_totalSeconds r2)
  /\ ((forall k worklogs w,
          up_worklogs up k = Ok worklogs -> In w worklogs ->
          0 <= wl_timeSpentSeconds w) ->
      totalSeconds r1 <= sr_totalSeconds r2).
Proof.
  intros H1 H2.
  destruct (daily_total up tz now tr1 r1 H1) as (user & issues & Hu & Hi & Ht).
  destruct (week_is_the_period tz now) as [Es Ee].
  revert H2. unfold getWorklogs, route, request. rewrite Hu. cbn [bind].
  rewrite Es, Ee, Hi. cbn [bind].
  destruct (periodLoop_listed up (accountId user) (weekStartDate tz now)
              (weekEndDate tz now) issues (0, [])) as [tr' El].
  rewrite El. cbn [bind ret List.app fst snd]. intros H. inversion H; subst. clear H El.
  cbn [sr_totalSeconds]. rewrite <- entrySeconds_counted, Ht.
  set (L := countedEntries up (accountId user) (weekStartDate tz now)
              (weekEndDate tz now) issues).
  split.
  - intros ->. f_equal. apply filter_every. intros en Hin.
    apply countedEntries_in_week in Hin.
    rewrite weekStart_local, weekEnd_local in Hin. apply between_days in Hin.
    unfold onBucketDay. rewrite weekStart_local, Z.sub_0_r.
    rewrite Day_MakeDate by (unfold msPerDay; lia).
    unfold localDay, LocalTime in *. rewrite !Z.add_0_r in *.
    apply andb_true_iff. rewrite !Z.leb_le. exact Hin.
  - intros Hpos. apply entrySeconds_filter_le. intros en Hin.
    unfold L, countedEntries in Hin. apply in_flat_map in Hin as (i & _ & Hin).
    destruct (up_worklogs up (key i)) as [ws|] eqn:Ew; [|destruct Hin].
    apply in_map_iff in Hin as (w & <- & Hw). apply filter_In in Hw as [Hw _].
    cbn [entryOf le_timeSpentSeconds]. apply (Hpos (key i) ws w Ew Hw).
Qed.

Lemma week_totals_agree_witness :
  (0 = 0 ->
   totalSeconds
     (Scenario.reportOf
        (getWorklogsDaily Scenario.longWednesday 0 Scenario.wednesdayNoonWest))
   = sr_totalSeconds
       (summaryOf (getWorklogs Scenario.longWednesday 0
                     Scenario.wednesdayNoonWest (Some "week"))))
  /\ ((forall k worklogs w,
          up_worklogs Scenario.longWednesday k = Ok worklogs -> In w worklogs ->
          0 <= wl_timeSpentSeconds w) ->
      totalSeconds
        (Scenario.reportOf
           (getWorklogsDaily Scenario.longWednesday 0 Scenario.wednesdayNoonWest))
      <= sr_totalSeconds
           (summaryOf (getWorklogs Scenario.longWednesday 0
                         Scenario.wednesdayNoonWest (Some "week")))).
Proof.
  apply (week_totals_agree Scenario.longWednesday 0 Scenario.wednesdayNoonWest
           (fst (getWorklogsDaily Scenario.longWednesday 0 Scenario.wednesdayNoonWest))
           (Scenario.reportOf
              (getWorklogsDaily Scenario.longWednesday 0 Scenario.wednesdayNoonWest))
           (fst (getWorklogs Scenario.longWednesday 0
                   Scenario.wednesdayNoonWest (Some "week")))
           (summaryOf (getWorklogs Scenario.longWednesday 0
                         Scenario.wednesdayNoonWest (Some "week")))).
  - vm_compute. reflexivity.
  - vm_compute. reflexivity.
Defined.

End WeekTotals.

(* ------------------------------------------------------------------ *)
(** ** The subtask route, once the subtask exists *)

Module SubtaskFacts.

Import Server.
Local Open Scope string_scope.
Local Open Scope Z_scope.
Local Open Scope list_scope.

(** [projectName || parentIssue.data.fields.project.name] *)
Definition projectShown (projectName : option Json) (parent : Project) : Json :=
  match projectName with
  | Some j => if jsTruthy j then j else JStr (Server.projectName parent)
  | None => JStr (Server.projectName parent)
  end.

Definition summaryGiven (summary : option Json) : Json :=
  match summary with Some j => j | None => JNull end.



End SubtaskFacts.

(* ------------------------------------------------------------------ *)
(** ** What the routes ask upstream *)

Module TraceFacts.

Import Server.
Local Open Scope string_scope.
Local Open Scope Z_scope.
Local Open Scope list_scope.

(** The routes that the client reaches with GET. *)
Definition isGet (req : Request) : bool :=
  match req with
  | GetApiProjects | GetApiIssues _ _ | GetApiIssue _ | GetApiWorklogsDaily
  | GetApiWorklogs _ | GetApiStatuses | GetApiTransitions _ | GetApiSubtasks _
  | GetApiHealth => true
  | PutApiIssue _ _ | PostApiWorklog _ _ | PostApiComment _ _
  | PostApiTransition _ _ | PostApiSubtask _ _ _ => false
  end.

(** The upstream requests that are GETs. *)
Definition isRead (c : call) : bool :=
  match c with
  | GetProjects | SearchIssues _ _ _ | GetIssue _ _ _ | GetMyself
  | SearchWorklogIssues _ | GetWorklogs _ | GetStatuses | GetTransitions _
  | GetProjectStatuses _ => true
  | PutIssue _ _ | PostWorklog _ _ | PostComment _ _ | PostTransition _ _
  | PostIssue _ => false
  end.

Definition worklogRequests (issues : list Issue) : list call :=
  List.map (fun i => GetWorklogs (key i)) issues.

Lemma dailyLoop_requests up a s e issues : forall st,
  exists st',
    snd (dailyLoop up a s e issues st) = Ok st'
    /\ List.map fst (fst (dailyLoop up a s e issues st)) = worklogRequests issues.
Proof.
  induction issues as [|i rest IH]; intros st.
  - exists st. split; reflexivity.
  - cbn [dailyLoop worklogRequests List.map]. unfold request.
    destruct (up_worklogs up (key i)) as [worklogs|err]; cbn [bind catch ret List.app].
    + match goal with
      | |- context [dailyLoop up a s e rest ?x] =>
          destruct (IH x) as (st' & Hs & Ht);
          destruct (dailyLoop up a s e rest x) as [tr res]
      end.
      cbn [fst snd] in *. exists st'. split; [exact Hs|].
      cbn [List.map fst List.app]. rewrite Ht. reflexivity.
    + destruct (IH st) as (st' & Hs & Ht).
      destruct (dailyLoop up a s e rest st) as [tr res].
      cbn [fst snd] in *. exists st'. split; [exact Hs|].
      cbn [List.map fst List.app]. rewrite Ht. reflexivity.
Qed.

Lemma periodLoop_requests up a s e issues : forall st,
  exists st',
    snd (periodLoop up a s e issues st) = Ok st'
    /\ List.map fst (fst (periodLoop up a s e issues st)) = worklogRequests issues.
Proof.
  induction issues as [|i rest IH]; intros st.
  - exists st. split; reflexivity.
  - cbn [periodLoop worklogRequests List.map]. unfold request.
    destruct (up_worklogs up (key i)) as [worklogs|err]; cbn [bind catch ret List.app].
    + destruct (fold_left _ worklogs _) as [[total issueTotal] issueWorklogs].
      cbn [bind catch ret List.app].
      match goal with
      | |- context [periodLoop up a s e rest ?x] =>
          destruct (IH x) as (st' & Hs & Ht);
          destruct (periodLoop up a s e rest x) as [tr res]
      end.
      cbn [fst snd] in *. exists st'. split; [exact Hs|].
      cbn [List.map fst List.app]. rewrite Ht. reflexivity.
    + destruct (IH st) as (st' & Hs & Ht).
      destruct (periodLoop up a s e rest st) as [tr res].
      cbn [fst snd] in *. exists st'. split; [exact Hs|].
      cbn [List.map fst List.app]. rewrite Ht. reflexivity.
Qed.

(** The two worklog routes ask upstream who the user is, then for the
    issues with work logged since the start of the range, then once for the
    worklogs of each issue found, in the order of the search and whether or
    not an earlier one of these requests failed; then they answer 200. *)
Theorem one_request_per_issue up tz now period user :
  up_myself up = Ok user ->
  (forall issues,
      up_worklogIssues up (toISODate (weekStartDate tz now)) = Ok issues ->
      List.map fst (fst (getWorklogsDaily up tz now))
      = GetMyself :: SearchWorklogIssues (toISODate (weekStartDate tz now))
        :: worklogRequests issues
      /\ status (snd (getWorklogsDaily up tz now)) = 200)
  /\ (forall issues,
         up_worklogIssues up (toISODate (periodStart tz now period)) = Ok issues ->
         List.map fst (fst (getWorklogs up tz now (Some period)))
         = GetMyself :: SearchWorklogIssues (toISODate (periodStart tz now period))
           :: worklogRequests issues
         /\ status (snd (getWorklogs up tz now (Some period))) = 200).
Proof.
  intros Hu. split; intros issues Hi.
  - unfold getWorklogsDaily, route, request. rewrite Hu. cbn [bind]. rewrite Hi.
    cbn [bind].
    match goal with
    | |- context [dailyLoop up ?a ?s ?e issues ?x] =>
        destruct (dailyLoop_requests up a s e issues x) as (st' & Hs & Ht);
        destruct (dailyLoop up a s e issues x) as [tr res]
    end.
    cbn [fst snd] in *. subst res. cbn [bind ret List.app fst snd List.map].
    rewrite app_nil_r, Ht. split; reflexivity.
  - unfold getWorklogs, route, request. rewrite Hu. cbn [bind]. rewrite Hi.
    cbn [bind].
    match goal with
    | |- context [periodLoop up ?a ?s ?e issues ?x] =>
        destruct (periodLoop_requests up a s e issues x) as (st' & Hs & Ht);
        destruct (periodLoop up a s e issues x) as [tr res]
    end.
    cbn [fst snd] in *. subst res. cbn [bind ret List.app fst snd List.map].
    rewrite app_nil_r, Ht. split; reflexivity.
Qed.

Lemma one_request_per_issue_witness :
  (forall issues,
      up_worklogIssues Scenario.longWednesday
        (toISODate (weekStartDate Scenario.tzWest Scenario.wednesdayNoonWest)) = Ok issues ->
      List.map fst (fst (getWorklogsDaily Scenario.longWednesday Scenario.tzWest
                           Scenario.wednesdayNoonWest))
      = GetMyself
        :: SearchWorklogIssues
             (toISODate (weekStartDate Scenario.tzWest Scenario.wednesdayNoonWest))
        :: worklogRequests issues
      /\ status (snd (getWorklogsDaily Scenario.longWednesday Scenario.tzWest
                        Scenario.wednesdayNoonWest)) = 200)
  /\ (forall issues,
         up_worklogIssues Scenario.longWednesday
           (toISODate (periodStart Scenario.tzWest Scenario.wednesdayNoonWest "month"))
         = Ok issues ->
         List.map fst (fst (getWorklogs Scenario.longWednesday Scenario.tzWest
                              Scenario.wednesdayNoonWest (Some "month")))
         = GetMyself
           :: SearchWorklogIssues
                (toISODate (periodStart Scenario.tzWest Scenario.wednesdayNoonWest "month"))
           :: worklogRequests issues
         /\ status (snd (getWorklogs Scenario.longWednesday Scenario.tzWest
                           Scenario.wednesdayNoonWest (Some "month"))) = 200).
Proof.
  apply (one_request_per_issue Scenario.longWednesday Scenario.tzWest
           Scenario.wednesdayNoonWest "month" Scenario.me).
  reflexivity.
Defined.

Lemma reads_worklogRequests issues : forallb isRead (worklogRequests issues) = true.
Proof. induction issues as [|i rest IH]; [reflexivity|exact IH]. Qed.

(** A route that the client reaches with GET never writes upstream: every
    request that it makes there is a GET. *)
Theorem get_routes_only_read up tz now req :
  isGet req = true ->
  forallb isRead (List.map fst (fst (app up tz now req))) = true.
Proof.
  destruct req; try discriminate; intros _; cbn [app].
  - unfold getProjects, route, request. destruct (up_projects up); reflexivity.
  - unfold getIssues, route, request. destruct (up_search up _ _ _); reflexivity.
  - unfold getIssue, route, request. destruct (up_issue up _); reflexivity.
  - unfold getWorklogsDaily, route, request.
    destruct (up_myself up) as [user|err]; cbn [bind]; [|reflexivity].
    destruct (up_worklogIssues up _) as [issues|err]; cbn [bind]; [|reflexivity].
    match goal with
    | |- context [dailyLoop up ?a ?s ?e issues ?x] =>
        destruct (dailyLoop_requests up a s e issues x) as (st' & Hs & Ht);
        destruct (dailyLoop up a s e issues x) as [tr res]
    end.
    cbn [fst snd] in *. subst res. cbn [bind ret List.app fst snd List.map forallb isRead].
    rewrite app_nil_r, Ht. apply reads_worklogRequests.
  - unfold getWorklogs, route, request.
    destruct (up_myself up) as [user|err]; cbn [bind]; [|reflexivity].
    destruct (up_worklogIssues up _) as [issues|err]; cbn [bind]; [|reflexivity].
    match goal with
    | |- context [periodLoop up ?a ?s ?e issues ?x] =>
        destruct (periodLoop_requests up a s e issues x) as (st' & Hs & Ht);
        destruct (periodLoop up a s e issues x) as [tr res]
    end.
    cbn [fst snd] in *. subst res. cbn [bind ret List.app fst snd List.map forallb isRead].
    rewrite app_nil_r, Ht. apply reads_worklogRequests.
  - unfold getStatuses, route, request. destruct (up_statuses up); reflexivity.
  - unfold getTransitions, route, request. destruct (up_transitions up _); reflexivity.
  - unfold getSubtasks, route, request. destruct (up_issueSubtasks up _); reflexivity.
  - unfold getHealth, route, request. destruct (up_myself up); reflexivity.
Qed.

Lemma get_routes_only_read_witness :
  forallb isRead
    (List.map fst (fst (app Scenario.longWednesday Scenario.tzWest
                          Scenario.wednesdayNoonWest GetApiWorklogsDaily))) = true.
Proof.
  apply (get_routes_only_read Scenario.longWednesday Scenario.tzWest
           Scenario.wednesdayNoonWest GetApiWorklogsDaily).
  reflexivity.
Defined.

End TraceFacts.

(* ------------------------------------------------------------------ *)
(** ** The marks of a day card *)

Module DayCardFacts.

Import JsDouble DoubleFacts Server Format ProgressClaims BarColours HoursFigure.
Import DailyFacts DayCard.
Local Open Scope Z_scope.

Lemma below_100 t :
  0 <= t < 2 ^ 43 -> percentOf 8 t < 100 -> t <= 28655.
Proof.
  intros Ht Hp. destruct (Z.le_gt_cases t 28655) as [H|H]; [exact H|].
  exfalso. assert (100 <= percentOf 8 t); [|lia].
  destruct (Z.eq_dec t 28656) as [->|Hne]; [vm_compute; discriminate|].
  apply percent_8_at_least; lia.
Qed.

Lemma hours_below_goal t :
  0 <= t <= 28655 -> lessThan (hours2 t) (inject_Z 8) = true.
Proof.
  intros Ht. unfold lessThan. apply negb_true_iff.
  destruct (Qle_bool (inject_Z 8) (hours2 t)) eqn:E; [|reflexivity].
  exfalso. apply Qle_bool_iff in E.
  assert (Hr : 0 <= t < 2 ^ 43) by (change (2 ^ 43) with 8796093022208; lia).
  pose proof (hours2_error t Hr) as A. apply Qabs_Qle_condition in A.
  assert (X : (inject_Z t / 3600 * 3600 == inject_Z t)%Q) by field.
  assert (B : (inject_Z t <= 28655 # 1)%Q)
    by (change (28655 # 1)%Q with (inject_Z 28655); rewrite <- Zle_Qle; lia).
  change (inject_Z 8) with (8 # 1)%Q in E. lra.
Qed.

(** The marks of a day card of a response of the daily route, for a total
    from 0 below 2^43.  A deficit is printed only on a card that is also
    marked incomplete, and it is the time missing to the eight hours, at
    least 2 min 25 s and at most 8 h: never zero and never negative. *)
Theorem deficit_is_positive up tz now tr r day past :
  getWorklogsDaily up tz now = (tr, json (DailyBody r)) ->
  In day (dailyData r) ->
  0 <= b_totalSeconds (d_day day) < 2 ^ 43 ->
  deficit past day <> None ->
  deficit past day = Some (formatHours (28800 - b_totalSeconds (d_day day)))
  /\ 145 <= 28800 - b_totalSeconds (d_day day) <= 28800
  /\ incomplete past day = true.
Proof.
  intros Hr Hin Ht. destruct (daily_response up tz now tr r Hr) as (st & -> & _).
  destruct st as [d0 total]. cbn [dailyReport dailyData] in Hin.
  apply in_map_iff in Hin as (b & <- & _).
  unfold deficit, incomplete. cbn [toDailyData d_progress d_goalHours d_day d_totalHours] in *.
  destruct (Z.ltb_spec (percentOf 8 (b_totalSeconds b)) 100) as [Hp|Hp];
    [|intros H; exfalso; apply H; reflexivity].
  destruct past; [|intros H; exfalso; apply H; reflexivity].
  intros _. cbn [andb]. pose proof (below_100 _ Ht Hp) as Hb.
  split; [reflexivity|]. split; [lia|].
  apply hours_below_goal. lia.
Qed.

Lemma deficit_is_positive_witness :
  deficit true
    (nth 1 (dailyData (Scenario.reportOf Scenario.longWednesdayOutcome))
       (toDailyData {| b_date := (0, 0, 0); b_dayName := EmptyString;
                       b_totalSeconds := 0; b_worklogs := nil |}))
  = Some (formatHours
            (28800 - b_totalSeconds
                       (d_day (nth 1 (dailyData (Scenario.reportOf Scenario.longWednesdayOutcome))
                                 (toDailyData {| b_date := (0, 0, 0); b_dayName := EmptyString;
                                                 b_totalSeconds := 0; b_worklogs := nil |})))))
  /\ 145 <= 28800 - b_totalSeconds
                      (d_day (nth 1 (dailyData (Scenario.reportOf Scenario.longWednesdayOutcome))
                                (toDailyData {| b_date := (0, 0, 0); b_dayName := EmptyString;
                                                b_totalSeconds := 0; b_worklogs := nil |})))
     <= 28800
  /\ incomplete true
       (nth 1 (dailyData (Scenario.reportOf Scenario.longWednesdayOutcome))
          (toDailyData {| b_date := (0, 0, 0); b_dayName := EmptyString;
                          b_totalSeconds := 0; b_worklogs := nil |})) = true.
Proof.
  apply (deficit_is_positive Scenario.longWednesday Scenario.tzWest
           Scenario.wednesdayNoonWest (fst Scenario.longWednesdayOutcome)
           (Scenario.reportOf Scenario.longWednesdayOutcome)).
  - vm_compute. reflexivity.
  - vm_compute. right. left. reflexivity.
  - vm_compute. split; [discriminate|reflexivity].
  - vm_compute. discriminate.
Defined.

End DayCardFacts.
